(** * A shallow embedding of the natlab virtual network (vnet) NAT engine,
      its link-layer writer, its DNS and NAT-PMP responders, and of the
      receive-path checksum validation (package gro).

    Go maps are [gmap]s, [netip] values are inductive data, unsigned
    machine integers are [Z] with the wrap-around written out, and the
    effects of a call (log lines, frames handed to a registered writer)
    are returned as a list of events next to the new network state.
    What the Go runtime decides on its own (the wall clock, the random
    numbers, the order in which [range] visits a map) is an explicit
    argument of the function that uses it. *)

From stdpp Require Import gmap strings list fin_maps.
From Stdlib Require Import ZArith Lia.

Local Open Scope Z_scope.

(** ** net/netip values *)

Module netip.

(** [netip.Addr]: the zero Addr, an IPv4 address, or an IPv6 address with
    its zone.  A 4-in-6 mapped address is an [Addr6]. *)
Inductive Addr :=
| AddrZero
| Addr4 (ip : Z)
| Addr6 (ip : Z) (zone : string).

#[global] Instance Addr_eq_dec : EqDecision Addr.
Proof. solve_decision. Defined.

#[global] Instance Addr_countable : Countable Addr.
Proof.
  refine (inj_countable'
    (λ a, match a with
          | AddrZero => inl ()
          | Addr4 ip => inr (inl ip)
          | Addr6 ip z => inr (inr (ip, z))
          end)
    (λ s, match s with
          | inl _ => AddrZero
          | inr (inl ip) => Addr4 ip
          | inr (inr (ip, z)) => Addr6 ip z
          end) _).
  by intros [].
Defined.

Definition Is4 (a : Addr) : bool :=
  match a with Addr4 _ => true | _ => false end.

Definition Is6 (a : Addr) : bool :=
  match a with Addr6 _ _ => true | _ => false end.

Definition IsValid (a : Addr) : bool :=
  match a with AddrZero => false | _ => true end.

(** [netip.AddrPort]; the zero value is [AddrPortFrom AddrZero 0]. *)
Record AddrPort := AddrPortFrom { addrOf : Addr; portOf : Z }.

#[global] Instance AddrPort_eq_dec : EqDecision AddrPort.
Proof. solve_decision. Defined.

#[global] Instance AddrPort_countable : Countable AddrPort.
Proof.
  refine (inj_countable'
    (λ ap, (addrOf ap, portOf ap)) (λ p, AddrPortFrom p.1 p.2) _).
  by intros [].
Defined.

Definition zeroAddrPort : AddrPort := AddrPortFrom AddrZero 0.

Definition apIsValid (ap : AddrPort) : bool := IsValid (addrOf ap).

End netip.

Import netip.

(** ** Time *)

(** A [time.Time] is an instant in nanoseconds; a [time.Duration] is a
    signed 64-bit count of nanoseconds. *)
Abbreviation Time := Z (only parsing).

Definition wrap64 (z : Z) : Z := (z + 2 ^ 63) mod 2 ^ 64 - 2 ^ 63.

Definition wrap16 (z : Z) : Z := z mod 2 ^ 16.

Definition wrap32 (z : Z) : Z := z mod 2 ^ 32.

Definition Second : Z := 1000000000.

(** [time.Duration(sec) * time.Second] *)
Definition secondsDuration (sec : Z) : Z := wrap64 (sec * Second).

(** [now.Before(t)] *)
Definition Before (now t : Time) : bool := now <? t.

(** ** MAC addresses, nodes, writers *)

(** [type MAC [6]byte], bytes as [Z]. *)
Definition MAC := list Z.

Definition broadcastMAC : MAC := [255; 255; 255; 255; 255; 255].

Definition IsBroadcast (m : MAC) : bool := bool_decide (m = broadcastMAC).

Record node := {
  node_mac : MAC;
  lanIP : Addr;
  verboseSyslog : bool
}.

(** A [networkWriter] without its closure: a call of [nw.write] is the
    event [Write nw frame]. *)
Record networkWriter := {
  nw_addr : option string;
  interfaceID : Z
}.

(** ** Port mappings *)

Record portMapping := {
  pm_dst : AddrPort;
  pm_expiry : Time
}.

Record portmapFlowKey := {
  peerWAN : AddrPort;
  lanAP : AddrPort
}.

#[global] Instance portmapFlowKey_eq_dec : EqDecision portmapFlowKey.
Proof. solve_decision. Defined.

#[global] Instance portmapFlowKey_countable : Countable portmapFlowKey.
Proof.
  refine (inj_countable'
    (λ k, (peerWAN k, lanAP k)) (λ p, {| peerWAN := p.1; lanAP := p.2 |}) _).
  by intros [].
Defined.

(** ** Events *)

Inductive event :=
| LogPortMapExpired (wan lan : AddrPort)
| LogAllocated (wan lan : AddrPort)
| LogSelfWrite (src : MAC)
| LogNoNode (ip : Addr)
| LogNoMAC (ip : Addr)
| LogNoNodeForMAC (m : MAC)
| LogSerializeError
| LogNATPMPFailed (src : Addr) (internalPort : Z)
| LogNATPMPTodo (payload : list Z)
| LogDNSError
| Write (nw : networkWriter) (frame : list Z).

Definition isWrite (e : event) : bool :=
  match e with Write _ _ => true | _ => false end.

(** [UDPPacket]: the unit that is NATed. *)
Record UDPPacket := {
  Src : AddrPort;
  Dst : AddrPort;
  Payload : list Z
}.

(** The Ethernet header [WriteUDPPacketNoNAT] puts in front of a packet. *)
Record ethHeader := {
  SrcMAC : MAC;
  DstMAC : MAC;
  EthernetType : Z
}.

Definition EthernetTypeIPv4 : Z := 2048.
Definition EthernetTypeIPv6 : Z := 34525.

(** [UDPPacket.etherType] *)
Definition etherType (p : UDPPacket) : Z :=
  if Is6 (addrOf (Dst p)) then EthernetTypeIPv6 else EthernetTypeIPv4.

(** Big-endian encoding and decoding of [encoding/binary]. *)
Definition be16 (z : Z) : list Z := [z / 256 mod 256; z mod 256].

Definition be32 (z : Z) : list Z :=
  [z / 16777216 mod 256; z / 65536 mod 256; z / 256 mod 256; z mod 256].

Definition beUint (bs : list Z) : Z := fold_left (λ acc b, acc * 256 + b) bs 0.

(** [n] bytes of [z], most significant first. *)
Fixpoint beBytes (n : nat) (z : Z) : list Z :=
  match n with
  | O => []
  | S n' => beBytes n' (z / 256) ++ [z mod 256]
  end.

(** [Addr.AsSlice] *)
Definition AsSlice (a : Addr) : list Z :=
  match a with
  | AddrZero => []
  | Addr4 ip => be32 ip
  | Addr6 ip _ => beBytes 16 ip
  end.

(** [netip.AddrFromSlice] *)
Definition AddrFromSlice (b : list Z) : Addr :=
  match length b with
  | 4%nat => Addr4 (beUint b)
  | 16%nat => Addr6 (beUint b) ""
  | _ => AddrZero
  end.

(** [Addr.As4]: the four bytes of an IPv4 or 4-in-6 address; [None] where
    Go panics. *)
Definition As4 (a : Addr) : option (list Z) :=
  match a with
  | Addr4 ip => Some (be32 ip)
  | Addr6 ip _ => if Z.shiftr ip 32 =? 65535 then Some (be32 (ip mod 2 ^ 32)) else None
  | AddrZero => None
  end.

(** ** DNS messages (the fields of gopacket's [layers.DNS] the responder
    reads and writes) *)

Record DNSQuestion := {
  q_Name : string;
  q_Type : Z;
  q_Class : Z
}.

Record DNSResourceRecord := {
  rr_Name : string;
  rr_Type : Z;
  rr_Class : Z;
  rr_IP : list Z;
  rr_TTL : Z
}.

Record DNS := {
  ID : Z;
  QR : bool;
  OpCode : Z;
  AA : bool;
  TC : bool;
  RD : bool;
  RA : bool;
  ResponseCode : Z;
  QDCount : Z;
  ANCount : Z;
  Questions : list DNSQuestion;
  Answers : list DNSResourceRecord
}.

Definition DNSOpCodeQuery : Z := 0.
Definition DNSResponseCodeNoErr : Z := 0.
Definition DNSClassIN : Z := 1.
Definition DNSTypeA : Z := 1.
Definition DNSTypeAAAA : Z := 28.
Definition IPProtocolUDP : Z := 17.

Record UDP := {
  SrcPort : Z;
  DstPort : Z;
  udp_Payload : list Z
}.

(** The layers handed to [gopacket.SerializeLayers]. *)
Inductive layer :=
| LEthernet (e : ethHeader)
| LIPv4 (proto : Z) (src dst : list Z)
| LIPv6 (proto : Z) (src dst : list Z)
| LUDP (sport dport : Z)
| LPayload (b : list Z)
| LDNS (d : DNS).

(** [mkIPLayer]; [None] is its panic on a source that is neither IPv4 nor
    IPv6. *)
Definition mkIPLayer (proto : Z) (src dst : Addr) : option layer :=
  if Is4 src then Some (LIPv4 proto (AsSlice src) (AsSlice dst))
  else if Is6 src then Some (LIPv6 proto (AsSlice src) (AsSlice dst))
  else None.

(** A decoded [gopacket.Packet]: the layers that are present. *)
Record packet := {
  networkFlow : option (list Z * list Z);
  ethLayer : option ethHeader;
  udpLayer : option UDP;
  dnsLayer : option DNS
}.

Record ipSrcDst := {
  flow_src : Addr;
  flow_dst : Addr
}.

(** [ipSrcDst.etherType] *)
Definition flowEtherType (f : ipSrcDst) : Z :=
  if Is6 (flow_dst f) then EthernetTypeIPv6 else EthernetTypeIPv4.

(** [flow] *)
Definition flow (gp : packet) : ipSrcDst * bool :=
  match networkFlow gp with
  | None => ({| flow_src := AddrZero; flow_dst := AddrZero |}, false)
  | Some (sb, db) =>
      let src := AddrFromSlice sb in
      let dst := AddrFromSlice db in
      ({| flow_src := src; flow_dst := dst |}, IsValid src && IsValid dst)
  end.

(** [mem.HasSuffix] *)
Definition HasSuffix (s suffix : string) : bool :=
  (String.length suffix <=? String.length s)%nat
  && String.eqb
       (String.substring (String.length s - String.length suffix)
          (String.length suffix) s)
       suffix.

Record virtualIP := {
  v4 : Addr;
  v6 : Addr
}.

(** What a function that may panic gives back. *)
Inductive outcome (A : Type) :=
| Panic
| Ret (a : A).

Arguments Panic {A}.
Arguments Ret {A} a.

(** The pair [([]byte, error)] a responder returns. *)
Inductive response :=
| NoReply
| Reply (b : list Z)
| Failed.

(** ** The NAT strategy interface *)

(** What a strategy may ask of its network ([IPPool]): the three methods
    the network implements for it. *)
Record IPPool := {
  WANIP : Addr;
  SoleLANIP : Addr * bool;
  pool_IsPublicPortUsed : AddrPort → bool
}.

(** [NATTable]: the interface is declared elsewhere in the package; a
    strategy is any state type [T] with the three methods the network
    calls.  The two [Pick] methods may update the strategy's own state;
    [IsPublicPortUsed] is a query. *)
Class NATTable (T : Type) := {
  PickOutgoingSrc : IPPool → T → AddrPort → AddrPort → Time → AddrPort * T;
  PickIncomingDst : IPPool → T → AddrPort → AddrPort → Time → AddrPort * T;
  IsPublicPortUsed : IPPool → T → AddrPort → bool
}.

(** ** The network *)

Section Network.

Context {T : Type} `{!NATTable T}.

Record network := {
  mac : MAC;
  portmap : bool;
  wanIP4 : Addr;
  nodesByIP : gmap Addr node;
  nodesByMAC : gmap MAC node;
  natTable : T;
  portMap : gmap AddrPort portMapping;
  portMapFlow : gmap portmapFlowKey AddrPort;
  macOfIPv6 : gmap Addr MAC;
  writers : gmap MAC networkWriter
}.

Definition set_natTable (t : T) (n : network) : network :=
  {| mac := mac n; portmap := portmap n; wanIP4 := wanIP4 n;
     nodesByIP := nodesByIP n; nodesByMAC := nodesByMAC n;
     natTable := t;
     portMap := portMap n; portMapFlow := portMapFlow n;
     macOfIPv6 := macOfIPv6 n; writers := writers n |}.

Definition set_portMap (m : gmap AddrPort portMapping) (n : network) : network :=
  {| mac := mac n; portmap := portmap n; wanIP4 := wanIP4 n;
     nodesByIP := nodesByIP n; nodesByMAC := nodesByMAC n;
     natTable := natTable n;
     portMap := m; portMapFlow := portMapFlow n;
     macOfIPv6 := macOfIPv6 n; writers := writers n |}.

Definition set_portMapFlow (m : gmap portmapFlowKey AddrPort) (n : network) : network :=
  {| mac := mac n; portmap := portmap n; wanIP4 := wanIP4 n;
     nodesByIP := nodesByIP n; nodesByMAC := nodesByMAC n;
     natTable := natTable n;
     portMap := portMap n; portMapFlow := m;
     macOfIPv6 := macOfIPv6 n; writers := writers n |}.

(** [network.IsPublicPortUsed] *)
Definition net_IsPublicPortUsed (n : network) (ap : AddrPort) : bool :=
  bool_decide (is_Some (portMap n !! ap)).

(** [network.SoleLANIP] *)
Definition net_SoleLANIP (n : network) : Addr * bool :=
  match map_to_list (nodesByIP n) with
  | [(ip, _)] => (ip, true)
  | _ => (AddrZero, false)
  end.

Definition pool (n : network) : IPPool :=
  {| WANIP := wanIP4 n;
     SoleLANIP := net_SoleLANIP n;
     pool_IsPublicPortUsed := net_IsPublicPortUsed n |}.

(** *** doNATOut *)

Definition doNATOut (n : network) (now : Time) (src dst : AddrPort)
  : AddrPort * network :=
  if Is6 (addrOf src) then (src, n)
  else
    match portMapFlow n !! {| peerWAN := dst; lanAP := src |} with
    | Some wanAP => (wanAP, n)
    | None =>
        let '(newSrc, t) := PickOutgoingSrc (pool n) (natTable n) src dst now in
        (newSrc, set_natTable t n)
    end.

(** *** doNATIn *)

Definition doNATIn (n : network) (now : Time) (src dst : AddrPort)
  : AddrPort * network * list event :=
  if Is6 (addrOf dst) then (dst, n, [])
  else
    match portMap n !! dst with
    | Some pm =>
        if Before now (pm_expiry pm) then
          (pm_dst pm,
           set_portMapFlow
             (<[ {| peerWAN := src; lanAP := pm_dst pm |} := dst ]> (portMapFlow n)) n,
           [])
        else
          (zeroAddrPort,
           set_portMap (delete dst (portMap n)) n,
           [LogPortMapExpired dst (pm_dst pm)])
    | None =>
        let '(newDst, t) := PickIncomingDst (pool n) (natTable n) src dst now in
        (newDst, set_natTable t n, [])
    end.

(** *** doPortMap *)

(** The first entry, in the order [range] visits the map, whose LAN
    target is [d]. *)
Definition findMapping (order : list (AddrPort * portMapping)) (d : AddrPort)
  : option AddrPort :=
  fst <$> List.find (λ kv, bool_decide (pm_dst kv.2 = d)) order.

(** [rand.N(uint16(32<<10)) + 32<<10] on a draw [r]: the shift binds
    tighter than the sum, so this is [r + 32768] in uint16. *)
Definition ephemeralPort (r : Z) : Z := wrap16 (r + Z.shiftl 32 10).

(** The retry loop, [tries] iterations left, [try] the loop counter;
    [draws try] is the number [rand.N] returns in iteration [try]. *)
Fixpoint allocLoop (n : network) (draws : nat → Z) (tries : nat) (try : nat)
    (wanAP : AddrPort) : option AddrPort :=
  match tries with
  | O => None
  | S tries' =>
      if (0 <? portOf wanAP) && negb (IsPublicPortUsed (pool n) (natTable n) wanAP)
      then Some wanAP
      else allocLoop n draws tries' (S try)
             (AddrPortFrom (wanIP4 n) (ephemeralPort (draws try)))
  end.

Definition maxTries : nat := Z.to_nat 20000.

Definition doPortMap (n : network) (now : Time)
    (order : list (AddrPort * portMapping)) (draws : nat → Z)
    (src : Addr) (dstLANPort wantExtPort : Z) (sec : Z)
  : Z * bool * network * list event :=
  if negb (portmap n) then (0, false, n, [])
  else
    let wanAP := AddrPortFrom (wanIP4 n) wantExtPort in
    let d := AddrPortFrom src dstLANPort in
    if sec =? 0 then
      match portMap n !! wanAP with
      | Some pm =>
          if bool_decide (addrOf (pm_dst pm) = src)
          then (0, false, set_portMap (delete wanAP (portMap n)) n, [])
          else (0, false, n, [])
      | None => (0, false, n, [])
      end
    else
      let fresh := {| pm_dst := d; pm_expiry := now + secondsDuration sec |} in
      match findMapping order d with
      | Some k =>
          (portOf k, true, set_portMap (<[ k := fresh ]> (portMap n)) n, [])
      | None =>
          match allocLoop n draws maxTries 0 wanAP with
          | Some ap =>
              (portOf ap, true, set_portMap (<[ ap := fresh ]> (portMap n)) n,
               [LogAllocated ap d])
          | None => (0, false, n, [])
          end
      end.

(** *** writeEth *)

(** [worder] is the order in which [writers.Range] visits the registered
    writers. *)
Definition writeEth (n : network) (worder : list (MAC * networkWriter))
    (res : list Z) : bool * list event :=
  if (length res <? 12)%nat then (false, [])
  else
    let dstMAC : MAC := take 6 res in
    let srcMAC : MAC := take 6 (drop 6 res) in
    if IsBroadcast dstMAC then
      (negb (length worder =? 0)%nat, (λ kv, Write kv.2 res) <$> worder)
    else if bool_decide (srcMAC = dstMAC) then (false, [LogSelfWrite srcMAC])
    else
      match writers n !! dstMAC with
      | Some nw => (true, [Write nw res])
      | None => (false, [])
      end.

(** *** WriteUDPPacketNoNAT *)

Definition nodeForDestIP (n : network) (ip : Addr) : option node * list event :=
  match nodesByIP n !! ip with
  | Some nd => (Some nd, [])
  | None =>
      if Is6 ip then
        match macOfIPv6 n !! ip with
        | None => (None, [LogNoMAC ip])
        | Some m =>
            match nodesByMAC n !! m with
            | Some nd => (Some nd, [])
            | None => (None, [LogNoNodeForMAC m])
            end
        end
      else (None, [])
  end.

(** [gopacket.SerializeLayers] is an external library call; [None] is its
    error. *)
Variable SerializeLayers : list layer → option (list Z).

(** [serializedUDPPacket] *)
Definition serializedUDPPacket (src dst : AddrPort) (payload : list Z)
    (eth : option ethHeader) : outcome (option (list Z)) :=
  match mkIPLayer IPProtocolUDP (addrOf src) (addrOf dst) with
  | None => Panic
  | Some ip =>
      let layers := [ip; LUDP (portOf src) (portOf dst); LPayload payload] in
      Ret (SerializeLayers
             match eth with
             | Some e => LEthernet e :: layers
             | None => layers
             end)
  end.

Definition WriteUDPPacketNoNAT (n : network) (worder : list (MAC * networkWriter))
    (p : UDPPacket) : outcome (list event) :=
  match nodeForDestIP n (addrOf (Dst p)) with
  | (None, ev) => Ret (ev ++ [LogNoNode (addrOf (Dst p))])
  | (Some nd, ev) =>
      let eth := {| SrcMAC := mac n; DstMAC := node_mac nd;
                    EthernetType := etherType p |} in
      match serializedUDPPacket (Src p) (Dst p) (Payload p) (Some eth) with
      | Panic => Panic
      | Ret None => Ret (ev ++ [LogSerializeError])
      | Ret (Some ethRaw) => Ret (ev ++ (writeEth n worder ethRaw).2)
      end
  end.

(** *** handleNATPMPRequest *)

(** [uint32(time.Now().Unix())]; the clock is read once per request. *)
Definition unix32 (now : Time) : Z := wrap32 (now / Second).

Definition withEvents (n : network) (ev : list event)
    (o : outcome (list event)) : outcome (network * list event) :=
  match o with
  | Panic => Panic
  | Ret ev' => Ret (n, ev ++ ev')
  end.

Definition handleNATPMPRequest (n : network) (now : Time)
    (order : list (AddrPort * portMapping)) (draws : nat → Z)
    (worder : list (MAC * networkWriter)) (req : UDPPacket)
  : outcome (network * list event) :=
  if negb (portmap n) then Ret (n, [])
  else if bool_decide (Payload req = [0; 0]) then
    match As4 (wanIP4 n) with
    | None => Panic
    | Some wan4 =>
        let res := [0; 128; 0; 0] ++ be32 (unix32 now) ++ wan4 in
        withEvents n []
          (WriteUDPPacketNoNAT n worder
             {| Src := Dst req; Dst := Src req; Payload := res |})
    end
  else if bool_decide (length (Payload req) = 12%nat)
          && bool_decide (Payload req !! 0%nat = Some 0)
          && bool_decide (Payload req !! 1%nat = Some 1) then
    let internalPort := beUint (take 2 (drop 4 (Payload req))) in
    let wantExtPort := beUint (take 2 (drop 6 (Payload req))) in
    let lifetimeSec := beUint (take 4 (drop 8 (Payload req))) in
    match doPortMap n now order draws (addrOf (Src req))
            internalPort wantExtPort lifetimeSec with
    | (_, false, n', ev) =>
        Ret (n', ev ++ [LogNATPMPFailed (addrOf (Src req)) internalPort])
    | (gotPort, true, n', ev) =>
        let res := [0; 129; 0; 0] ++ be32 (unix32 now) ++ be16 internalPort
                     ++ be16 gotPort ++ be32 lifetimeSec in
        withEvents n' ev
          (WriteUDPPacketNoNAT n' worder
             {| Src := Dst req; Dst := Src req; Payload := res |})
    end
  else Ret (n, [LogNATPMPTodo (Payload req)]).

(** *** createDNSResponse *)

(** The table of virtual host names is declared elsewhere in the
    package. *)
Variable vips : gmap string virtualIP.

Definition ntpSuffix : string := ".pool.ntp.org".

(** The loop over the questions; [None] is its early [return nil, nil]. *)
Fixpoint answerQuestions (qs : list DNSQuestion) (resp : DNS) : option DNS :=
  match qs with
  | [] => Some resp
  | q :: qs' =>
      let resp1 :=
        {| ID := ID resp; QR := QR resp; OpCode := OpCode resp;
           AA := AA resp; TC := TC resp; RD := RD resp; RA := RA resp;
           ResponseCode := ResponseCode resp;
           QDCount := wrap16 (QDCount resp + 1); ANCount := ANCount resp;
           Questions := Questions resp ++ [q]; Answers := Answers resp |} in
      if HasSuffix (q_Name q) ntpSuffix then None
      else if negb (q_Class q =? DNSClassIN) then answerQuestions qs' resp1
      else if (q_Type q =? DNSTypeA) || (q_Type q =? DNSTypeAAAA) then
        match vips !! q_Name q with
        | Some v =>
            let ip := if q_Type q =? DNSTypeAAAA then v6 v else v4 v in
            answerQuestions qs'
              {| ID := ID resp1; QR := QR resp1; OpCode := OpCode resp1;
                 AA := AA resp1; TC := TC resp1; RD := RD resp1; RA := RA resp1;
                 ResponseCode := ResponseCode resp1;
                 QDCount := QDCount resp1; ANCount := wrap16 (ANCount resp1 + 1);
                 Questions := Questions resp1;
                 Answers := Answers resp1 ++
                   [{| rr_Name := q_Name q; rr_Type := q_Type q; rr_Class := q_Class q;
                       rr_IP := AsSlice ip; rr_TTL := 60 |}] |}
        | None => answerQuestions qs' resp1
        end
      else answerQuestions qs' resp1
  end.

(** The three unchecked type assertions panic on a packet without an
    Ethernet, a UDP or a DNS layer. *)
Definition createDNSResponse (pkt : packet) : outcome response :=
  let '(f, ok) := flow pkt in
  if negb ok then Ret NoReply
  else
    match ethLayer pkt, udpLayer pkt, dnsLayer pkt with
    | Some eth, Some udp, Some dns =>
        if negb (OpCode dns =? DNSOpCodeQuery) || QR dns
           || (length (Questions dns) =? 0)%nat
        then Ret NoReply
        else
          let response :=
            {| ID := ID dns; QR := true; OpCode := DNSOpCodeQuery;
               AA := true; TC := false; RD := RD dns; RA := true;
               ResponseCode := DNSResponseCodeNoErr;
               QDCount := 0; ANCount := 0; Questions := []; Answers := [] |} in
          match answerQuestions (Questions dns) response with
          | None => Ret NoReply
          | Some response' =>
              let eth2 := {| SrcMAC := DstMAC eth; DstMAC := SrcMAC eth;
                             EthernetType := flowEtherType f |} in
              match mkIPLayer IPProtocolUDP (flow_dst f) (flow_src f) with
              | None => Panic
              | Some ip2 =>
                  match SerializeLayers
                          [LEthernet eth2; ip2; LUDP (DstPort udp) (SrcPort udp);
                           LDNS response'] with
                  | None => Ret Failed
                  | Some b => Ret (Reply b)
                  end
              end
          end
    | _, _, _ => Panic
    end.

(** The DNS branch of [HandleEthernetPacketForRouter]: the response, if
    any, goes to [writeEth]. *)
Definition routerDNS (n : network) (worder : list (MAC * networkWriter))
    (pkt : packet) : outcome (list event) :=
  match createDNSResponse pkt with
  | Panic => Panic
  | Ret Failed => Ret [LogDNSError]
  | Ret NoReply => Ret (writeEth n worder []).2
  | Ret (Reply b) => Ret (writeEth n worder b).2
  end.

End Network.

Arguments network T : clear implicits.
Arguments maxTries : simpl never.
Arguments allocLoop : simpl never.

(** ** Operations on the NAT state, and its invariant *)

(** The source and the destination of one IP header, as the router reads
    them off a packet it routes: both IPv4 or both IPv6. *)
Definition sameFamily (a b : Addr) : bool :=
  Is4 a && Is4 b || Is6 a && Is6 b.

Section Operations.

Context {T : Type} `{!NATTable T}.

(** The three entry points that touch the NAT state of a network. *)
Inductive op :=
| OpNATOut (now : Time) (src dst : AddrPort)
| OpNATIn (now : Time) (src dst : AddrPort)
| OpPortMap (now : Time) (order : list (AddrPort * portMapping))
    (draws : nat → Z) (src : Addr) (dstLANPort wantExtPort sec : Z).

Definition step (n : network T) (o : op) : network T :=
  match o with
  | OpNATOut now src dst => (doNATOut n now src dst).2
  | OpNATIn now src dst => (doNATIn n now src dst).1.2
  | OpPortMap now order draws src p e sec =>
      (doPortMap n now order draws src p e sec).1.2
  end.

(** An operation is well-formed in [n] when the order it iterates the
    port-mapping table in is an order of that table. *)
Definition op_ok (n : network T) (o : op) : Prop :=
  match o with
  | OpPortMap _ order _ _ _ _ _ => order ≡ₚ map_to_list (portMap n)
  | _ => True
  end.

Definition run (n : network T) (os : list op) : network T :=
  fold_left step os n.

(** Every key of the port-mapping table is on the router's WAN address,
    and no two entries share a LAN target. *)
Definition portMap_inv (n : network T) : Prop :=
  (∀ k v, portMap n !! k = Some v → addrOf k = wanIP4 n) ∧
  (∀ k1 k2 v1 v2,
     portMap n !! k1 = Some v1 → portMap n !! k2 = Some v2 →
     pm_dst v1 = pm_dst v2 → k1 = k2).

(** [doNATIn] takes its port-mapping branch and finds a live entry. *)
Definition livePortMapping (n : network T) (now : Time) (D L : AddrPort) : Prop :=
  Is6 (addrOf D) = false ∧
  ∃ pm, portMap n !! D = Some pm ∧ Before now (pm_expiry pm) = true ∧ pm_dst pm = L.

End Operations.

(** ** A concrete network, to run the definitions on *)

Module Example.

(** A strategy that maps every flow onto the WAN address with the
    source port kept, accepts nothing inbound, and asks its network
    which ports are taken. *)
#[global] Instance exampleNAT : NATTable unit := {|
  PickOutgoingSrc pool t src dst now := (AddrPortFrom (WANIP pool) (portOf src), t);
  PickIncomingDst pool t src dst now := (zeroAddrPort, t);
  IsPublicPortUsed pool t ap := pool_IsPublicPortUsed pool ap
|}.

(** 1.2.3.4, 192.168.2.2 and 5.6.7.8 *)
Definition wan : Addr := Addr4 16909060.
Definition lan2 : Addr := Addr4 3232236034.
Definition peerIP : Addr := Addr4 84281096.

Definition routerMAC : MAC := [82; 204; 204; 204; 204; 1].
Definition nodeMAC : MAC := [82; 204; 204; 204; 204; 2].

Definition node2 : node :=
  {| node_mac := nodeMAC; lanIP := lan2; verboseSyslog := false |}.

Definition writer2 : networkWriter := {| nw_addr := None; interfaceID := 2 |}.

Definition net0 : network unit :=
  {| mac := routerMAC; portmap := true; wanIP4 := wan;
     nodesByIP := {[ lan2 := node2 ]}; nodesByMAC := {[ nodeMAC := node2 ]};
     natTable := tt; portMap := ∅; portMapFlow := ∅; macOfIPv6 := ∅;
     writers := {[ nodeMAC := writer2 ]} |}.

(** [rand.N] returning 0, then 1, 2, ... below its bound. *)
Definition draws0 (i : nat) : Z := Z.of_nat i mod 32768.

Definition peer : AddrPort := AddrPortFrom peerIP 41641.

(** The first port the retry loop draws with [draws0]. *)
Definition wanD : AddrPort := AddrPortFrom wan 32768.

(** A NAT-PMP map request of the node 192.168.2.2, internal port 60736,
    no requested external port, lifetime 7200 s, at time 0. *)
Definition net4 : network unit :=
  (doPortMap net0 0 [] draws0 lan2 60736 0 7200).1.2.

Definition L4 : AddrPort := AddrPortFrom lan2 60736.

(** [net4] after an inbound packet of [peer] to the mapped port. *)
Definition net4in : network unit := (doNATIn net4 Second peer wanD).1.2.

(** What [net4in] sees next: the node deletes its mapping and asks for
    external port 5000, and another peer sends a packet there. *)
Definition remap : list op :=
  [OpPortMap (3 * Second)
     [(wanD, {| pm_dst := L4; pm_expiry := 0 + secondsDuration 7200 |})]
     draws0 lan2 60736 32768 0;
   OpPortMap (4 * Second) [] draws0 lan2 60736 5000 7200;
   OpNATIn (5 * Second) (AddrPortFrom peerIP 9) (AddrPortFrom wan 5000)].

(** The same, with [peer] itself sending the packet to port 5000. *)
Definition rebind : list op :=
  [OpPortMap (3 * Second)
     [(wanD, {| pm_dst := L4; pm_expiry := 0 + secondsDuration 7200 |})]
     draws0 lan2 60736 32768 0;
   OpPortMap (4 * Second) [] draws0 lan2 60736 5000 7200;
   OpNATIn (5 * Second) peer (AddrPortFrom wan 5000)].

(** A mapping whose expiry (5 s) has passed at time 10 s. *)
Definition netOld : network unit :=
  set_portMap {[ wanD := {| pm_dst := L4; pm_expiry := 5 * Second |} ]} net0.

(** The table of virtual host names and a DNS query with two questions:
    one the table answers, one for an NTP pool host. *)
Definition vips : gmap string virtualIP :=
  {[ "controlplane.tailscale.com" := {| v4 := Addr4 877324801; v6 := AddrZero |} ]}.

Definition dnsQuery : DNS :=
  {| ID := 7; QR := false; OpCode := DNSOpCodeQuery; AA := false; TC := false;
     RD := true; RA := false; ResponseCode := 0; QDCount := 2; ANCount := 0;
     Questions :=
       [{| q_Name := "controlplane.tailscale.com"; q_Type := DNSTypeA;
           q_Class := DNSClassIN |};
        {| q_Name := "0.debian.pool.ntp.org"; q_Type := DNSTypeA;
           q_Class := DNSClassIN |}];
     Answers := [] |}.

Definition dnsPacket : packet :=
  {| networkFlow := Some ([192; 168; 2; 2], [4; 11; 4; 11]);
     ethLayer := Some {| SrcMAC := nodeMAC; DstMAC := routerMAC;
                         EthernetType := EthernetTypeIPv4 |};
     udpLayer := Some {| SrcPort := 40000; DstPort := 53; udp_Payload := [] |};
     dnsLayer := Some dnsQuery |}.

(** An encoder that always succeeds, with a frame long enough to carry
    two MAC addresses. *)
Definition serializeOK (ls : list layer) : option (list Z) :=
  Some (nodeMAC ++ routerMAC ++ [8; 0]).

(** A frame from the broadcast address to the broadcast address. *)
Definition selfBroadcast : list Z := broadcastMAC ++ broadcastMAC ++ [8; 0].

(** A frame from the node's address to itself. *)
Definition selfUnicast : list Z := nodeMAC ++ nodeMAC ++ [8; 0].

(** A network with port mapping switched off. *)
Definition netOff : network unit :=
  {| mac := routerMAC; portmap := false; wanIP4 := wan;
     nodesByIP := {[ lan2 := node2 ]}; nodesByMAC := {[ nodeMAC := node2 ]};
     natTable := tt; portMap := ∅; portMapFlow := ∅; macOfIPv6 := ∅;
     writers := {[ nodeMAC := writer2 ]} |}.

End Example.

(** ** Receive-path checksum validation (package gro) *)

#[global] Instance outcome_ret : MRet outcome := @Ret.

#[global] Instance outcome_bind : MBind outcome :=
  λ A B f o, match o with Panic => Panic | Ret a => f a end.

Module gro.

(** [packet.Parsed] (package net/packet): the fields [RXChecksumOffload]
    reads. *)
Record Parsed := {
  Buffer : list Z;
  IPVersion : Z;
  IPProto : Z;
  p_Src : AddrPort;
  p_Dst : AddrPort
}.

Definition set_IPProto (proto : Z) (p : Parsed) : Parsed :=
  {| Buffer := Buffer p; IPVersion := IPVersion p; IPProto := proto;
     p_Src := p_Src p; p_Dst := p_Dst p |}.

(** [stack.PacketBuffer]: what [RXChecksumOffload] sets. *)
Record PacketBuffer := {
  pb_Payload : list Z;
  NetworkProtocolNumber : Z;
  RXChecksumValidated : bool
}.

Definition IPv4MinimumSize : Z := 20.
Definition IPv4MaximumHeaderSize : Z := 60.
Definition IPv6FixedHeaderSize : Z := 40.
Definition IPv4ProtocolNumber : Z := 2048.
Definition IPv6ProtocolNumber : Z := 34525.
Definition TCP : Z := 6.
Definition UDP : Z := 17.
Definition ICMPv6 : Z := 58.

Definition wrap8 (z : Z) : Z := z mod 2 ^ 8.

Definition len (buf : list Z) : Z := Z.of_nat (length buf).

(** Go's checked accesses: [buf[i]], [buf[:hi]] and [buf[lo:]] panic
    outside the buffer. *)
Definition index (buf : list Z) (i : Z) : outcome Z :=
  if (0 <=? i) && (i <? len buf)
  then match buf !! Z.to_nat i with Some x => Ret x | None => Panic end
  else Panic.

Definition sliceTo (buf : list Z) (hi : Z) : outcome (list Z) :=
  if (0 <=? hi) && (hi <=? len buf) then Ret (take (Z.to_nat hi) buf) else Panic.

Definition sliceFrom (buf : list Z) (lo : Z) : outcome (list Z) :=
  if (0 <=? lo) && (lo <=? len buf) then Ret (drop (Z.to_nat lo) buf) else Panic.

(** [^c != 0] on a uint16 *)
Definition complementNonZero (c : Z) : bool := negb (Z.lxor c 65535 =? 0).

(** The address lengths [tun.PseudoHeaderChecksum] takes. *)
Definition addrLength (a : list Z) : bool :=
  (length a =? 4)%nat || (length a =? 16)%nat.

Section RX.

(** [tun.Checksum] and [tun.PseudoHeaderChecksum] (wireguard-go) and
    gVisor's [parse.IPv6] are external libraries.
    [tun.PseudoHeaderChecksum] wants addresses of 4 or 16 bytes and
    panics ("bad addr length") on others: its result is an [outcome].
    [parseIPv6 buf] is the transport protocol [parse.IPv6] finds in a
    packet buffer holding [buf], and the size of the data it leaves
    unconsumed. *)
Variable Checksum : list Z → Z → Z.
Variable PseudoHeaderChecksum : Z → list Z → list Z → Z → outcome Z.
Variable parseIPv6 : list Z → Z * nat.

(** The [switch p.IPVersion]: [Ret None] is an early [return nil],
    otherwise the protocol number, [csumStart] and the packet (whose
    [IPProto] the IPv6 case may have updated). *)
Definition networkHeader (p : Parsed) : outcome (option (Z * Z * Parsed)) :=
  let buf := Buffer p in
  if IPVersion p =? 4 then
    if len buf <? IPv4MinimumSize then Ret None
    else
      b0 ← index buf 0;
      let csumStart := wrap8 (Z.land b0 15 * 4) in
      if (csumStart <? IPv4MinimumSize) || (IPv4MaximumHeaderSize <? csumStart)
         || (len buf <? csumStart)
      then Ret None
      else
        hdr ← sliceTo buf csumStart;
        if complementNonZero (Checksum hdr 0) then Ret None
        else Ret (Some (IPv4ProtocolNumber, csumStart, p))
  else if IPVersion p =? 6 then
    if len buf <? IPv6FixedHeaderSize then Ret None
    else if negb (IPProto p =? ICMPv6) && negb (IPProto p =? TCP)
            && negb (IPProto p =? UDP) then
      let '(transportProto, csumLen) := parseIPv6 buf in
      if (transportProto =? TCP) || (transportProto =? UDP) then
        if len buf <? Z.of_nat csumLen then Ret None
        else Ret (Some (IPv6ProtocolNumber, len buf - Z.of_nat csumLen,
                        set_IPProto (wrap8 transportProto) p))
      else Ret (Some (IPv6ProtocolNumber, IPv6FixedHeaderSize, p))
    else Ret (Some (IPv6ProtocolNumber, IPv6FixedHeaderSize, p))
  else Ret (Some (0, 0, p)).

(** The result is the packet buffer ([None] is [nil]) and the packet
    as the call leaves it. *)
Definition RXChecksumOffload (p : Parsed)
  : outcome (option PacketBuffer * Parsed) :=
  let buf := Buffer p in
  h ← networkHeader p;
  match h with
  | None => Ret (None, p)
  | Some (pn, csumStart, p') =>
      let packetBuf :=
        {| pb_Payload := buf; NetworkProtocolNumber := pn;
           RXChecksumValidated := true |} in
      if (IPProto p' =? TCP) || (IPProto p' =? UDP) then
        let lenForPseudo := len buf - csumStart in
        csum ← PseudoHeaderChecksum (IPProto p') (AsSlice (addrOf (p_Src p')))
                 (AsSlice (addrOf (p_Dst p'))) (wrap16 lenForPseudo);
        rest ← sliceFrom buf csumStart;
        if complementNonZero (Checksum rest csum) then Ret (None, p')
        else Ret (Some packetBuf, p')
      else Ret (Some packetBuf, p')
  end.

(** The conditions the properties below are stated with: the header
    length the IPv4 case reads, where the transport header starts when
    the packet's protocol is TCP or UDP at entry, the pseudo-header
    checksum asked for then, and the two checksum tests. *)
Definition headerLength (buf : list Z) : Z :=
  match buf with
  | b0 :: _ => wrap8 (Z.land b0 15 * 4)
  | [] => 0
  end.

Definition headerChecksumFails (buf : list Z) : bool :=
  complementNonZero (Checksum (take (Z.to_nat (headerLength buf)) buf) 0).

Definition transportStart (p : Parsed) : Z :=
  if IPVersion p =? 4 then headerLength (Buffer p)
  else if IPVersion p =? 6 then IPv6FixedHeaderSize
  else 0.

Definition pseudoHeader (p : Parsed) : outcome Z :=
  PseudoHeaderChecksum (IPProto p) (AsSlice (addrOf (p_Src p)))
    (AsSlice (addrOf (p_Dst p))) (wrap16 (len (Buffer p) - transportStart p)).

Definition transportChecksumFails (p : Parsed) (pseudo : Z) : bool :=
  complementNonZero
    (Checksum (drop (Z.to_nat (transportStart p)) (Buffer p)) pseudo).

Definition isTransport (proto : Z) : bool := (proto =? TCP) || (proto =? UDP).

End RX.

(** *** A reference checksum and packets, to run the definitions on *)

(** The ones' complement sum of RFC 1071 over big-endian 16-bit words,
    folded to 16 bits. *)
Fixpoint sum16 (b : list Z) : Z :=
  match b with
  | hi :: lo :: r => hi * 256 + lo + sum16 r
  | [hi] => hi * 256
  | [] => 0
  end.

Definition fold16 (s : Z) : Z := if s =? 0 then 0 else (s - 1) mod 65535 + 1.

Definition refChecksum (b : list Z) (initial : Z) : Z := fold16 (initial + sum16 b).

Definition refPseudoHeaderChecksum (proto : Z) (src dst : list Z) (totalLen : Z)
  : outcome Z :=
  if addrLength src && addrLength dst
  then Ret (fold16 (sum16 src + sum16 dst + proto + totalLen))
  else Panic.

(** What [parse.IPv6] finds in a buffer of at least 40 bytes: it walks
    the extension headers from the next-header field of the fixed header
    on.  Hop-by-hop options (0), routing (43) and destination options (60)
    carry the next header and their length in units of 8 bytes beyond the
    first 8; a fragment header (44) is 8 bytes long and is walked over
    only when it is atomic (offset 0, no more fragments); "no next header"
    (59) ends the packet; anything else is the payload.  A header that is
    cut short ends the walk without a protocol and with nothing consumed.
    The data left is capped at the payload length of the fixed header. *)
Fixpoint walkExtensions (fuel : nat) (next : Z) (rest : list Z) (all : nat)
  : Z * nat :=
  match fuel with
  | O => (0, all)
  | S fuel' =>
      if (next =? 0) || (next =? 43) || (next =? 60) then
        match rest with
        | next' :: hdrLen :: _ =>
            let n := (8 * (Z.to_nat hdrLen + 1))%nat in
            if (n <=? length rest)%nat
            then walkExtensions fuel' next' (drop n rest) all
            else (0, all)
        | _ => (0, all)
        end
      else if next =? 44 then
        match rest with
        | next' :: _ :: offHi :: offLo :: _ =>
            if (8 <=? length rest)%nat then
              if (offHi * 256 + offLo) / 8 =? 0 then
                if Z.land offLo 1 =? 0
                then walkExtensions fuel' next' (drop 8 rest) all
                else (0, (length rest - 8)%nat)
              else (0, (length rest - 8)%nat)
            else (0, all)
        | _ => (0, all)
        end
      else if next =? 59 then (0, 0%nat)
      else (next, length rest)
  end.

Definition refParseIPv6 (buf : list Z) : Z * nat :=
  let rest := drop 40 buf in
  let payloadLength := Z.to_nat (beUint (take 2 (drop 4 buf))) in
  let r := walkExtensions (length buf) (default 0 (buf !! 6%nat)) rest (length rest) in
  (r.1, Nat.min r.2 payloadLength).

(** A UDP datagram 192.168.2.2:40000 → 4.11.4.11:53 without payload,
    with valid IPv4 and UDP checksums. *)
Definition udp4 : Parsed :=
  {| Buffer := [69; 0; 0; 28; 0; 0; 0; 0; 64; 17; 176; 17;
                192; 168; 2; 2; 4; 11; 4; 11;
                156; 64; 0; 53; 0; 8; 152; 168];
     IPVersion := 4; IPProto := UDP;
     p_Src := AddrPortFrom (Addr4 3232236034) 40000;
     p_Dst := AddrPortFrom (Addr4 67830795) 53 |}.

(** The same datagram with the last byte of its UDP checksum changed. *)
Definition udp4bad : Parsed :=
  {| Buffer := [69; 0; 0; 28; 0; 0; 0; 0; 64; 17; 176; 17;
                192; 168; 2; 2; 4; 11; 4; 11;
                156; 64; 0; 53; 0; 8; 152; 169];
     IPVersion := 4; IPProto := UDP;
     p_Src := AddrPortFrom (Addr4 3232236034) 40000;
     p_Dst := AddrPortFrom (Addr4 67830795) 53 |}.

(** An ICMPv6 packet whose buffer is empty. *)
Definition icmp6short : Parsed :=
  {| Buffer := []; IPVersion := 6; IPProto := ICMPv6;
     p_Src := AddrPortFrom (Addr6 1 "") 0;
     p_Dst := AddrPortFrom (Addr6 2 "") 0 |}.

(** A UDP datagram [::1]:40000 → [::2]:53 without payload behind a
    hop-by-hop options header that holds one PadN option, with a valid
    UDP checksum; [IPProto] names the extension header, as the fixed
    header does. *)
Definition udp6ext : Parsed :=
  {| Buffer := [96; 0; 0; 0; 0; 16; 0; 64;
                0; 0; 0; 0; 0; 0; 0; 0; 0; 0; 0; 0; 0; 0; 0; 1;
                0; 0; 0; 0; 0; 0; 0; 0; 0; 0; 0; 0; 0; 0; 0; 2;
                17; 0; 1; 4; 0; 0; 0; 0;
                156; 64; 0; 53; 0; 8; 99; 102];
     IPVersion := 6; IPProto := 0;
     p_Src := AddrPortFrom (Addr6 1 "") 0;
     p_Dst := AddrPortFrom (Addr6 2 "") 0 |}.

(** The datagram [udp4] as a packet that was never decoded: version 0
    and the zero address on both sides. *)
Definition udpZero : Parsed :=
  {| Buffer := Buffer udp4; IPVersion := 0; IPProto := UDP;
     p_Src := zeroAddrPort; p_Dst := zeroAddrPort |}.

End gro.

(** ** The rest of the router: configuration, writer registry, inbound
    WAN packets, ARP *)

(** The fields of [network] the NAT engine does not read: the router's
    LAN prefix (address and bits) and the two capture interfaces. *)
Record netConfig := {
  lanIP4 : Addr * Z;
  lanInterfaceID : Z;
  wanInterfaceID : Z
}.

(** What the router does besides writing to the LAN: a record handed to
    the capture writer ([pcapWriter.WritePacket], with its timestamp and
    interface index) and the warning for a packet NAT drops. *)
Inductive routerEvent :=
| Lan (e : event)
| PcapWrite (timestamp : Time) (interfaceIndex : Z) (buf : list Z)
| LogNATDropped (src dst : AddrPort)
| LogARPError
| LogDHCPUnknownNode (src : MAC).

(** The fields of gopacket's [layers.ARP]. *)
Record ARP := {
  AddrType : Z;
  Protocol : Z;
  HwAddressSize : Z;
  ProtAddressSize : Z;
  Operation : Z;
  SourceHwAddress : list Z;
  SourceProtAddress : list Z;
  DstHwAddress : list Z;
  DstProtAddress : list Z
}.

Definition ARPRequest : Z := 1.
Definition ARPReply : Z := 2.
Definition LinkTypeEthernet : Z := 1.
Definition EthernetTypeARP : Z := 2054.

(** The layers of a packet [createARPResponse] reads. *)
Record arpPacket := {
  arp_eth : option ethHeader;
  arp_arp : option ARP
}.

Definition zeroMAC : MAC := [0; 0; 0; 0; 0; 0].

Section Router.

Context {T : Type} `{!NATTable T}.

Definition set_writers (w : gmap MAC networkWriter) (n : network T) : network T :=
  {| mac := mac n; portmap := portmap n; wanIP4 := wanIP4 n;
     nodesByIP := nodesByIP n; nodesByMAC := nodesByMAC n;
     natTable := natTable n;
     portMap := portMap n; portMapFlow := portMapFlow n;
     macOfIPv6 := macOfIPv6 n; writers := w |}.

(** [registerWriter]; [wf] tells whether the writer function is non-nil. *)
Definition registerWriter (n : network T) (m : MAC) (raddr : option string)
    (ifID : Z) (wf : bool) : network T :=
  if wf then
    set_writers (<[m := {| nw_addr := raddr; interfaceID := ifID |}]> (writers n)) n
  else set_writers (delete m (writers n)) n.

(** [MACOfIP] *)
Definition MACOfIP (c : netConfig) (n : network T) (ip : Addr) : MAC * bool :=
  if bool_decide ((lanIP4 c).1 = ip) then (mac n, true)
  else
    match nodesByIP n !! ip with
    | Some nd => (node_mac nd, true)
    | None => (zeroMAC, false)
    end.

Variable SerializeLayers : list layer → option (list Z).

Definition lanEvents (o : outcome (list event)) : outcome (list routerEvent) :=
  match o with
  | Panic => Panic
  | Ret ev => Ret (Lan <$> ev)
  end.

(** [HandleUDPPacket]: a UDP packet arriving from the WAN side. *)
Definition HandleUDPPacket (c : netConfig) (n : network T) (now : Time)
    (worder : list (MAC * networkWriter)) (p : UDPPacket)
  : outcome (network T * list routerEvent) :=
  match serializedUDPPacket SerializeLayers (Src p) (Dst p) (Payload p) None with
  | Panic => Panic
  | Ret None => Ret (n, [Lan LogSerializeError])
  | Ret (Some buf) =>
      let ev1 := [PcapWrite now (wanInterfaceID c) buf] in
      let '(d, n', evd) := doNATIn n now (Src p) (Dst p) in
      let ev2 := ev1 ++ (Lan <$> evd) in
      if negb (apIsValid d) then Ret (n', ev2 ++ [LogNATDropped (Src p) (Dst p)])
      else
        match serializedUDPPacket SerializeLayers (Src p) d (Payload p) None with
        | Panic => Panic
        | Ret None => Ret (n', ev2 ++ [Lan LogSerializeError])
        | Ret (Some buf') =>
            let ev3 := ev2 ++ [PcapWrite now (lanInterfaceID c) buf'] in
            match WriteUDPPacketNoNAT SerializeLayers n' worder
                    {| Src := Src p; Dst := d; Payload := Payload p |} with
            | Panic => Panic
            | Ret evw => Ret (n', ev3 ++ (Lan <$> evw))
            end
        end
  end.

(** The ARP encoder call [gopacket.SerializeLayers(buffer, options, eth,
    a2)]; [None] is its error. *)
Variable SerializeARP : ethHeader → ARP → option (list Z).

(** [createARPResponse] *)
Definition createARPResponse (c : netConfig) (n : network T) (pkt : arpPacket)
  : response :=
  match arp_eth pkt with
  | None => NoReply
  | Some ethLayer =>
      match arp_arp pkt with
      | None => NoReply
      | Some arpLayer =>
          if negb (Operation arpLayer =? ARPRequest)
             || negb (AddrType arpLayer =? LinkTypeEthernet)
             || negb (Protocol arpLayer =? EthernetTypeIPv4)
             || negb (HwAddressSize arpLayer =? 6)
             || negb (ProtAddressSize arpLayer =? 4)
             || negb (length (DstProtAddress arpLayer) =? 4)%nat
          then NoReply
          else
            let wantIP := Addr4 (beUint (DstProtAddress arpLayer)) in
            match MACOfIP c n wantIP with
            | (_, false) => NoReply
            | (foundMAC, true) =>
                let eth := {| SrcMAC := foundMAC; DstMAC := SrcMAC ethLayer;
                              EthernetType := EthernetTypeARP |} in
                let a2 :=
                  {| AddrType := LinkTypeEthernet; Protocol := EthernetTypeIPv4;
                     HwAddressSize := 6; ProtAddressSize := 4;
                     Operation := ARPReply;
                     SourceHwAddress := foundMAC;
                     SourceProtAddress := DstProtAddress arpLayer;
                     DstHwAddress := SrcMAC ethLayer;
                     DstProtAddress := SourceProtAddress arpLayer |} in
                match SerializeARP eth a2 with
                | None => Failed
                | Some b => Reply b
                end
            end
      end
  end.

(** The ARP case of [HandleEthernetPacket]. *)
Definition handleARP (c : netConfig) (n : network T)
    (worder : list (MAC * networkWriter)) (pkt : arpPacket) : list routerEvent :=
  match createARPResponse c n pkt with
  | Failed => [LogARPError]
  | NoReply => Lan <$> (writeEth n worder []).2
  | Reply b => Lan <$> (writeEth n worder b).2
  end.

End Router.

(** ** DHCP *)

(** The fields of gopacket's [layers.DHCPv4] and [layers.DHCPOption] the
    responder reads and writes. *)
Record DHCPOption := {
  opt_Type : Z;
  opt_Length : Z;
  opt_Data : list Z
}.

Record DHCPv4 := {
  dhcp_Operation : Z;
  HardwareType : Z;
  HardwareLen : Z;
  Xid : Z;
  ClientHWAddr : list Z;
  Flags : Z;
  YourClientIP : list Z;
  Options : list DHCPOption
}.

Record IPv4 := {
  ip_Version : Z;
  ip_TTL : Z;
  ip_Protocol : Z;
  SrcIP : list Z;
  DstIP : list Z
}.

Definition DHCPOpReply : Z := 2.
Definition DHCPOptSubnetMask : Z := 1.
Definition DHCPOptRouter : Z := 3.
Definition DHCPOptDNS : Z := 6.
Definition DHCPOptLeaseTime : Z := 51.
Definition DHCPOptMessageType : Z := 53.
Definition DHCPOptServerID : Z := 54.
Definition DHCPMsgTypeDiscover : Z := 1.
Definition DHCPMsgTypeOffer : Z := 2.
Definition DHCPMsgTypeRequest : Z := 3.
Definition DHCPMsgTypeAck : Z := 5.

(** The layers of a packet [createDHCPResponse] reads. *)
Record dhcpPacket := {
  dh_eth : option ethHeader;
  dh_ip4 : option IPv4;
  dh_udp : option UDP;
  dh_dhcp : option DHCPv4
}.

(** A node of the server's MAC index together with what the responder
    reads through [node.net]: the router's MAC and LAN prefix. *)
Record nodeNet := {
  nn_node : node;
  nn_routerMAC : MAC;
  nn_lanIP4 : Addr * Z
}.

(** [macOf] *)
Definition macOf (hwa : list Z) : MAC * bool :=
  if (length hwa =? 6)%nat then (hwa, true) else (zeroMAC, false).

(** [net.CIDRMask(ones, bits)] of the Go library: [bits / 8] bytes with
    the first [ones] bits set, or nil. *)
Fixpoint maskBytes (l : nat) (n : Z) : list Z :=
  match l with
  | O => []
  | S l' =>
      if 8 <=? n then 255 :: maskBytes l' (n - 8)
      else Z.lxor (Z.shiftr 255 n) 255 :: maskBytes l' 0
  end.

Definition CIDRMask (ones bits : Z) : list Z :=
  if negb ((bits =? 32) || (bits =? 128)) then []
  else if (ones <? 0) || (bits <? ones) then []
  else maskBytes (Z.to_nat (bits / 8)) ones.

(** An option that sets the message type of a request. *)
Definition decides (opt : DHCPOption) : bool :=
  (opt_Type opt =? DHCPOptMessageType) && (0 <? opt_Length opt).

Section DHCP.

(** The server's MAC index, the virtual DNS address and the encoder call
    [gopacket.SerializeLayers(buffer, options, eth, ip, udp, response)]. *)
Variable nodeByMAC : gmap MAC nodeNet.
Variable fakeDNS : virtualIP.
Variable SerializeDHCP : ethHeader → IPv4 → UDP → DHCPv4 → option (list Z).

(** The loop over the request's options: the last message-type option
    with a positive length decides; its [Data[0]] panics on empty data. *)
Fixpoint messageType (opts : list DHCPOption) (msgType : Z) : outcome Z :=
  match opts with
  | [] => Ret msgType
  | opt :: opts' =>
      if (opt_Type opt =? DHCPOptMessageType) && (0 <? opt_Length opt) then
        match opt_Data opt with
        | [] => Panic
        | d0 :: _ => messageType opts' d0
        end
      else messageType opts' msgType
  end.

(** The options of the response for a message type. *)
Definition responseOptions (gwIP : Addr) (bits : Z) (msgType : Z) : list DHCPOption :=
  let serverID :=
    {| opt_Type := DHCPOptServerID; opt_Length := 4; opt_Data := AsSlice gwIP |} in
  if msgType =? DHCPMsgTypeDiscover then
    [serverID;
     {| opt_Type := DHCPOptMessageType; opt_Length := 1;
        opt_Data := [DHCPMsgTypeOffer] |}]
  else if msgType =? DHCPMsgTypeRequest then
    [serverID;
     {| opt_Type := DHCPOptMessageType; opt_Length := 1;
        opt_Data := [DHCPMsgTypeAck] |};
     {| opt_Type := DHCPOptLeaseTime; opt_Length := 4; opt_Data := be32 3600 |};
     {| opt_Type := DHCPOptRouter; opt_Length := 4; opt_Data := AsSlice gwIP |};
     {| opt_Type := DHCPOptDNS; opt_Length := 4; opt_Data := AsSlice (v4 fakeDNS) |};
     {| opt_Type := DHCPOptSubnetMask; opt_Length := 4;
        opt_Data := CIDRMask bits 32 |}]
  else [serverID].

(** [createDHCPResponse], with what it logs; the unchecked type
    assertions panic on a missing layer. *)
Definition createDHCPResponse (request : dhcpPacket)
  : outcome (response * list routerEvent) :=
  match dh_eth request with
  | None => Panic
  | Some ethLayer =>
      match macOf (SrcMAC ethLayer) with
      | (_, false) => Ret (NoReply, [])
      | (srcMAC, true) =>
          match nodeByMAC !! srcMAC with
          | None => Ret (NoReply, [LogDHCPUnknownNode srcMAC])
          | Some nd =>
              let gwIP := (nn_lanIP4 nd).1 in
              match dh_ip4 request, dh_udp request, dh_dhcp request with
              | Some ipLayer, Some udpLayer, Some dhcpLayer =>
                  msgType ← messageType (Options dhcpLayer) 0;
                  let response :=
                    {| dhcp_Operation := DHCPOpReply;
                       HardwareType := LinkTypeEthernet;
                       HardwareLen := 6;
                       Xid := Xid dhcpLayer;
                       ClientHWAddr := ClientHWAddr dhcpLayer;
                       Flags := Flags dhcpLayer;
                       YourClientIP := AsSlice (lanIP (nn_node nd));
                       Options := responseOptions gwIP (nn_lanIP4 nd).2 msgType |} in
                  let eth := {| SrcMAC := nn_routerMAC nd; DstMAC := SrcMAC ethLayer;
                                EthernetType := EthernetTypeIPv4 |} in
                  let ip := {| ip_Version := 4; ip_TTL := 64;
                               ip_Protocol := IPProtocolUDP;
                               SrcIP := DstIP ipLayer; DstIP := SrcIP ipLayer |} in
                  let udp := {| SrcPort := DstPort udpLayer;
                                DstPort := SrcPort udpLayer; udp_Payload := [] |} in
                  match SerializeDHCP eth ip udp response with
                  | None => Ret (Failed, [])
                  | Some b => Ret (Reply b, [])
                  end
              | _, _, _ => Panic
              end
          end
      end
  end.

End DHCP.

(** ** Runs of NAT operations *)

Section Runs.

Context {T : Type} `{!NATTable T}.

(** Every operation of a run is well-formed in the state it meets. *)
Fixpoint ops_ok (n : network T) (os : list op) : Prop :=
  match os with
  | [] => True
  | o :: os' => op_ok n o ∧ ops_ok (step n o) os'
  end.

(** No mapping is on external port 0 (or below). *)
Definition portMap_ports_pos (n : network T) : Prop :=
  ∀ k v, portMap n !! k = Some v → 0 < portOf k.

End Runs.

(** ** The GRO queue (package gro) *)

Module groqueue.

Import gro.

(** [GRO]: the dispatcher of the wrapped gVisor GRO ([None] is nil, the
    number names the dispatcher) and the flag. *)
Record GRO := {
  Dispatcher : option Z;
  maybeEnqueued : bool
}.

(** The calls into gVisor and the pool. *)
Inductive groEvent :=
| StackEnqueue (pkt : PacketBuffer)
| DecRef (pkt : PacketBuffer)
| StackFlush
| PoolPut.

(** [SetDispatcher] *)
Definition SetDispatcher (g : GRO) (d : option Z) : GRO :=
  {| Dispatcher := d; maybeEnqueued := maybeEnqueued g |}.

Section Queue.

Variable Checksum : list Z → Z → Z.
Variable PseudoHeaderChecksum : Z → list Z → list Z → Z → outcome Z.
Variable parseIPv6 : list Z → Z * nat.

(** [Enqueue] *)
Definition Enqueue (g : GRO) (p : Parsed) : outcome (GRO * Parsed * list groEvent) :=
  match Dispatcher g with
  | None => Ret (g, p, [])
  | Some _ =>
      r ← RXChecksumOffload Checksum PseudoHeaderChecksum parseIPv6 p;
      match r with
      | (None, p') => Ret (g, p', [])
      | (Some pkt, p') =>
          Ret ({| Dispatcher := Dispatcher g; maybeEnqueued := true |}, p',
               [StackEnqueue pkt; DecRef pkt])
      end
  end.

(** [Flush] *)
Definition Flush (g : GRO) : GRO * list groEvent :=
  ({| Dispatcher := None; maybeEnqueued := false |},
   (if bool_decide (is_Some (Dispatcher g)) && maybeEnqueued g
    then [StackFlush] else []) ++ [PoolPut]).

(** A batch: the packets are enqueued one after the other. *)
Fixpoint EnqueueAll (g : GRO) (ps : list Parsed) : outcome (GRO * list groEvent) :=
  match ps with
  | [] => Ret (g, [])
  | p :: ps' =>
      r ← Enqueue g p;
      r' ← EnqueueAll r.1.1 ps';
      Ret (r'.1, r.2 ++ r'.2)
  end.

End Queue.

End groqueue.

(** ** Further values to run the definitions on *)

Module Example2.

(** An encoder that writes the Ethernet header (destination, source,
    type) and nothing else. *)
Definition serializeEth (ls : list layer) : option (list Z) :=
  match ls with
  | LEthernet e :: _ => Some (DstMAC e ++ SrcMAC e ++ be16 (EthernetType e))
  | _ => Some []
  end.

Definition serializeARP (e : ethHeader) (a : ARP) : option (list Z) :=
  Some (DstMAC e ++ SrcMAC e ++ be16 (EthernetType e) ++ SourceHwAddress a).

(** The router is 192.168.2.1/24. *)
Definition config : netConfig :=
  {| lanIP4 := (Addr4 3232236033, 24); lanInterfaceID := 1; wanInterfaceID := 2 |}.

(** Who has 192.168.2.2?  Asked by 52:cc:cc:cc:cc:03 at 192.168.2.3. *)
Definition askerMAC : MAC := [82; 204; 204; 204; 204; 3].

Definition arpRequest (target : list Z) : arpPacket :=
  {| arp_eth := Some {| SrcMAC := askerMAC; DstMAC := broadcastMAC;
                        EthernetType := EthernetTypeARP |};
     arp_arp := Some {| AddrType := LinkTypeEthernet; Protocol := EthernetTypeIPv4;
                        HwAddressSize := 6; ProtAddressSize := 4;
                        Operation := ARPRequest;
                        SourceHwAddress := askerMAC;
                        SourceProtAddress := [192; 168; 2; 3];
                        DstHwAddress := zeroMAC;
                        DstProtAddress := target |} |}.

(** A DNS query of 192.168.2.2 for the A records of the given names. *)
Definition dnsQueryOf (names : list string) : DNS :=
  {| ID := 7; QR := false; OpCode := DNSOpCodeQuery; AA := false; TC := false;
     RD := true; RA := false; ResponseCode := 0;
     QDCount := Z.of_nat (length names); ANCount := 0;
     Questions :=
       (λ nm, {| q_Name := nm; q_Type := DNSTypeA; q_Class := DNSClassIN |})
         <$> names;
     Answers := [] |}.

Definition dnsPacketOf (names : list string) : packet :=
  {| networkFlow := Some ([192; 168; 2; 2], [4; 11; 4; 11]);
     ethLayer := Some {| SrcMAC := Example.nodeMAC; DstMAC := Example.routerMAC;
                         EthernetType := EthernetTypeIPv4 |};
     udpLayer := Some {| SrcPort := 40000; DstPort := 53; udp_Payload := [] |};
     dnsLayer := Some (dnsQueryOf names) |}.

(** A GRO with dispatcher 1 and nothing enqueued. *)
Definition gro1 : groqueue.GRO :=
  {| groqueue.Dispatcher := Some 1; groqueue.maybeEnqueued := false |}.

(** The server's MAC index with the one node of [Example.net0], and a
    DHCP request of that node with the given options. *)
Definition nodes : gmap MAC nodeNet :=
  {[ Example.nodeMAC :=
       {| nn_node := Example.node2; nn_routerMAC := Example.routerMAC;
          nn_lanIP4 := (Addr4 3232236033, 24) |} ]}.

Definition dns4 : virtualIP := {| v4 := Addr4 67830795; v6 := AddrZero |}.

Definition serializeDHCP (e : ethHeader) (i : IPv4) (u : UDP) (d : DHCPv4)
  : option (list Z) :=
  Some (DstMAC e ++ SrcMAC e ++ be16 (EthernetType e) ++ YourClientIP d).

Definition dhcpRequest (src : MAC) (opts : list DHCPOption) : dhcpPacket :=
  {| dh_eth := Some {| SrcMAC := src; DstMAC := broadcastMAC;
                       EthernetType := EthernetTypeIPv4 |};
     dh_ip4 := Some {| ip_Version := 4; ip_TTL := 64; ip_Protocol := IPProtocolUDP;
                       SrcIP := [0; 0; 0; 0]; DstIP := [255; 255; 255; 255] |};
     dh_udp := Some {| SrcPort := 68; DstPort := 67; udp_Payload := [] |};
     dh_dhcp := Some {| dhcp_Operation := 1; HardwareType := LinkTypeEthernet;
                        HardwareLen := 6; Xid := 305419896;
                        ClientHWAddr := src; Flags := 0;
                        YourClientIP := [0; 0; 0; 0]; Options := opts |} |}.

Definition msgTypeOption (t : Z) : DHCPOption :=
  {| opt_Type := DHCPOptMessageType; opt_Length := 1; opt_Data := [t] |}.

End Example2.

(** * Properties *)

(** ** Helper lemmas on the port-mapping table *)

Section NATProofs.

Context {T : Type} `{!NATTable T}.

Implicit Types (n : network T) (order : list (AddrPort * portMapping)).

Lemma findMapping_Some order d k :
  findMapping order d = Some k →
  ∃ v, (k, v) ∈ order ∧ pm_dst v = d.
Proof.
  unfold findMapping. intros Hf.
  destruct (List.find _ order) as [[k' v]|] eqn:E; simplify_eq/=.
  apply List.find_some in E as [Hin Hd].
  exists v. split; [by apply list_elem_of_In|].
  by apply bool_decide_eq_true in Hd.
Qed.

Lemma findMapping_None order d k v :
  findMapping order d = None → (k, v) ∈ order → pm_dst v ≠ d.
Proof.
  unfold findMapping. intros Hf Hin Hd.
  destruct (List.find _ order) as [kv|] eqn:E; [done|].
  apply list_elem_of_In in Hin.
  pose proof (List.find_none _ _ E _ Hin) as Hn. simpl in Hn.
  by rewrite bool_decide_eq_false in Hn.
Qed.

Lemma order_lookup n order k v :
  order ≡ₚ map_to_list (portMap n) →
  (k, v) ∈ order ↔ portMap n !! k = Some v.
Proof. intros ->. apply elem_of_map_to_list. Qed.

(** Under the invariant the entry [range] stops at does not depend on
    the order of the visit. *)
Lemma findMapping_unique n order d k v :
  portMap_inv n →
  order ≡ₚ map_to_list (portMap n) →
  portMap n !! k = Some v → pm_dst v = d →
  findMapping order d = Some k.
Proof.
  intros [_ Huniq] Hperm Hk Hd.
  destruct (findMapping order d) as [k'|] eqn:E.
  - apply findMapping_Some in E as (v' & Hin & Hd').
    apply (order_lookup n) in Hin; [|done].
    f_equal. eapply Huniq; [done..|congruence].
  - exfalso. eapply findMapping_None; [done| |done].
    by apply (order_lookup n).
Qed.

Lemma allocLoop_S n draws tries try wanAP :
  allocLoop n draws (S tries) try wanAP =
    if (0 <? portOf wanAP) && negb (IsPublicPortUsed (pool n) (natTable n) wanAP)
    then Some wanAP
    else allocLoop n draws tries (S try)
           (AddrPortFrom (wanIP4 n) (ephemeralPort (draws try))).
Proof. reflexivity. Qed.

Lemma allocLoop_addr n draws tries try wanAP ap :
  addrOf wanAP = wanIP4 n →
  allocLoop n draws tries try wanAP = Some ap →
  addrOf ap = wanIP4 n.
Proof.
  revert try wanAP. induction tries as [|tries IH]; intros try wanAP Ha; [done|].
  rewrite allocLoop_S. destruct (_ && _); [by intros [= <-]|].
  by apply IH.
Qed.

Lemma portMap_inv_delete n k :
  portMap_inv n → portMap_inv (set_portMap (delete k (portMap n)) n).
Proof.
  intros [Ha Hu]. split; simpl.
  - intros k' v [_ Hl]%lookup_delete_Some. eauto.
  - intros k1 k2 v1 v2 [_ H1]%lookup_delete_Some [_ H2]%lookup_delete_Some. eauto.
Qed.

Lemma portMap_inv_insert n k d e :
  portMap_inv n →
  addrOf k = wanIP4 n →
  (∀ k' v', portMap n !! k' = Some v' → pm_dst v' = d → k' = k) →
  portMap_inv (set_portMap (<[k := {| pm_dst := d; pm_expiry := e |}]> (portMap n)) n).
Proof.
  intros [Ha Hu] Hk Hd. split; simpl.
  - intros k' v [[<- _]|[_ Hl]]%lookup_insert_Some; eauto.
  - intros k1 k2 v1 v2
      [[<- <-]|[Hne1 H1]]%lookup_insert_Some
      [[<- <-]|[Hne2 H2]]%lookup_insert_Some Heq; simpl in *; eauto.
    + symmetry. eauto.
Qed.

Lemma portMap_inv_doPortMap n now order draws src p e sec :
  order ≡ₚ map_to_list (portMap n) →
  portMap_inv n →
  portMap_inv (doPortMap n now order draws src p e sec).1.2.
Proof.
  intros Hperm Hinv. unfold doPortMap.
  repeat case_match; cbn [fst snd]; try done.
  - by apply portMap_inv_delete.
  - match goal with E : findMapping _ _ = Some _ |- _ =>
      apply findMapping_Some in E as (v & Hin & Hd) end.
    apply (order_lookup n) in Hin; [|done].
    apply portMap_inv_insert; [done|by eapply Hinv|].
    intros k' v' Hk' Hd'. destruct Hinv as [_ Hu].
    eapply Hu; [done..|congruence].
  - apply portMap_inv_insert; [done|eapply allocLoop_addr; [|done]; done|].
    intros k' v' Hk' Hd'. exfalso.
    eapply findMapping_None; [done| |done]. by apply (order_lookup n).
Qed.

(** The invariant holds of a network without port mappings and is kept
    by every operation. *)
Lemma portMap_inv_init n : portMap n = ∅ → portMap_inv n.
Proof. intros E. split; intros *; rewrite E; by rewrite lookup_empty. Qed.

Lemma portMap_inv_step n o : op_ok n o → portMap_inv n → portMap_inv (step n o).
Proof.
  destruct o as [now src dst|now src dst|now order draws src p e sec];
    simpl; intros Hok Hinv.
  - unfold doNATOut. destruct (Is6 _); [done|].
    destruct (portMapFlow n !! _); [done|].
    by destruct (PickOutgoingSrc _ _ _ _ _).
  - unfold doNATIn. destruct (Is6 _); [done|].
    destruct (portMap n !! dst) as [pm|].
    + destruct (Before _ _); [done|]. by apply portMap_inv_delete.
    + by destruct (PickIncomingDst _ _ _ _ _).
  - by apply portMap_inv_doPortMap.
Qed.

End NATProofs.

(** ** Hairpinning (C1) *)

Section Hairpin.

Context {T : Type} `{!NATTable T}.

Implicit Types (n : network T).

Lemma doNATOut_cached n now L P D :
  Is6 (addrOf L) = false →
  portMapFlow n !! {| peerWAN := P; lanAP := L |} = Some D →
  doNATOut n now L P = (D, n).
Proof. intros H6 Hc. unfold doNATOut. by rewrite H6, Hc. Qed.

Lemma doNATIn_live n now P D pm :
  Is6 (addrOf D) = false →
  portMap n !! D = Some pm →
  Before now (pm_expiry pm) = true →
  doNATIn n now P D =
    (pm_dst pm,
     set_portMapFlow
       (<[ {| peerWAN := P; lanAP := pm_dst pm |} := D ]> (portMapFlow n)) n,
     []).
Proof. intros H6 Hm Hb. unfold doNATIn. by rewrite H6, Hm, Hb. Qed.

Lemma sameFamily_not6 a b :
  sameFamily a b = true → Is6 b = false → Is6 a = false.
Proof. by destruct a, b. Qed.

(** C1: when inbound translation has mapped a packet from P to D onto L
    through a live port mapping, the next outbound translation of a
    packet from L to P returns D, at any later time and whatever the
    strategy would pick: the strategy is not asked and the network is
    left as it is.  Each of the two packets has its source and its
    destination from one IP header, so they are of one address family. *)
Theorem hairpin_stability n now now' P D L :
  livePortMapping n now D L →
  sameFamily (addrOf P) (addrOf D) = true →
  sameFamily (addrOf L) (addrOf P) = true →
  ∃ n', doNATIn n now P D = (L, n', []) ∧
        doNATOut n' now' L P = (D, n').
Proof.
  intros (H6 & pm & Hm & Hb & <-) HPD HLP.
  pose proof (sameFamily_not6 _ _ HPD H6) as HP.
  pose proof (sameFamily_not6 _ _ HLP HP) as HL.
  eexists. split; [by apply doNATIn_live|].
  apply doNATOut_cached; [done|]. simpl. by rewrite lookup_insert_eq.
Qed.

End Hairpin.

Lemma hairpin_stability_witness :
  ∃ n', doNATIn Example.net4 Second Example.peer Example.wanD
          = (Example.L4, n', []) ∧
        doNATOut n' (2 * Second) Example.L4 Example.peer = (Example.wanD, n').
Proof.
  apply hairpin_stability; [|reflexivity|reflexivity].
  split; [reflexivity|].
  exists {| pm_dst := Example.L4; pm_expiry := 0 + secondsDuration 7200 |}.
  repeat split; vm_compute; reflexivity.
Defined.

(** ** Expired mappings (C7) *)

Section Expiry.

Context {T : Type} `{!NATTable T}.

Implicit Types (n : network T).

Lemma doNATIn_expired n now src dst pm :
  Is6 (addrOf dst) = false →
  portMap n !! dst = Some pm →
  Before now (pm_expiry pm) = false →
  doNATIn n now src dst =
    (zeroAddrPort, set_portMap (delete dst (portMap n)) n,
     [LogPortMapExpired dst (pm_dst pm)]).
Proof. intros H6 Hm Hb. unfold doNATIn. by rewrite H6, Hm, Hb. Qed.

(** C7: in a network whose WAN address is not IPv6 and whose table
    satisfies the invariant, inbound translation to a destination whose
    port mapping has an expiry that is not after the current time
    deletes that entry and returns the invalid address; the strategy's
    state, the hairpin cache and every other entry stay as they were,
    and the outcome is the same for every strategy. *)
Theorem expired_mapping_cleanup n now src dst pm :
  portMap_inv n →
  Is6 (wanIP4 n) = false →
  portMap n !! dst = Some pm →
  pm_expiry pm ≤ now →
  ∃ n',
    doNATIn n now src dst = (zeroAddrPort, n', [LogPortMapExpired dst (pm_dst pm)]) ∧
    apIsValid zeroAddrPort = false ∧
    portMap n' = delete dst (portMap n) ∧
    portMap n' !! dst = None ∧
    portMapFlow n' = portMapFlow n ∧
    natTable n' = natTable n.
Proof.
  intros [Ha _] Hw Hm He.
  assert (Is6 (addrOf dst) = false) as H6 by (by rewrite (Ha _ _ Hm)).
  assert (Before now (pm_expiry pm) = false) as Hb
    by (unfold Before; lia).
  eexists. split; [by apply doNATIn_expired|].
  repeat split. simpl. apply lookup_delete_eq.
Qed.

End Expiry.

Lemma expired_mapping_cleanup_witness :
  ∃ n',
    doNATIn Example.netOld (10 * Second) Example.peer Example.wanD
      = (zeroAddrPort, n', [LogPortMapExpired Example.wanD Example.L4]) ∧
    apIsValid zeroAddrPort = false ∧
    portMap n' = delete Example.wanD (portMap Example.netOld) ∧
    portMap n' !! Example.wanD = None ∧
    portMapFlow n' = portMapFlow Example.netOld ∧
    natTable n' = natTable Example.netOld.
Proof.
  apply (expired_mapping_cleanup Example.netOld (10 * Second) Example.peer
           Example.wanD {| pm_dst := Example.L4; pm_expiry := 5 * Second |}).
  - split; unfold Example.netOld; cbn [portMap wanIP4 set_portMap].
    + intros k v [<- _]%lookup_singleton_Some. reflexivity.
    + intros k1 k2 v1 v2 [<- _]%lookup_singleton_Some
        [<- _]%lookup_singleton_Some _. reflexivity.
  - reflexivity.
  - apply lookup_singleton_eq.
  - vm_compute. discriminate.
Defined.

(** ** The port-mapping gate (C8) *)

Section Gate.

Context {T : Type} `{!NATTable T}.

Variable SerializeLayers : list layer → option (list Z).

(** C8: with the portmap flag off, [doPortMap] fails on every input and
    returns the network it was given, whatever the table holds, and
    [handleNATPMPRequest] returns at once: no event, so no reply
    packet, and no change of state. *)
Theorem portmap_gate (n : network T) :
  portmap n = false →
  (∀ now order draws src p e sec,
     doPortMap n now order draws src p e sec = (0, false, n, [])) ∧
  (∀ m now order draws src p e sec,
     doPortMap (set_portMap m n) now order draws src p e sec
       = (0, false, set_portMap m n, [])) ∧
  (∀ now order draws worder req,
     handleNATPMPRequest SerializeLayers n now order draws worder req
       = Ret (n, [])).
Proof.
  assert (∀ n' : network T, portmap n' = false →
            ∀ now order draws src p e sec,
              doPortMap n' now order draws src p e sec = (0, false, n', []))
    as Hgate.
  { intros n' Hoff' *. unfold doPortMap. by rewrite Hoff'. }
  intros Hoff. repeat split; intros.
  - by apply Hgate.
  - by apply Hgate.
  - unfold handleNATPMPRequest. by rewrite Hoff.
Qed.

End Gate.

Lemma portmap_gate_witness :
  doPortMap Example.netOff 0 [] Example.draws0 Example.lan2 60736 0 7200
    = (0, false, Example.netOff, []) ∧
  handleNATPMPRequest (λ _, Some []) Example.netOff 0 [] Example.draws0 []
    {| Src := Example.L4; Dst := AddrPortFrom (Addr4 3232236033) 5351;
       Payload := [0; 1; 0; 0; 237; 64; 0; 0; 0; 0; 28; 32] |}
    = Ret (Example.netOff, []).
Proof.
  destruct (portmap_gate (λ _, Some []) Example.netOff eq_refl) as (H1 & _ & H3).
  split; [apply H1|apply H3].
Defined.

(** ** The hairpin cache: keys stay, values can be rebound (C9) *)

Section HairpinCache.

Context {T : Type} `{!NATTable T}.

Implicit Types (n : network T) (o : op).

Lemma doPortMap_portMapFlow n now order draws src p e sec :
  portMapFlow (doPortMap n now order draws src p e sec).1.2 = portMapFlow n.
Proof. unfold doPortMap. by repeat case_match. Qed.

Lemma doNATOut_portMapFlow n now src dst :
  portMapFlow (doNATOut n now src dst).2 = portMapFlow n.
Proof. unfold doNATOut. by repeat case_match. Qed.

(** The one place that writes the cache: [doNATIn] on a live port
    mapping. *)
Lemma step_portMapFlow n o :
  portMapFlow (step n o) = portMapFlow n ∨
  ∃ now P D L,
    o = OpNATIn now P D ∧ livePortMapping n now D L ∧
    portMapFlow (step n o)
      = <[ {| peerWAN := P; lanAP := L |} := D ]> (portMapFlow n).
Proof.
  destruct o as [now src dst|now src dst|now order draws src p e sec].
  - left. apply doNATOut_portMapFlow.
  - unfold step, doNATIn.
    destruct (Is6 (addrOf dst)) eqn:H6; [by left|].
    destruct (portMap n !! dst) as [pm|] eqn:Hm.
    + destruct (Before now (pm_expiry pm)) eqn:Hb; [|by left].
      right. exists now, src, dst, (pm_dst pm).
      split; [done|]. split; [|done].
      split; [done|]. by exists pm.
    + left. by destruct (PickIncomingDst _ _ _ _ _).
  - left. apply doPortMap_portMapFlow.
Qed.

Lemma step_portMapFlow_keeps n o k :
  is_Some (portMapFlow n !! k) → is_Some (portMapFlow (step n o) !! k).
Proof.
  intros Hk.
  destruct (step_portMapFlow n o) as [->|(now & P & D & L & _ & _ & ->)]; [done|].
  rewrite lookup_insert. by case_decide.
Qed.

Lemma run_portMapFlow_keeps n os k :
  is_Some (portMapFlow n !! k) → is_Some (portMapFlow (run n os) !! k).
Proof.
  revert n. induction os as [|o os IH]; intros n Hk; [done|].
  simpl. apply IH. by apply step_portMapFlow_keeps.
Qed.

(** Where a cached address comes from after a run: it is the one cached
    before, or the destination of an inbound packet of that peer. *)
Lemma run_portMapFlow_value n os P L W :
  portMapFlow n !! {| peerWAN := P; lanAP := L |} = Some W →
  ∃ W', portMapFlow (run n os) !! {| peerWAN := P; lanAP := L |} = Some W' ∧
        (W' = W ∨ ∃ now, OpNATIn now P W' ∈ os).
Proof.
  revert n W. induction os as [|o os IH]; intros n W Hc.
  { exists W. split; [done|by left]. }
  simpl.
  destruct (step_portMapFlow n o) as [Heq|(now & P0 & D0 & L0 & -> & _ & Heq)].
  - destruct (IH (step n o) W) as (W' & Hl & Hfrom); [by rewrite Heq|].
    exists W'. split; [done|].
    destruct Hfrom as [->|[now' Hin]]; [by left|].
    right. exists now'. by apply list_elem_of_further.
  - destruct (decide ({| peerWAN := P0; lanAP := L0 |}
                      = {| peerWAN := P; lanAP := L |})) as [Hk|Hk].
    + injection Hk as -> ->.
      destruct (IH (step n (OpNATIn now P D0)) D0) as (W' & Hl & Hfrom);
        [by rewrite Heq, lookup_insert_eq|].
      exists W'. split; [done|]. right.
      destruct Hfrom as [->|[now' Hin]].
      * exists now. apply list_elem_of_here.
      * exists now'. by apply list_elem_of_further.
    + destruct (IH (step n (OpNATIn now P0 D0)) W) as (W' & Hl & Hfrom);
        [by rewrite Heq, lookup_insert_ne|].
      exists W'. split; [done|].
      destruct Hfrom as [->|[now' Hin]]; [by left|].
      right. exists now'. by apply list_elem_of_further.
Qed.

Lemma step_removes_keeps_flow n o D :
  is_Some (portMap n !! D) → portMap (step n o) !! D = None →
  portMapFlow (step n o) = portMapFlow n.
Proof.
  intros [pm Hm] Hgone.
  destruct o as [now src dst|now src dst|now order draws src p e sec].
  - apply doNATOut_portMapFlow.
  - revert Hgone. unfold step, doNATIn.
    repeat case_match; simplify_eq/=; try done.
    congruence.
  - apply doPortMap_portMapFlow.
Qed.

(** C9, as amended: an operation leaves the hairpin cache as it is or
    sets one entry, and the only one that sets an entry is an inbound
    translation that hits a live port mapping: it binds the pair (peer,
    LAN target of the mapping) to the destination of the packet, adding
    the pair or replacing the address cached for it.  No operation removes
    a pair.  After any sequence of operations the address cached for a
    pair is the one cached before or the destination of an inbound packet
    of that peer in the sequence; so as long as every inbound packet of
    the peer is addressed to the cached address, [doNATOut] keeps
    returning it (for a LAN source that is not IPv6), whatever port
    mappings are deleted, created or expire meanwhile.  An operation that
    takes a port mapping out of the table (an explicit delete, or the
    lookup of an expired mapping) does not touch the cache. *)
Theorem hairpin_cache_monotone n o :
  (portMapFlow (step n o) = portMapFlow n ∨
   ∃ now P D L,
     o = OpNATIn now P D ∧ livePortMapping n now D L ∧
     portMapFlow (step n o)
       = <[ {| peerWAN := P; lanAP := L |} := D ]> (portMapFlow n)) ∧
  (∀ os k, is_Some (portMapFlow n !! k) →
           is_Some (portMapFlow (run n os) !! k)) ∧
  (∀ os P L W,
     portMapFlow n !! {| peerWAN := P; lanAP := L |} = Some W →
     ∃ W', portMapFlow (run n os) !! {| peerWAN := P; lanAP := L |} = Some W' ∧
           (W' = W ∨ ∃ now, OpNATIn now P W' ∈ os)) ∧
  (∀ os P L W now',
     portMapFlow n !! {| peerWAN := P; lanAP := L |} = Some W →
     (∀ now D', OpNATIn now P D' ∈ os → D' = W) →
     portMapFlow (run n os) !! {| peerWAN := P; lanAP := L |} = Some W ∧
     (Is6 (addrOf L) = false → doNATOut (run n os) now' L P = (W, run n os))) ∧
  (∀ D, is_Some (portMap n !! D) → portMap (step n o) !! D = None →
     portMapFlow (step n o) = portMapFlow n ∧
     ∀ P L W now',
       portMapFlow n !! {| peerWAN := P; lanAP := L |} = Some W →
       (doNATOut (step n o) now' L P).1 = (doNATOut n now' L P).1 ∧
       (Is6 (addrOf L) = false → (doNATOut (step n o) now' L P).1 = W)).
Proof.
  split; [apply step_portMapFlow|].
  split; [intros; by apply run_portMapFlow_keeps|].
  split; [intros; by apply run_portMapFlow_value|].
  split.
  { intros os P L W now' Hc Hin.
    destruct (run_portMapFlow_value n os P L W Hc) as (W' & Hl & Hfrom).
    assert (W' = W) as -> by (destruct Hfrom as [->|[now Hop]]; eauto).
    split; [done|]. intros H6. unfold doNATOut. by rewrite H6, Hl. }
  intros D HD Hgone.
  pose proof (step_removes_keeps_flow n o D HD Hgone) as Hflow.
  split; [done|]. intros P L W now' Hc.
  assert (portMapFlow (step n o) !! {| peerWAN := P; lanAP := L |} = Some W)
    as Hc' by (by rewrite Hflow).
  unfold doNATOut. rewrite Hc, Hc'.
  destruct (Is6 (addrOf L)); split; done.
Qed.

End HairpinCache.

Lemma hairpin_cache_monotone_witness :
  portMapFlow Example.net4in
    !! {| peerWAN := Example.peer; lanAP := Example.L4 |} = Some Example.wanD ∧
  portMap (run Example.net4in Example.remap) !! Example.wanD = None ∧
  doNATOut (run Example.net4in Example.remap) (6 * Second) Example.L4 Example.peer
    = (Example.wanD, run Example.net4in Example.remap).
Proof.
  assert (portMapFlow Example.net4in
            !! {| peerWAN := Example.peer; lanAP := Example.L4 |}
          = Some Example.wanD) as Hc by (vm_compute; reflexivity).
  split; [exact Hc|]. split; [vm_compute; reflexivity|].
  destruct (hairpin_cache_monotone Example.net4in
              (OpNATOut 0 Example.L4 Example.peer)) as (_ & _ & _ & Hkeep & _).
  destruct (Hkeep Example.remap Example.peer Example.L4 Example.wanD
              (6 * Second) Hc) as [_ Hout].
  - intros now D' Hin. unfold Example.remap in Hin.
    repeat (apply elem_of_cons in Hin as [Hin|Hin]; [discriminate Hin|]).
    by apply elem_of_nil in Hin.
  - apply Hout. reflexivity.
Defined.

(** C9 as stated fails when a pair is bound again: [Example.net4in] has
    cached 1.2.3.4:32768 for the pair of [peer] and the node; the node
    deletes that mapping and maps port 5000, and a packet of [peer] to
    port 5000 replaces the cached address.  The last operation neither
    leaves the cache unchanged nor adds a pair, and [doNATOut] no longer
    returns the address that was cached. *)
Lemma hairpin_cache_monotone_counterexample :
  let key := {| peerWAN := Example.peer; lanAP := Example.L4 |} in
  let before := run Example.net4in (take 2 Example.rebind) in
  let after := run Example.net4in Example.rebind in
  ops_ok Example.net4in Example.rebind ∧
  portMapFlow Example.net4in !! key = Some Example.wanD ∧
  (doNATOut Example.net4in (2 * Second) Example.L4 Example.peer).1
    = Example.wanD ∧
  portMapFlow before !! key = Some Example.wanD ∧
  after = step before (OpNATIn (5 * Second) Example.peer
                         (AddrPortFrom Example.wan 5000)) ∧
  portMapFlow after ≠ portMapFlow before ∧
  size (portMapFlow after) = size (portMapFlow before) ∧
  portMapFlow after !! key = Some (AddrPortFrom Example.wan 5000) ∧
  (doNATOut after (6 * Second) Example.L4 Example.peer).1
    = AddrPortFrom Example.wan 5000.
Proof.
  intros key before after.
  assert (portMapFlow before !! key = Some Example.wanD) as Hb
    by (vm_compute; reflexivity).
  assert (portMapFlow after !! key = Some (AddrPortFrom Example.wan 5000)) as Ha
    by (vm_compute; reflexivity).
  split; [vm_compute; repeat split; reflexivity|].
  split; [vm_compute; reflexivity|].
  split; [vm_compute; reflexivity|].
  split; [exact Hb|].
  split; [reflexivity|].
  split; [intros Heq; rewrite Heq in Ha; rewrite Ha in Hb; discriminate Hb|].
  split; [vm_compute; reflexivity|].
  split; [exact Ha|].
  vm_compute. reflexivity.
Qed.

(** ** Port-map requests: delete (C3), refresh (C2), allocation (C4) *)

Section PortMap.

Context {T : Type} `{!NATTable T}.

Implicit Types (n : network T) (order : list (AddrPort * portMapping)).

(** C3, as amended: a request with lifetime 0 for external port E from
    LAN address L never succeeds and never touches another entry; it
    removes the mapping of E exactly when the port-map flag is on, the
    mapping exists and the address of its LAN target is L (the internal
    port of the request is not compared); in every other case the
    network is returned as it was. *)
Theorem portmap_delete_owner n now order draws L p E :
  let wanAP := AddrPortFrom (wanIP4 n) E in
  let r := doPortMap n now order draws L p E 0 in
  r.1.1 = (0, false) ∧ r.2 = [] ∧
  (∀ k, k ≠ wanAP → portMap r.1.2 !! k = portMap n !! k) ∧
  (∀ pm, portmap n = true → portMap n !! wanAP = Some pm →
         addrOf (pm_dst pm) = L →
         r.1.2 = set_portMap (delete wanAP (portMap n)) n) ∧
  (portmap n = false ∨ portMap n !! wanAP = None ∨
   (∃ pm, portMap n !! wanAP = Some pm ∧ addrOf (pm_dst pm) ≠ L) →
   r.1.2 = n).
Proof.
  intros wanAP r. subst r wanAP. unfold doPortMap.
  change (0 =? 0) with true. cbv iota.
  destruct (portmap n) eqn:Hon; cbn [negb].
  - destruct (portMap n !! _) as [pm|] eqn:Hm.
    + case_bool_decide as Ho; cbn [fst snd].
      * repeat split; try done.
        -- intros k Hk. simpl. by rewrite lookup_delete_ne.
        -- intros [?|[?|(pm' & [= <-] & Hne)]]; done.
      * repeat split; try done.
        -- intros pm' _ [= <-] Ho'. done.
    + repeat split; done.
  - repeat split; done.
Qed.

End PortMap.

(** C3 as stated fails on the internal port: the mapping of external port
    32768 onto 192.168.2.2:60736 is removed by a delete request of the
    same address that names internal port 1234. *)
Lemma portmap_delete_counterexample :
  portMap Example.net4 !! Example.wanD
    = Some {| pm_dst := Example.L4; pm_expiry := 7200 * Second |} ∧
  AddrPortFrom Example.lan2 1234 ≠ Example.L4 ∧
  portMap (doPortMap Example.net4 Second [] Example.draws0
             Example.lan2 1234 32768 0).1.2 !! Example.wanD = None.
Proof.
  split; [vm_compute; reflexivity|].
  split; [discriminate|vm_compute; reflexivity].
Qed.

Lemma portmap_delete_owner_witness :
  (doPortMap Example.net4 Second [] Example.draws0
     Example.lan2 60736 32768 0).1.2
  = set_portMap (delete Example.wanD (portMap Example.net4)) Example.net4.
Proof.
  destruct (portmap_delete_owner Example.net4 Second [] Example.draws0
              Example.lan2 60736 32768) as (_ & _ & _ & Hdel & _).
  apply (Hdel {| pm_dst := Example.L4; pm_expiry := 7200 * Second |});
    vm_compute; reflexivity.
Defined.

Section PortMapRefresh.

Context {T : Type} `{!NATTable T}.

Implicit Types (n : network T) (order : list (AddrPort * portMapping)).

(** A request with a positive lifetime for a LAN target that already has
    a mapping refreshes that mapping. *)
Lemma doPortMap_refresh n now order draws src p e sec k v :
  portMap_inv n →
  order ≡ₚ map_to_list (portMap n) →
  portmap n = true → sec ≠ 0 →
  portMap n !! k = Some v → pm_dst v = AddrPortFrom src p →
  doPortMap n now order draws src p e sec =
    (portOf k, true,
     set_portMap
       (<[k := {| pm_dst := AddrPortFrom src p;
                  pm_expiry := now + secondsDuration sec |}]> (portMap n)) n,
     []).
Proof.
  intros Hinv Hperm Hon Hsec Hk Hd. unfold doPortMap.
  rewrite Hon. cbn [negb].
  apply Z.eqb_neq in Hsec as ->.
  by rewrite (findMapping_unique n order _ k v Hinv Hperm Hk Hd).
Qed.

(** A request that succeeds leaves a mapping of the returned port, on
    the WAN address, onto the LAN target. *)
Lemma doPortMap_success n now order draws src p e sec port n' ev :
  portMap_inv n →
  order ≡ₚ map_to_list (portMap n) →
  doPortMap n now order draws src p e sec = (port, true, n', ev) →
  portmap n' = true ∧ wanIP4 n' = wanIP4 n ∧ sec ≠ 0 ∧
  portMap n' !! AddrPortFrom (wanIP4 n) port =
    Some {| pm_dst := AddrPortFrom src p;
            pm_expiry := now + secondsDuration sec |}.
Proof.
  intros Hinv Hperm. unfold doPortMap.
  destruct (portmap n) eqn:Hon; cbn [negb]; [|done].
  destruct (sec =? 0) eqn:Hsec; [by repeat case_match|].
  apply Z.eqb_neq in Hsec.
  destruct (findMapping order _) as [k|] eqn:Ef.
  - intros [= <- <- <-]. simpl. repeat split; try done.
    apply findMapping_Some in Ef as (v & Hin & Hd).
    apply (order_lookup n) in Hin; [|done].
    destruct Hinv as [Ha _]. rewrite <- (Ha _ _ Hin).
    destruct k; simpl. apply lookup_insert_eq.
  - destruct (allocLoop _ _ _ _ _) as [ap|] eqn:Ea; [|done].
    intros [= <- <- <-]. simpl. repeat split; try done.
    rewrite <- (allocLoop_addr n _ _ _ (AddrPortFrom (wanIP4 n) e) _ eq_refl Ea).
    destruct ap; simpl. apply lookup_insert_eq.
Qed.

(** C2: when a first map request with lifetime 7200 for (L, p) has
    succeeded, the next one (whatever external port it asks for, whenever
    it is made, whatever the order of the table and the random draws)
    returns the same external port, allocates nothing (no allocation is
    logged and the table keeps its keys), and leaves the entry with
    expiry 7200 seconds after the second call. *)
Theorem portmap_refresh_idempotent n t1 t2 order1 order2 draws1 draws2
    L p E1 E2 e1 n1 ev1 :
  portMap_inv n →
  order1 ≡ₚ map_to_list (portMap n) →
  doPortMap n t1 order1 draws1 L p E1 7200 = (e1, true, n1, ev1) →
  order2 ≡ₚ map_to_list (portMap n1) →
  ∃ n2,
    doPortMap n1 t2 order2 draws2 L p E2 7200 = (e1, true, n2, []) ∧
    dom (portMap n2) = dom (portMap n1) ∧
    portMap n2 !! AddrPortFrom (wanIP4 n) e1 =
      Some {| pm_dst := AddrPortFrom L p; pm_expiry := t2 + 7200 * Second |}.
Proof.
  intros Hinv Hperm1 Hcall1 Hperm2.
  assert (portMap_inv n1) as Hinv1.
  { pose proof (portMap_inv_doPortMap n t1 order1 draws1 L p E1 7200 Hperm1 Hinv)
      as Hi. by rewrite Hcall1 in Hi. }
  destruct (doPortMap_success _ _ _ _ _ _ _ _ _ _ _ Hinv Hperm1 Hcall1)
    as (Hon1 & Hwan & _ & Hentry).
  eexists. split.
  - rewrite (doPortMap_refresh n1 t2 order2 draws2 L p E2 7200 _ _
               Hinv1 Hperm2 Hon1 ltac:(done) Hentry eq_refl).
    reflexivity.
  - simpl. split.
    + apply dom_insert_lookup_L. eauto.
    + by rewrite lookup_insert_eq.
Qed.

End PortMapRefresh.

Lemma portmap_refresh_idempotent_witness :
  ∃ n2,
    doPortMap Example.net4 (60 * Second) (map_to_list (portMap Example.net4))
      Example.draws0 Example.lan2 60736 0 7200 = (32768, true, n2, []) ∧
    dom (portMap n2) = dom (portMap Example.net4) ∧
    portMap n2 !! AddrPortFrom (wanIP4 Example.net0) 32768 =
      Some {| pm_dst := AddrPortFrom Example.lan2 60736;
              pm_expiry := 60 * Second + 7200 * Second |}.
Proof.
  apply (portmap_refresh_idempotent Example.net0 0 (60 * Second) []
           (map_to_list (portMap Example.net4)) Example.draws0 Example.draws0
           Example.lan2 60736 0 0 32768 Example.net4
           [LogAllocated Example.wanD Example.L4]).
  - by apply portMap_inv_init.
  - unfold Example.net0; cbn [portMap]. by rewrite map_to_list_empty.
  - vm_compute. reflexivity.
  - reflexivity.
Defined.

Section PortMapAlloc.

Context {T : Type} `{!NATTable T}.

Implicit Types (n : network T) (order : list (AddrPort * portMapping)).

Lemma ephemeralPort_eq r : 0 ≤ r < 32768 → ephemeralPort r = r + 32768.
Proof.
  intros Hr. unfold ephemeralPort, wrap16.
  change (Z.shiftl 32 10) with 32768. change (2 ^ 16) with 65536.
  apply Z.mod_small. lia.
Qed.

Lemma ephemeralPort_range r : 0 ≤ r < 32768 → 32768 ≤ ephemeralPort r ≤ 65535.
Proof. intros Hr. rewrite ephemeralPort_eq by done. lia. Qed.

(** What the loop returns is the port it was entered with or one of the
    ports it drew. *)
Lemma allocLoop_Some n draws tries try wanAP ap :
  allocLoop n draws tries try wanAP = Some ap →
  (ap = wanAP ∧ 0 < portOf wanAP ∧
   IsPublicPortUsed (pool n) (natTable n) wanAP = false) ∨
  ∃ i, (try ≤ i ∧ S i < try + tries)%nat ∧
       ap = AddrPortFrom (wanIP4 n) (ephemeralPort (draws i)).
Proof.
  revert try wanAP. induction tries as [|tries IH]; intros try wanAP; [done|].
  rewrite allocLoop_S.
  assert (allocLoop n draws tries (S try)
            (AddrPortFrom (wanIP4 n) (ephemeralPort (draws try))) = Some ap →
          ∃ i, (try ≤ i ∧ S i < try + S tries)%nat ∧
               ap = AddrPortFrom (wanIP4 n) (ephemeralPort (draws i))) as Hrec.
  { intros Ha. destruct tries as [|tries]; [done|].
    apply IH in Ha as [(-> & _)|(i & Hi & ->)].
    - exists try. split; [lia|done].
    - exists i. split; [lia|done]. }
  destruct (0 <? portOf wanAP) eqn:Hp; cbn [andb]; [|by right; apply Hrec].
  destruct (IsPublicPortUsed _ _ wanAP) eqn:Hu; cbn [negb];
    [by right; apply Hrec|].
  intros [= <-]. left. split; [done|]. split; [by apply Z.ltb_lt|done].
Qed.

(** The loop gives up when the port it is entered with and every port
    it draws afterwards are unavailable. *)
Lemma allocLoop_None n draws tries try wanAP :
  (∀ i, 0 ≤ draws i < 32768) →
  portOf wanAP ≤ 0 ∨ IsPublicPortUsed (pool n) (natTable n) wanAP = true →
  (∀ i, (try ≤ i ∧ S i < try + tries)%nat →
        IsPublicPortUsed (pool n) (natTable n)
          (AddrPortFrom (wanIP4 n) (ephemeralPort (draws i))) = true) →
  allocLoop n draws tries try wanAP = None.
Proof.
  intros Hd. revert try wanAP.
  induction tries as [|tries IH]; intros try wanAP Hw Hused; [done|].
  rewrite allocLoop_S.
  assert ((0 <? portOf wanAP)
          && negb (IsPublicPortUsed (pool n) (natTable n) wanAP) = false) as ->.
  { destruct Hw as [Hw| ->]; [|by rewrite andb_false_r].
    apply Z.ltb_ge in Hw. by rewrite Hw. }
  destruct tries as [|tries]; [done|].
  apply IH.
  - right. apply Hused. lia.
  - intros i Hi. apply Hused. lia.
Qed.

(** C4, as amended: for a request with a positive lifetime for a LAN
    target that has no mapping yet, whose requested external port is
    zero or reported in use, every port the retry loop draws lies in
    32768–65535 (not 49152–65535), so does the external port of a
    request that succeeds, and the request fails, leaving the network
    as it was, when the 19999 ports drawn and tried are all reported in
    use. *)
Theorem portmap_ephemeral_range n now order draws src p want sec :
  (∀ i, 0 ≤ draws i < 32768) →
  portmap n = true → sec ≠ 0 →
  order ≡ₚ map_to_list (portMap n) →
  (∀ k v, portMap n !! k = Some v → pm_dst v ≠ AddrPortFrom src p) →
  want = 0 ∨
    IsPublicPortUsed (pool n) (natTable n) (AddrPortFrom (wanIP4 n) want) = true →
  let r := doPortMap n now order draws src p want sec in
  (∀ i, 32768 ≤ ephemeralPort (draws i) ≤ 65535) ∧
  (r.1.1.2 = true →
     32768 ≤ r.1.1.1 ≤ 65535 ∧
     ∃ i, Z.of_nat i < 19999 ∧ r.1.1.1 = ephemeralPort (draws i)) ∧
  ((∀ i, Z.of_nat i < 19999 →
         IsPublicPortUsed (pool n) (natTable n)
           (AddrPortFrom (wanIP4 n) (ephemeralPort (draws i))) = true) →
   r = (0, false, n, [])).
Proof.
  intros Hd Hon Hsec Hperm Hfresh Hwant r. subst r.
  assert (findMapping order (AddrPortFrom src p) = None) as Hnone.
  { destruct (findMapping order _) as [k|] eqn:Ef; [|done].
    apply findMapping_Some in Ef as (v & Hin & Hv).
    apply (order_lookup n) in Hin; [|done]. by destruct (Hfresh k v). }
  assert (maxTries = Z.to_nat 20000) as Hmax by reflexivity.
  split; [intros i; by apply ephemeralPort_range|].
  unfold doPortMap. rewrite Hon. cbn [negb].
  apply Z.eqb_neq in Hsec as ->. rewrite Hnone.
  split.
  - destruct (allocLoop _ _ _ _ _) as [ap|] eqn:Ea; cbn [fst snd]; [|done].
    intros _.
    apply allocLoop_Some in Ea as [(-> & Hpos & Hfree)|(i & Hi & ->)].
    + simpl in Hpos, Hfree. destruct Hwant as [->|Hused]; [lia|congruence].
    + simpl. split; [by apply ephemeralPort_range|].
      exists i. split; [|done]. rewrite Hmax in Hi. lia.
  - intros Hused. rewrite allocLoop_None; [done|done| |].
    + simpl. destruct Hwant as [->|Hu]; [left; lia|by right].
    + intros i Hi. apply Hused. rewrite Hmax in Hi. lia.
Qed.

End PortMapAlloc.

Lemma portmap_ephemeral_range_witness :
  let r := doPortMap Example.net0 0 [] Example.draws0 Example.lan2 60736 0 7200 in
  r.1.1.2 = true ∧ 32768 ≤ r.1.1.1 ≤ 65535.
Proof.
  intros r.
  destruct (portmap_ephemeral_range Example.net0 0 [] Example.draws0
              Example.lan2 60736 0 7200) as (_ & Hok & _).
  - intros i. apply Z.mod_pos_bound. lia.
  - reflexivity.
  - discriminate.
  - unfold Example.net0; cbn [portMap]. by rewrite map_to_list_empty.
  - intros k v. unfold Example.net0; cbn [portMap]. by rewrite lookup_empty.
  - by left.
  - assert (r.1.1.2 = true) as Hr by (vm_compute; reflexivity).
    split; [exact Hr|]. apply Hok, Hr.
Defined.

(** C4 as stated fails on the range: the first port drawn with [draws0]
    is 32768, below 49152, and it is the one the request gets. *)
Lemma portmap_ephemeral_range_counterexample :
  ephemeralPort (Example.draws0 0) = 32768 ∧
  doPortMap Example.net0 0 [] Example.draws0 Example.lan2 60736 0 7200
    = (32768, true, Example.net4, [LogAllocated Example.wanD Example.L4]) ∧
  ¬ (49152 ≤ 32768 ≤ 65535).
Proof.
  split; [reflexivity|]. split; [vm_compute; reflexivity|lia].
Qed.

(** ** The DNS responder (C5) *)

Section DNSProofs.

Context {T : Type}.

Variable SerializeLayers : list layer → option (list Z).
Variable vips : gmap string virtualIP.

Lemma answerQuestions_ntp qs resp q :
  q ∈ qs → HasSuffix (q_Name q) ntpSuffix = true →
  answerQuestions vips qs resp = None.
Proof.
  intros Hin Hq. revert resp.
  induction qs as [|q' qs IH]; intros resp; [by apply elem_of_nil in Hin|].
  simpl. destruct (HasSuffix (q_Name q') ntpSuffix) eqn:Hq'; [done|].
  apply elem_of_cons in Hin as [->|Hin]; [congruence|].
  repeat case_match; by apply IH.
Qed.

Lemma writeEth_nil (n : network T) worder : writeEth n worder [] = (false, []).
Proof. reflexivity. Qed.

(** C5: a decoded DNS packet (Ethernet, UDP and DNS layers present) one
    of whose questions names a host ending in .pool.ntp.org gets no
    response from [createDNSResponse], whatever its other questions and
    whatever the host table answers, and the router's DNS branch hands
    no frame to any writer and logs nothing. *)
Theorem dns_ntp_suppression (n : network T) worder pkt eth udp dns q :
  ethLayer pkt = Some eth → udpLayer pkt = Some udp → dnsLayer pkt = Some dns →
  q ∈ Questions dns →
  HasSuffix (q_Name q) ".pool.ntp.org" = true →
  createDNSResponse SerializeLayers vips pkt = Ret NoReply ∧
  routerDNS SerializeLayers vips n worder pkt = Ret [].
Proof.
  intros He Hu Hd Hin Hq.
  assert (createDNSResponse SerializeLayers vips pkt = Ret NoReply) as Hr.
  { unfold createDNSResponse. destruct (flow pkt) as [f ok].
    destruct ok; cbn [negb]; [|done].
    rewrite He, Hu, Hd. destruct (_ || _); [done|].
    by rewrite (answerQuestions_ntp _ _ q Hin Hq). }
  split; [done|]. unfold routerDNS. by rewrite Hr.
Qed.

End DNSProofs.

Lemma dns_ntp_suppression_witness :
  createDNSResponse Example.serializeOK Example.vips Example.dnsPacket
    = Ret NoReply ∧
  routerDNS Example.serializeOK Example.vips Example.net0
    (map_to_list (writers Example.net0)) Example.dnsPacket = Ret [].
Proof.
  eapply (dns_ntp_suppression Example.serializeOK Example.vips Example.net0 _
            Example.dnsPacket _ _ Example.dnsQuery
            {| q_Name := "0.debian.pool.ntp.org"; q_Type := DNSTypeA;
               q_Class := DNSClassIN |}); try reflexivity.
  apply list_elem_of_further, list_elem_of_here.
Defined.

(** ** Writing frames to the LAN (C6) *)

Section WriteEth.

Context {T : Type}.

(** C6, as amended: a frame of at least 12 bytes whose source MAC equals
    its destination MAC, when that MAC is not the broadcast address, is
    handed to no writer, whatever writers are registered; the drop is
    logged and [writeEth] reports that nothing was written. *)
Theorem writeEth_self_drop (n : network T) worder res :
  (12 ≤ length res)%nat →
  take 6 (drop 6 res) = take 6 res →
  IsBroadcast (take 6 res) = false →
  writeEth n worder res = (false, [LogSelfWrite (take 6 res)]) ∧
  ∀ nw frame, Write nw frame ∉ (writeEth n worder res).2.
Proof.
  intros Hlen Hself Hb.
  assert (writeEth n worder res = (false, [LogSelfWrite (take 6 res)])) as Hw.
  { unfold writeEth.
    assert ((length res <? 12)%nat = false) as -> by (apply Nat.ltb_ge; lia).
    rewrite Hb, Hself. by rewrite bool_decide_eq_true_2. }
  split; [done|]. intros nw frame. rewrite Hw. simpl.
  by intros [=]%list_elem_of_singleton.
Qed.

End WriteEth.

Lemma writeEth_self_drop_witness :
  writeEth Example.net0 (map_to_list (writers Example.net0)) Example.selfUnicast
    = (false, [LogSelfWrite Example.nodeMAC]) ∧
  ∀ nw frame,
    Write nw frame
      ∉ (writeEth Example.net0 (map_to_list (writers Example.net0))
           Example.selfUnicast).2.
Proof.
  apply (writeEth_self_drop Example.net0 (map_to_list (writers Example.net0))
           Example.selfUnicast).
  - vm_compute. lia.
  - reflexivity.
  - reflexivity.
Defined.

(** C6 as stated fails for the broadcast address: a frame from
    ff:ff:ff:ff:ff:ff to ff:ff:ff:ff:ff:ff is handed to the registered
    writer, and nothing is logged. *)
Lemma writeEth_self_drop_counterexample :
  take 6 (drop 6 Example.selfBroadcast) = take 6 Example.selfBroadcast ∧
  writers Example.net0 !! Example.nodeMAC = Some Example.writer2 ∧
  writeEth Example.net0 (map_to_list (writers Example.net0)) Example.selfBroadcast
    = (true, [Write Example.writer2 Example.selfBroadcast]).
Proof.
  split; [reflexivity|]. split; vm_compute; reflexivity.
Qed.

(** ** Receive-path checksum validation (C10) *)

Section RXProofs.

Import gro.

Variable Checksum : list Z → Z → Z.
Variable PseudoHeaderChecksum : Z → list Z → list Z → Z → outcome Z.
Variable parseIPv6 : list Z → Z * nat.

Abbreviation networkHeader := (networkHeader Checksum parseIPv6).
Abbreviation RXChecksumOffload :=
  (RXChecksumOffload Checksum PseudoHeaderChecksum parseIPv6).
Abbreviation headerChecksumFails := (headerChecksumFails Checksum).
Abbreviation transportChecksumFails := (transportChecksumFails Checksum).
Abbreviation pseudoHeader := (pseudoHeader PseudoHeaderChecksum).

Lemma index_head b0 buf : index (b0 :: buf) 0 = Ret b0.
Proof.
  unfold index, len. simpl length.
  assert ((0 <=? 0) && (0 <? Z.of_nat (S (length buf))) = true) as ->
    by (apply andb_true_iff; split; [done|apply Z.ltb_lt; lia]).
  reflexivity.
Qed.

Lemma sliceTo_ok buf hi :
  0 ≤ hi ≤ len buf → sliceTo buf hi = Ret (take (Z.to_nat hi) buf).
Proof.
  intros Hhi. unfold sliceTo.
  assert ((0 <=? hi) && (hi <=? len buf) = true) as ->
    by (apply andb_true_iff; split; lia).
  reflexivity.
Qed.

Lemma sliceFrom_ok buf lo :
  0 ≤ lo ≤ len buf → sliceFrom buf lo = Ret (drop (Z.to_nat lo) buf).
Proof.
  intros Hlo. unfold sliceFrom.
  assert ((0 <=? lo) && (lo <=? len buf) = true) as ->
    by (apply andb_true_iff; split; lia).
  reflexivity.
Qed.

Lemma len_nonneg buf : 0 ≤ len buf.
Proof. unfold len. lia. Qed.

Lemma headerLength_bound buf : 0 ≤ headerLength buf ≤ 60.
Proof.
  destruct buf as [|b0 buf]; simpl; [lia|].
  unfold wrap8. change (2 ^ 8) with 256.
  assert (0 ≤ Z.land b0 15 < 16) as Hl.
  { change 15 with (Z.ones 4). rewrite Z.land_ones by lia.
    apply Z.mod_pos_bound. lia. }
  rewrite Z.mod_small by lia. lia.
Qed.

(** The IPv4 case of the switch, for a buffer of at least 20 bytes. *)
Lemma networkHeader_v4 p :
  IPVersion p = 4 → 20 ≤ len (Buffer p) →
  networkHeader p =
    Ret (if (headerLength (Buffer p) <? 20) || (60 <? headerLength (Buffer p))
            || (len (Buffer p) <? headerLength (Buffer p))
         then None
         else if headerChecksumFails (Buffer p) then None
         else Some (IPv4ProtocolNumber, headerLength (Buffer p), p)).
Proof.
  intros Hv Hlen. unfold gro.networkHeader. rewrite Hv.
  change (4 =? 4) with true. cbv iota.
  assert ((len (Buffer p) <? IPv4MinimumSize) = false) as ->
    by (apply Z.ltb_ge; unfold IPv4MinimumSize; lia).
  destruct (Buffer p) as [|b0 buf] eqn:Hb; [unfold len in Hlen; simpl in Hlen; lia|].
  rewrite index_head. cbn [mbind outcome_bind].
  change (wrap8 (Z.land b0 15 * 4)) with (headerLength (b0 :: buf)).
  unfold IPv4MinimumSize, IPv4MaximumHeaderSize.
  destruct (_ || _) eqn:Hchk; [done|].
  apply orb_false_iff in Hchk as [Hchk H3].
  apply orb_false_iff in Hchk as [H1 H2].
  rewrite sliceTo_ok by lia. cbn [mbind outcome_bind].
  unfold gro.headerChecksumFails. by destruct (complementNonZero _).
Qed.

(** The switch never panics, and the start of the transport header it
    finds lies inside the buffer. *)
Lemma networkHeader_total p :
  ∃ h, networkHeader p = Ret h ∧
       ∀ pn cs p', h = Some (pn, cs, p') →
         0 ≤ cs ≤ len (Buffer p) ∧ Buffer p' = Buffer p ∧
         p_Src p' = p_Src p ∧ p_Dst p' = p_Dst p.
Proof.
  destruct (decide (IPVersion p = 4)) as [Hv|Hv].
  - destruct (decide (20 ≤ len (Buffer p))) as [Hlen|Hlen].
    + rewrite networkHeader_v4 by done. eexists. split; [done|].
      intros pn cs p'. destruct (_ || _) eqn:Hchk; [done|].
      apply orb_false_iff in Hchk as [Hchk H3].
      apply orb_false_iff in Hchk as [H1 H2].
      destruct (headerChecksumFails _); [done|].
      intros [= <- <- <-]. repeat split; lia.
    + unfold gro.networkHeader. rewrite Hv. change (4 =? 4) with true. cbv iota.
      assert ((len (Buffer p) <? IPv4MinimumSize) = true) as ->
        by (apply Z.ltb_lt; unfold IPv4MinimumSize; lia).
      eexists. split; [done|]. done.
  - unfold gro.networkHeader.
    apply Z.eqb_neq in Hv as ->.
    destruct (IPVersion p =? 6).
    + destruct (len (Buffer p) <? IPv6FixedHeaderSize) eqn:Hlen;
        [eexists; split; done|].
      apply Z.ltb_ge in Hlen. unfold IPv6FixedHeaderSize in *.
      destruct (_ && _).
      * destruct (parseIPv6 (Buffer p)) as [tp csumLen].
        destruct (_ || _).
        -- destruct (len (Buffer p) <? Z.of_nat csumLen) eqn:Hc;
             [eexists; split; done|].
           apply Z.ltb_ge in Hc.
           eexists. split; [done|]. intros pn cs p' [= <- <- <-].
           repeat split; simpl; lia.
        -- eexists. split; [done|]. intros pn cs p' [= <- <- <-].
           repeat split; lia.
      * eexists. split; [done|]. intros pn cs p' [= <- <- <-].
        repeat split; lia.
    + eexists. split; [done|]. intros pn cs p' [= <- <- <-].
      pose proof (len_nonneg (Buffer p)). repeat split; lia.
Qed.

(** The one panic of [RXChecksumOffload] is that of
    [tun.PseudoHeaderChecksum]: no access to the buffer is out of range. *)
Lemma RXChecksumOffload_panic p :
  RXChecksumOffload p = Panic →
  ∃ proto l,
    PseudoHeaderChecksum proto (AsSlice (addrOf (p_Src p)))
      (AsSlice (addrOf (p_Dst p))) l = Panic.
Proof.
  unfold gro.RXChecksumOffload.
  destruct (networkHeader_total p) as (h & -> & Hh). cbn [mbind outcome_bind].
  destruct h as [[[pn cs] p']|]; [|done].
  destruct (Hh pn cs p' eq_refl) as (Hcs & _ & -> & ->).
  destruct (_ || _); [|done].
  destruct (PseudoHeaderChecksum _ _ _ _) as [|c] eqn:Hp; [intros _; eauto|].
  cbn [mbind outcome_bind].
  rewrite sliceFrom_ok by done. cbn [mbind outcome_bind].
  by destruct (complementNonZero _).
Qed.

Lemma RXChecksumOffload_validated p pb p' :
  RXChecksumOffload p = Ret (Some pb, p') →
  RXChecksumValidated pb = true ∧ pb_Payload pb = Buffer p.
Proof.
  unfold gro.RXChecksumOffload.
  destruct (networkHeader_total p) as (h & -> & Hh). cbn [mbind outcome_bind].
  destruct h as [[[pn cs] p'']|]; [|done].
  destruct (Hh pn cs p'' eq_refl) as (Hcs & _).
  destruct (_ || _).
  - destruct (PseudoHeaderChecksum _ _ _ _) as [|c]; [done|].
    cbn [mbind outcome_bind].
    rewrite sliceFrom_ok by done. cbn [mbind outcome_bind].
    destruct (complementNonZero _); [done|]. by intros [= <- <-].
  - by intros [= <- <-].
Qed.

(** The second half of the function, for a packet the switch lets
    through with its protocol as it was. *)
Lemma RXChecksumOffload_transport p pn :
  networkHeader p = Ret (Some (pn, transportStart p, p)) →
  0 ≤ transportStart p ≤ len (Buffer p) →
  RXChecksumOffload p =
    let packetBuf := {| pb_Payload := Buffer p; NetworkProtocolNumber := pn;
                        RXChecksumValidated := true |} in
    if isTransport (IPProto p) then
      c ← pseudoHeader p;
      Ret (if transportChecksumFails p c then None else Some packetBuf, p)
    else Ret (Some packetBuf, p).
Proof.
  intros Hh Hcs. unfold gro.RXChecksumOffload. rewrite Hh.
  cbn [mbind outcome_bind]. unfold isTransport.
  destruct (_ || _); [|done].
  unfold gro.pseudoHeader.
  destruct (PseudoHeaderChecksum _ _ _ _) as [|c]; [done|].
  cbn [mbind outcome_bind].
  rewrite sliceFrom_ok by done. cbn [mbind outcome_bind].
  unfold gro.transportChecksumFails. by destruct (complementNonZero _).
Qed.

Lemma networkHeader_v4_rejects p :
  IPVersion p = 4 →
  len (Buffer p) < 20 ∨ headerLength (Buffer p) < 20 ∨
  60 < headerLength (Buffer p) ∨ len (Buffer p) < headerLength (Buffer p) ∨
  headerChecksumFails (Buffer p) = true →
  networkHeader p = Ret None.
Proof.
  intros Hv Hbad.
  destruct (decide (20 ≤ len (Buffer p))) as [Hlen|Hlen].
  - rewrite networkHeader_v4 by done.
    destruct (_ || _) eqn:Hchk; [done|].
    apply orb_false_iff in Hchk as [Hchk H3].
    apply orb_false_iff in Hchk as [H1 H2].
    destruct Hbad as [?|[?|[?|[?| ->]]]]; [lia..|done].
  - unfold gro.networkHeader. rewrite Hv. change (4 =? 4) with true. cbv iota.
    assert ((len (Buffer p) <? IPv4MinimumSize) = true) as ->
      by (apply Z.ltb_lt; unfold IPv4MinimumSize; lia).
    done.
Qed.

Lemma networkHeader_v4_accepts p :
  IPVersion p = 4 →
  20 ≤ len (Buffer p) → 20 ≤ headerLength (Buffer p) ≤ len (Buffer p) →
  headerChecksumFails (Buffer p) = false →
  networkHeader p = Ret (Some (IPv4ProtocolNumber, transportStart p, p)).
Proof.
  intros Hv Hlen Hhl Hsum. rewrite networkHeader_v4 by done.
  pose proof (headerLength_bound (Buffer p)).
  assert ((headerLength (Buffer p) <? 20) || (60 <? headerLength (Buffer p))
          || (len (Buffer p) <? headerLength (Buffer p)) = false) as ->.
  { repeat (apply orb_false_iff; split); lia. }
  rewrite Hsum. unfold transportStart. rewrite Hv. done.
Qed.

Lemma networkHeader_v6_short p :
  IPVersion p = 6 → len (Buffer p) < 40 → networkHeader p = Ret None.
Proof.
  intros Hv Hlen. unfold gro.networkHeader. rewrite Hv.
  change (6 =? 4) with false. change (6 =? 6) with true. cbv iota.
  assert ((len (Buffer p) <? IPv6FixedHeaderSize) = true) as ->
    by (apply Z.ltb_lt; unfold IPv6FixedHeaderSize; lia).
  done.
Qed.

Lemma networkHeader_v6 p :
  IPVersion p = 6 → 40 ≤ len (Buffer p) →
  IPProto p = ICMPv6 ∨ IPProto p = TCP ∨ IPProto p = UDP →
  networkHeader p = Ret (Some (IPv6ProtocolNumber, transportStart p, p)).
Proof.
  intros Hv Hlen Hproto. unfold gro.networkHeader, transportStart. rewrite Hv.
  change (6 =? 4) with false. change (6 =? 6) with true. cbv iota.
  assert ((len (Buffer p) <? IPv6FixedHeaderSize) = false) as ->
    by (apply Z.ltb_ge; unfold IPv6FixedHeaderSize; lia).
  by destruct Hproto as [-> | [-> | ->]].
Qed.

Lemma networkHeader_other p :
  IPVersion p ≠ 4 → IPVersion p ≠ 6 →
  networkHeader p = Ret (Some (0, transportStart p, p)).
Proof.
  intros H4 H6. unfold gro.networkHeader, transportStart.
  by apply Z.eqb_neq in H4 as ->; apply Z.eqb_neq in H6 as ->.
Qed.

Lemma transportStart_v6 p : IPVersion p = 6 → transportStart p = 40.
Proof. intros Hv. unfold transportStart. by rewrite Hv. Qed.

Lemma transportStart_other p :
  IPVersion p ≠ 4 → IPVersion p ≠ 6 → transportStart p = 0.
Proof.
  intros H4 H6. unfold transportStart.
  by apply Z.eqb_neq in H4 as ->; apply Z.eqb_neq in H6 as ->.
Qed.

Lemma isTransport_wrap8 tp : isTransport tp = true → wrap8 tp = tp.
Proof.
  unfold isTransport, TCP, UDP.
  intros [->%Z.eqb_eq | ->%Z.eqb_eq]%orb_true_iff; reflexivity.
Qed.

(** The IPv6 case of the switch for a packet of at least 40 bytes whose
    protocol is neither ICMPv6, TCP nor UDP. *)
Lemma networkHeader_extension p tp csumLen :
  IPVersion p = 6 → 40 ≤ len (Buffer p) →
  IPProto p ≠ ICMPv6 → isTransport (IPProto p) = false →
  parseIPv6 (Buffer p) = (tp, csumLen) →
  networkHeader p =
    if isTransport tp
    then if len (Buffer p) <? Z.of_nat csumLen then Ret None
         else Ret (Some (IPv6ProtocolNumber, len (Buffer p) - Z.of_nat csumLen,
                         set_IPProto tp p))
    else Ret (Some (IPv6ProtocolNumber, IPv6FixedHeaderSize, p)).
Proof.
  intros Hv Hlen Hicmp Htr Hparse.
  assert (negb (IPProto p =? ICMPv6) && negb (IPProto p =? TCP)
          && negb (IPProto p =? UDP) = true) as Hext.
  { apply Z.eqb_neq in Hicmp. rewrite Hicmp. unfold isTransport in Htr.
    apply orb_false_iff in Htr as [-> ->]. done. }
  assert ((len (Buffer p) <? IPv6FixedHeaderSize) = false) as Hl
    by (apply Z.ltb_ge; unfold IPv6FixedHeaderSize; lia).
  unfold gro.networkHeader. rewrite Hv.
  change (6 =? 4) with false. change (6 =? 6) with true. cbv iota.
  rewrite Hl, Hext, Hparse.
  destruct (isTransport tp) eqn:Htp.
  - rewrite (isTransport_wrap8 tp Htp). unfold isTransport in Htp. by rewrite Htp.
  - unfold isTransport in Htp. by rewrite Htp.
Qed.

(** The whole function on such a packet. *)
Lemma RXChecksumOffload_extension p tp csumLen :
  IPVersion p = 6 → 40 ≤ len (Buffer p) →
  IPProto p ≠ ICMPv6 → isTransport (IPProto p) = false →
  parseIPv6 (Buffer p) = (tp, csumLen) →
  RXChecksumOffload p =
    let accepted :=
      Some {| pb_Payload := Buffer p; NetworkProtocolNumber := IPv6ProtocolNumber;
              RXChecksumValidated := true |} in
    if isTransport tp then
      if len (Buffer p) <? Z.of_nat csumLen then Ret (None, p)
      else
        c ← PseudoHeaderChecksum tp (AsSlice (addrOf (p_Src p)))
              (AsSlice (addrOf (p_Dst p))) (wrap16 (Z.of_nat csumLen));
        Ret (if complementNonZero
                  (Checksum (drop (length (Buffer p) - csumLen) (Buffer p)) c)
             then None else accepted,
             set_IPProto tp p)
    else Ret (accepted, p).
Proof.
  intros Hv Hlen Hicmp Htr Hparse.
  unfold gro.RXChecksumOffload.
  rewrite (networkHeader_extension p tp csumLen) by done.
  destruct (isTransport tp) eqn:Htp.
  - destruct (len (Buffer p) <? Z.of_nat csumLen) eqn:Hfit; [done|].
    apply Z.ltb_ge in Hfit. cbn [mbind outcome_bind].
    cbn [IPProto set_IPProto p_Src p_Dst].
    unfold isTransport in Htp. rewrite Htp.
    replace (len (Buffer p) - (len (Buffer p) - Z.of_nat csumLen))
      with (Z.of_nat csumLen) by lia.
    destruct (PseudoHeaderChecksum _ _ _ _) as [|c]; [done|].
    cbn [mbind outcome_bind].
    rewrite sliceFrom_ok by (unfold len in *; lia). cbn [mbind outcome_bind].
    replace (Z.to_nat (len (Buffer p) - Z.of_nat csumLen))
      with (length (Buffer p) - csumLen)%nat by (unfold len in *; lia).
    by destruct (complementNonZero _).
  - cbn [mbind outcome_bind]. unfold isTransport in Htr. by rewrite Htr.
Qed.

(** C10, as amended.  [RXChecksumOffload] never indexes outside the
    buffer: its one panic is that of [tun.PseudoHeaderChecksum], on
    addresses that are not 4 or 16 bytes long.  It returns nil for an IPv4
    packet shorter than 20 bytes, with a header length below 20, above 60
    or beyond the buffer, or whose header checksum fails, for an IPv6
    packet shorter than the 40-byte fixed header, and for a TCP or UDP
    packet whose checksum over the pseudo-header fails.  Every buffer it
    returns holds the input bytes and is marked RXChecksumValidated.  It
    returns one for every packet that passes these checks, whether its
    version is 4, 6 or neither; for an IPv6 packet whose protocol is
    neither ICMPv6, TCP nor UDP the transport protocol and the bytes that
    are summed are those [parse.IPv6] finds behind the extension headers
    (no TCP or UDP found: accepted as it is; found, within the buffer:
    accepted exactly when the checksum verifies, with the packet's
    protocol set to the one found).  A TCP or UDP packet that passes the
    checks of the network header with addresses
    [tun.PseudoHeaderChecksum] does not take makes the call panic. *)
Theorem rx_checksum_offload p :
  let packetBuf pn :=
    {| pb_Payload := Buffer p; NetworkProtocolNumber := pn;
       RXChecksumValidated := true |} in
  let verifies :=
    isTransport (IPProto p) = true →
    ∃ c, pseudoHeader p = Ret c ∧ transportChecksumFails p c = false in
  (RXChecksumOffload p = Panic →
     ∃ proto l,
       PseudoHeaderChecksum proto (AsSlice (addrOf (p_Src p)))
         (AsSlice (addrOf (p_Dst p))) l = Panic) ∧
  (IPVersion p = 4 →
     len (Buffer p) < 20 ∨ headerLength (Buffer p) < 20 ∨
     60 < headerLength (Buffer p) ∨ len (Buffer p) < headerLength (Buffer p) ∨
     headerChecksumFails (Buffer p) = true →
     RXChecksumOffload p = Ret (None, p)) ∧
  (IPVersion p = 6 → len (Buffer p) < 40 →
     RXChecksumOffload p = Ret (None, p)) ∧
  (∀ c, isTransport (IPProto p) = true →
     pseudoHeader p = Ret c → transportChecksumFails p c = true →
     RXChecksumOffload p = Ret (None, p)) ∧
  (∀ pb p', RXChecksumOffload p = Ret (Some pb, p') →
     RXChecksumValidated pb = true ∧ pb_Payload pb = Buffer p) ∧
  (IPVersion p = 4 →
     20 ≤ len (Buffer p) → 20 ≤ headerLength (Buffer p) ≤ len (Buffer p) →
     headerChecksumFails (Buffer p) = false →
     (verifies → RXChecksumOffload p = Ret (Some (packetBuf IPv4ProtocolNumber), p)) ∧
     (isTransport (IPProto p) = true → pseudoHeader p = Panic →
      RXChecksumOffload p = Panic)) ∧
  (IPVersion p = 6 →
     40 ≤ len (Buffer p) →
     IPProto p = ICMPv6 ∨ IPProto p = TCP ∨ IPProto p = UDP →
     (verifies → RXChecksumOffload p = Ret (Some (packetBuf IPv6ProtocolNumber), p)) ∧
     (isTransport (IPProto p) = true → pseudoHeader p = Panic →
      RXChecksumOffload p = Panic)) ∧
  (IPVersion p ≠ 4 → IPVersion p ≠ 6 →
     (verifies → RXChecksumOffload p = Ret (Some (packetBuf 0), p)) ∧
     (isTransport (IPProto p) = true → pseudoHeader p = Panic →
      RXChecksumOffload p = Panic)) ∧
  (IPVersion p = 6 →
     40 ≤ len (Buffer p) →
     IPProto p ≠ ICMPv6 → isTransport (IPProto p) = false →
     ∀ tp csumLen, parseIPv6 (Buffer p) = (tp, csumLen) →
       (isTransport tp = false →
        RXChecksumOffload p = Ret (Some (packetBuf IPv6ProtocolNumber), p)) ∧
       (isTransport tp = true → Z.of_nat csumLen ≤ len (Buffer p) →
        ∀ c, PseudoHeaderChecksum tp (AsSlice (addrOf (p_Src p)))
               (AsSlice (addrOf (p_Dst p))) (wrap16 (Z.of_nat csumLen)) = Ret c →
             RXChecksumOffload p
               = Ret (if complementNonZero
                           (Checksum (drop (length (Buffer p) - csumLen) (Buffer p)) c)
                      then None else Some (packetBuf IPv6ProtocolNumber),
                      set_IPProto tp p))).
Proof.
  intros packetBuf verifies.
  assert (∀ pn, networkHeader p = Ret (Some (pn, transportStart p, p)) →
                0 ≤ transportStart p ≤ len (Buffer p) →
                (verifies → RXChecksumOffload p = Ret (Some (packetBuf pn), p)) ∧
                (isTransport (IPProto p) = true → pseudoHeader p = Panic →
                 RXChecksumOffload p = Panic)) as Hpass.
  { intros pn Hh Hcs. rewrite (RXChecksumOffload_transport p pn Hh Hcs).
    cbv zeta. split.
    - intros Hver. destruct (isTransport (IPProto p)); [|done].
      destruct (Hver eq_refl) as (c & -> & Hc). cbn [mbind outcome_bind].
      by rewrite Hc.
    - by intros -> ->. }
  split; [apply RXChecksumOffload_panic|].
  split.
  { intros Hv Hbad. unfold gro.RXChecksumOffload.
    by rewrite (networkHeader_v4_rejects p Hv Hbad). }
  split.
  { intros Hv Hshort. unfold gro.RXChecksumOffload.
    by rewrite (networkHeader_v6_short p Hv Hshort). }
  split.
  { intros c Htr Hp Hbad.
    destruct (networkHeader_total p) as (h & Hh & Hcs).
    destruct h as [[[pn cs] p']|];
      [|unfold gro.RXChecksumOffload; by rewrite Hh].
    assert (cs = transportStart p ∧ p' = p) as [-> ->].
    { revert Hh.
      destruct (decide (IPVersion p = 4)) as [Hv|Hv].
      - destruct (decide (20 ≤ len (Buffer p))) as [Hlen|Hlen].
        + rewrite networkHeader_v4 by done. unfold transportStart. rewrite Hv.
          change (4 =? 4) with true. cbv iota.
          repeat case_match; try done. by intros [= <- <- <-].
        + rewrite networkHeader_v4_rejects; [done|done|]. left. lia.
      - destruct (decide (IPVersion p = 6)) as [H6|H6].
        + destruct (decide (40 ≤ len (Buffer p))) as [Hlen|Hlen].
          * rewrite networkHeader_v6; [by intros [= <- <- <-]|done|done|].
            right. unfold isTransport in Htr.
            apply orb_true_iff in Htr as [?%Z.eqb_eq | ?%Z.eqb_eq]; eauto.
          * rewrite networkHeader_v6_short; [done|done|lia].
        + rewrite networkHeader_other by done. by intros [= <- <- <-]. }
    destruct (Hcs _ _ _ eq_refl) as (Hb & _).
    rewrite (RXChecksumOffload_transport p pn Hh Hb). cbv zeta.
    rewrite Htr, Hp. cbn [mbind outcome_bind]. by rewrite Hbad. }
  split; [apply RXChecksumOffload_validated|].
  split.
  { intros Hv Hlen Hhl Hsum. apply Hpass; [by apply networkHeader_v4_accepts|].
    unfold transportStart. rewrite Hv. change (4 =? 4) with true. cbv iota. lia. }
  split.
  { intros Hv Hlen Hproto. apply Hpass; [by apply networkHeader_v6|].
    rewrite transportStart_v6 by done. lia. }
  split.
  { intros H4 H6. apply Hpass; [by apply networkHeader_other|].
    rewrite transportStart_other by done. pose proof (len_nonneg (Buffer p)). lia. }
  intros Hv Hlen Hicmp Htr tp csumLen Hparse.
  rewrite (RXChecksumOffload_extension p tp csumLen) by done. cbv zeta.
  split.
  - by intros ->.
  - intros -> Hfit c Hc.
    apply Z.ltb_ge in Hfit as ->. by rewrite Hc.
Qed.

End RXProofs.

Lemma rx_checksum_offload_witness :
  gro.RXChecksumOffload gro.refChecksum gro.refPseudoHeaderChecksum
    gro.refParseIPv6 gro.udp4
  = Ret (Some {| gro.pb_Payload := gro.Buffer gro.udp4;
                 gro.NetworkProtocolNumber := gro.IPv4ProtocolNumber;
                 gro.RXChecksumValidated := true |}, gro.udp4) ∧
  gro.RXChecksumOffload gro.refChecksum gro.refPseudoHeaderChecksum
    gro.refParseIPv6 gro.udp4bad
  = Ret (None, gro.udp4bad) ∧
  gro.RXChecksumOffload gro.refChecksum gro.refPseudoHeaderChecksum
    gro.refParseIPv6 gro.udpZero
  = Panic.
Proof.
  split; [|split].
  - destruct (rx_checksum_offload gro.refChecksum gro.refPseudoHeaderChecksum
                gro.refParseIPv6 gro.udp4) as (_ & _ & _ & _ & _ & Hacc & _).
    apply Hacc.
    + reflexivity.
    + vm_compute. discriminate.
    + vm_compute. split; discriminate.
    + vm_compute. reflexivity.
    + intros _. eexists. split; [reflexivity|vm_compute; reflexivity].
  - destruct (rx_checksum_offload gro.refChecksum gro.refPseudoHeaderChecksum
                gro.refParseIPv6 gro.udp4bad) as (_ & _ & _ & Hrej & _).
    eapply Hrej; [reflexivity|reflexivity|vm_compute; reflexivity].
  - destruct (rx_checksum_offload gro.refChecksum gro.refPseudoHeaderChecksum
                gro.refParseIPv6 gro.udpZero)
      as (_ & _ & _ & _ & _ & _ & _ & Hother & _).
    apply Hother; [discriminate|discriminate|reflexivity|reflexivity].
Defined.

(** C10 as stated fails on a short IPv6 packet: an ICMPv6 packet with an
    empty buffer is not IPv4 and neither TCP nor UDP, so it passes every
    check the property lists, and [RXChecksumOffload] returns nil. *)
Lemma rx_checksum_offload_counterexample :
  gro.IPVersion gro.icmp6short ≠ 4 ∧
  gro.isTransport (gro.IPProto gro.icmp6short) = false ∧
  gro.RXChecksumOffload gro.refChecksum gro.refPseudoHeaderChecksum
    gro.refParseIPv6 gro.icmp6short
  = Ret (None, gro.icmp6short).
Proof.
  split; [discriminate|]. split; reflexivity.
Qed.

(** * Further properties of the NAT engine *)

Section NATRuns.

Context {T : Type} `{!NATTable T}.

Implicit Types (n : network T) (order : list (AddrPort * portMapping)).

Lemma portMap_inv_run_from n os :
  portMap_inv n → ops_ok n os → portMap_inv (run n os).
Proof.
  revert n. induction os as [|o os IH]; intros n Hinv Hok; [done|].
  destruct Hok as [Ho Hos]. simpl. apply IH; [|done].
  by apply portMap_inv_step.
Qed.

(** X1: along every run of NAT operations that starts from a network
    without port mappings, every key of the port-mapping table is on the
    router's WAN address and no two entries lead to the same LAN
    target. *)
Theorem portMap_inv_run n os :
  portMap n = ∅ → ops_ok n os → portMap_inv (run n os).
Proof. intros He Hok. apply portMap_inv_run_from; [by apply portMap_inv_init|done]. Qed.

Lemma allocLoop_pos n draws tries try wanAP ap :
  allocLoop n draws tries try wanAP = Some ap → 0 < portOf ap.
Proof.
  revert try wanAP. induction tries as [|tries IH]; intros try wanAP; [done|].
  rewrite allocLoop_S.
  destruct (0 <? portOf wanAP) eqn:Hp; cbn [andb]; [|by apply IH].
  destruct (IsPublicPortUsed _ _ wanAP); cbn [negb]; [by apply IH|].
  intros [= <-]. by apply Z.ltb_lt.
Qed.

Lemma ports_pos_doPortMap n now order draws src p e sec :
  order ≡ₚ map_to_list (portMap n) →
  portMap_ports_pos n →
  portMap_ports_pos (doPortMap n now order draws src p e sec).1.2.
Proof.
  intros Hperm Hpos. unfold doPortMap, portMap_ports_pos.
  repeat case_match; cbn [fst snd portMap set_portMap]; try done.
  - intros k v [_ Hl]%lookup_delete_Some. eauto.
  - match goal with E : findMapping _ _ = Some _ |- _ =>
      apply findMapping_Some in E as (v & Hin & Hd) end.
    apply (order_lookup n) in Hin; [|done].
    intros k v' [[<- _]|[_ Hl]]%lookup_insert_Some; eauto.
  - intros k v' [[<- _]|[_ Hl]]%lookup_insert_Some; [|eauto].
    by eapply allocLoop_pos.
Qed.

Lemma ports_pos_step n o :
  op_ok n o → portMap_ports_pos n → portMap_ports_pos (step n o).
Proof.
  destruct o as [now src dst|now src dst|now order draws src p e sec];
    simpl; intros Hok Hpos.
  - unfold doNATOut. by repeat case_match.
  - unfold doNATIn, portMap_ports_pos.
    repeat case_match; simplify_eq/=; try done.
    intros k v [_ Hl]%lookup_delete_Some. eauto.
  - by apply ports_pos_doPortMap.
Qed.

Lemma ports_pos_run n os :
  portMap_ports_pos n → ops_ok n os → portMap_ports_pos (run n os).
Proof.
  revert n. induction os as [|o os IH]; intros n Hpos Hok; [done|].
  destruct Hok as [Ho Hos]. simpl. apply IH; [|done].
  by apply ports_pos_step.
Qed.

(** X2: after any run of NAT operations from a network without port
    mappings, a port-map request that succeeds returns an external port
    above 0, whether it refreshes a mapping or allocates one. *)
Theorem doPortMap_port_positive n os now order draws src p e sec port n' ev :
  portMap n = ∅ → ops_ok n os →
  order ≡ₚ map_to_list (portMap (run n os)) →
  doPortMap (run n os) now order draws src p e sec = (port, true, n', ev) →
  0 < port.
Proof.
  intros He Hok Hperm Hcall.
  assert (portMap_ports_pos (run n os)) as Hpos.
  { apply ports_pos_run; [|done]. intros k v. by rewrite He, lookup_empty. }
  assert (portMap_inv (run n os)) as Hinv
    by (apply portMap_inv_run_from; [by apply portMap_inv_init|done]).
  pose proof (ports_pos_doPortMap _ now order draws src p e sec Hperm Hpos) as Hpos'.
  rewrite Hcall in Hpos'. cbn [fst snd] in Hpos'.
  destruct (doPortMap_success _ _ _ _ _ _ _ _ _ _ _ Hinv Hperm Hcall)
    as (_ & _ & _ & Hentry).
  by apply Hpos' in Hentry.
Qed.

Lemma maxTries_S : maxTries = S (Z.to_nat 19999).
Proof. unfold maxTries. lia. Qed.

(** X3: a request with a positive lifetime, for a LAN target without a
    mapping, that asks for an external port above 0 which the strategy
    reports free, gets exactly that port: the mapping is installed with
    expiry now + lifetime, no random port is drawn, and every other entry
    stays as it was. *)
Theorem doPortMap_grants_request n now order draws src p want sec :
  portmap n = true → sec ≠ 0 →
  order ≡ₚ map_to_list (portMap n) →
  (∀ k v, portMap n !! k = Some v → pm_dst v ≠ AddrPortFrom src p) →
  0 < want →
  IsPublicPortUsed (pool n) (natTable n) (AddrPortFrom (wanIP4 n) want) = false →
  let wanAP := AddrPortFrom (wanIP4 n) want in
  let r := doPortMap n now order draws src p want sec in
  r.1.1 = (want, true) ∧
  r.2 = [LogAllocated wanAP (AddrPortFrom src p)] ∧
  portMap r.1.2 !! wanAP =
    Some {| pm_dst := AddrPortFrom src p; pm_expiry := now + secondsDuration sec |} ∧
  (∀ k, k ≠ wanAP → portMap r.1.2 !! k = portMap n !! k) ∧
  (∀ draws', doPortMap n now order draws' src p want sec = r).
Proof.
  intros Hon Hsec Hperm Hfresh Hwant Hfree wanAP r.
  assert (findMapping order (AddrPortFrom src p) = None) as Hnone.
  { destruct (findMapping order _) as [k|] eqn:Ef; [|done].
    apply findMapping_Some in Ef as (v & Hin & Hv).
    apply (order_lookup n) in Hin; [|done]. by destruct (Hfresh k v). }
  assert (∀ d, allocLoop n d maxTries 0 wanAP = Some wanAP) as Hloop.
  { intros d. rewrite maxTries_S, allocLoop_S. subst wanAP. cbn [portOf].
    apply Z.ltb_lt in Hwant. by rewrite Hwant, Hfree. }
  assert (∀ d, doPortMap n now order d src p want sec =
               (want, true,
                set_portMap
                  (<[wanAP := {| pm_dst := AddrPortFrom src p;
                                pm_expiry := now + secondsDuration sec |}]>
                     (portMap n)) n,
                [LogAllocated wanAP (AddrPortFrom src p)])) as Hcall.
  { intros d. unfold doPortMap. rewrite Hon. cbn [negb].
    apply Z.eqb_neq in Hsec as ->. rewrite Hnone.
    fold wanAP. by rewrite Hloop. }
  subst r. rewrite Hcall. cbn [fst snd].
  split; [done|]. split; [done|]. split; [simpl; by rewrite lookup_insert_eq|].
  split; [intros k Hk; simpl; by rewrite lookup_insert_ne|].
  intros d. by rewrite Hcall.
Qed.

Lemma secondsDuration_small sec :
  0 ≤ sec < 2 ^ 32 → secondsDuration sec = sec * Second.
Proof.
  intros Hs. unfold secondsDuration, wrap64, Second.
  rewrite Z.mod_small; lia.
Qed.

Lemma doNATIn_after_doPortMap n t1 order draws src p want sec port n1 ev t P :
  portMap_inv n →
  order ≡ₚ map_to_list (portMap n) →
  Is6 (wanIP4 n) = false →
  0 ≤ sec < 2 ^ 32 →
  doPortMap n t1 order draws src p want sec = (port, true, n1, ev) →
  t < t1 + sec * Second →
  doNATIn n1 t P (AddrPortFrom (wanIP4 n) port) =
    (AddrPortFrom src p,
     set_portMapFlow
       (<[ {| peerWAN := P; lanAP := AddrPortFrom src p |}
           := AddrPortFrom (wanIP4 n) port ]> (portMapFlow n1)) n1,
     []).
Proof.
  intros Hinv Hperm H6 Hsec Hcall Ht.
  destruct (doPortMap_success _ _ _ _ _ _ _ _ _ _ _ Hinv Hperm Hcall)
    as (_ & _ & _ & Hentry).
  rewrite secondsDuration_small in Hentry by done.
  rewrite (doNATIn_live n1 t P (AddrPortFrom (wanIP4 n) port) _ H6 Hentry); [done|].
  unfold Before. simpl. lia.
Qed.

(** X4: a port-map request that succeeded forwards: as long as the
    lifetime (below 2^32 seconds, as NAT-PMP carries it) has not run out,
    inbound translation of a packet from any peer to the returned external
    port on the WAN address yields the requester's LAN address and
    internal port, without asking the strategy, and records the hairpin
    entry for that peer. *)
Theorem mapped_port_forwards n t1 order draws src p want sec port n1 ev t P :
  portMap_inv n →
  order ≡ₚ map_to_list (portMap n) →
  Is6 (wanIP4 n) = false →
  0 ≤ sec < 2 ^ 32 →
  doPortMap n t1 order draws src p want sec = (port, true, n1, ev) →
  t < t1 + sec * Second →
  let D := AddrPortFrom (wanIP4 n) port in
  let L := AddrPortFrom src p in
  doNATIn n1 t P D =
    (L, set_portMapFlow (<[ {| peerWAN := P; lanAP := L |} := D ]> (portMapFlow n1)) n1,
     []).
Proof.
  intros Hinv Hperm H6 Hsec Hcall Ht D L.
  by eapply doNATIn_after_doPortMap.
Qed.

(** X5: once its owner has deleted a mapping, the external port is
    reported free again and inbound translation to it is whatever the
    strategy decides: the packet is no longer port-mapped. *)
Theorem deleted_port_falls_to_strategy n now order draws L p E pm t P :
  portmap n = true →
  Is6 (wanIP4 n) = false →
  portMap n !! AddrPortFrom (wanIP4 n) E = Some pm →
  addrOf (pm_dst pm) = L →
  let D := AddrPortFrom (wanIP4 n) E in
  let n1 := (doPortMap n now order draws L p E 0).1.2 in
  net_IsPublicPortUsed n1 D = false ∧
  doNATIn n1 t P D =
    ((PickIncomingDst (pool n1) (natTable n) P D t).1,
     set_natTable (PickIncomingDst (pool n1) (natTable n) P D t).2 n1, []).
Proof.
  intros Hon H6 Hm Ho D n1.
  assert (n1 = set_portMap (delete D (portMap n)) n) as Hn1.
  { subst n1 D. unfold doPortMap. rewrite Hon. cbn [negb].
    change (0 =? 0) with true. cbv iota. rewrite Hm.
    by rewrite bool_decide_eq_true_2. }
  assert (portMap n1 !! D = None) as Hgone
    by (rewrite Hn1; simpl; apply lookup_delete_eq).
  split.
  - unfold net_IsPublicPortUsed. rewrite Hgone.
    apply bool_decide_eq_false. by intros [? ?].
  - unfold doNATIn. cbn [addrOf D]. rewrite H6, Hgone.
    assert (natTable n1 = natTable n) as -> by (by rewrite Hn1).
    by destruct (PickIncomingDst _ _ _ _ _).
Qed.

Lemma step_topology n o :
  mac (step n o) = mac n ∧ portmap (step n o) = portmap n ∧
  wanIP4 (step n o) = wanIP4 n ∧ nodesByIP (step n o) = nodesByIP n ∧
  nodesByMAC (step n o) = nodesByMAC n ∧ macOfIPv6 (step n o) = macOfIPv6 n ∧
  writers (step n o) = writers n.
Proof.
  destruct o as [now src dst|now src dst|now order draws src p e sec]; simpl.
  - unfold doNATOut. by repeat case_match.
  - unfold doNATIn. by repeat case_match; simplify_eq/=.
  - unfold doPortMap. by repeat case_match.
Qed.

(** X6: no run of NAT operations changes the topology of the network: the
    router's MAC and WAN address, the port-map flag, the node tables, the
    IPv6 neighbour cache and the registered writers stay as they were. *)
Theorem nat_ops_keep_topology n os :
  mac (run n os) = mac n ∧ portmap (run n os) = portmap n ∧
  wanIP4 (run n os) = wanIP4 n ∧ nodesByIP (run n os) = nodesByIP n ∧
  nodesByMAC (run n os) = nodesByMAC n ∧ macOfIPv6 (run n os) = macOfIPv6 n ∧
  writers (run n os) = writers n.
Proof.
  revert n. induction os as [|o os IH]; intros n; [done|].
  simpl. destruct (IH (step n o)) as (-> & -> & -> & -> & -> & -> & ->).
  apply step_topology.
Qed.

End NATRuns.

Lemma portMap_inv_run_witness :
  portMap_inv
    (run Example.net0
       [OpPortMap 0 [] Example.draws0 Example.lan2 60736 0 7200;
        OpNATIn Second Example.peer Example.wanD]).
Proof.
  apply portMap_inv_run; [reflexivity|].
  split; [|done]. simpl. unfold Example.net0; cbn [portMap].
  by rewrite map_to_list_empty.
Defined.

Lemma doPortMap_port_positive_witness : 0 < 32768.
Proof.
  apply (doPortMap_port_positive Example.net0 [] 0 [] Example.draws0
           Example.lan2 60736 0 7200 32768 Example.net4
           [LogAllocated Example.wanD Example.L4]).
  - reflexivity.
  - exact I.
  - unfold run, Example.net0; cbn [fold_left portMap]. by rewrite map_to_list_empty.
  - vm_compute. reflexivity.
Defined.

Lemma doPortMap_grants_request_witness :
  (doPortMap Example.net0 0 [] Example.draws0 Example.lan2 60736 4000 7200).1.1
    = (4000, true).
Proof.
  apply (doPortMap_grants_request Example.net0 0 [] Example.draws0
           Example.lan2 60736 4000 7200).
  - reflexivity.
  - discriminate.
  - unfold Example.net0; cbn [portMap]. by rewrite map_to_list_empty.
  - intros k v. unfold Example.net0; cbn [portMap]. by rewrite lookup_empty.
  - reflexivity.
  - vm_compute. reflexivity.
Defined.

Lemma mapped_port_forwards_witness :
  doNATIn Example.net4 Second Example.peer Example.wanD =
    (Example.L4,
     set_portMapFlow
       (<[ {| peerWAN := Example.peer; lanAP := Example.L4 |} := Example.wanD ]>
          (portMapFlow Example.net4)) Example.net4,
     []).
Proof.
  apply (mapped_port_forwards Example.net0 0 [] Example.draws0 Example.lan2
           60736 0 7200 32768 Example.net4
           [LogAllocated Example.wanD Example.L4] Second Example.peer).
  - by apply portMap_inv_init.
  - unfold Example.net0; cbn [portMap]. by rewrite map_to_list_empty.
  - reflexivity.
  - vm_compute. split; [discriminate|reflexivity].
  - vm_compute. reflexivity.
  - vm_compute. reflexivity.
Defined.

Lemma deleted_port_falls_to_strategy_witness :
  net_IsPublicPortUsed
    (doPortMap Example.net4 Second [] Example.draws0 Example.lan2 60736 32768 0).1.2
    Example.wanD = false.
Proof.
  apply (deleted_port_falls_to_strategy Example.net4 Second [] Example.draws0
           Example.lan2 60736 32768
           {| pm_dst := Example.L4; pm_expiry := 7200 * Second |}
           (2 * Second) Example.peer);
    vm_compute; reflexivity.
Defined.

(** * Further properties of the LAN writer *)

Section WriteEthMore.

Context {T : Type} `{!NATTable T}.

Implicit Types (n : network T) (worder : list (MAC * networkWriter)).

(** X7: [writeEth] reports true exactly when it handed the frame to at
    least one writer; whatever it hands over is the frame it was given,
    unchanged and at least 12 bytes long, and the receiver is a writer
    registered in the network: any of them for a broadcast destination,
    the one registered for the destination MAC otherwise. *)
Theorem writeEth_only_registered n worder res :
  worder ≡ₚ map_to_list (writers n) →
  ((writeEth n worder res).1 = true ↔
   ∃ nw, Write nw res ∈ (writeEth n worder res).2) ∧
  (∀ nw f, Write nw f ∈ (writeEth n worder res).2 →
     f = res ∧ (12 ≤ length res)%nat ∧
     ∃ m, writers n !! m = Some nw ∧
          (IsBroadcast (take 6 res) = true ∨ m = take 6 res)).
Proof.
  intros Hperm. unfold writeEth.
  destruct (length res <? 12)%nat eqn:Hlen.
  { split; [split; [done|]|]; simpl.
    - by intros [nw Hin%elem_of_nil].
    - by intros nw f Hin%elem_of_nil. }
  apply Nat.ltb_ge in Hlen.
  destruct (IsBroadcast (take 6 res)) eqn:Hb.
  - cbn [fst snd]. split.
    + destruct worder as [|[m nw] worder]; simpl.
      * split; [done|]. by intros [nw Hin%elem_of_nil].
      * split; [|done]. intros _. exists nw. apply list_elem_of_here.
    + intros nw f ([m nw'] & [= -> ->] & Hin)%list_elem_of_fmap.
      split; [done|]. split; [done|].
      exists m. split; [|by left].
      rewrite Hperm in Hin. by apply elem_of_map_to_list in Hin.
  - case_bool_decide as Hself; cbn [fst snd].
    + split; [split; [done|]|].
      * by intros [nw [=]%list_elem_of_singleton].
      * by intros nw f [=]%list_elem_of_singleton.
    + destruct (writers n !! _) as [nw|] eqn:Hw; cbn [fst snd].
      * split; [split; [|done]|].
        -- intros _. exists nw. apply list_elem_of_here.
        -- intros nw' f [= -> ->]%list_elem_of_singleton.
           split; [done|]. split; [done|]. exists (take 6 res). by split; [|right].
      * split; [split; [done|]|].
        -- by intros [nw Hin%elem_of_nil].
        -- by intros nw f Hin%elem_of_nil.
Qed.

(** X8: a frame of at least 12 bytes to the broadcast address reaches
    every registered writer exactly once, whatever the order in which
    [Range] visits them, and nothing else happens; the call reports false
    exactly when no writer is registered. *)
Theorem writeEth_broadcast_all n worder res :
  worder ≡ₚ map_to_list (writers n) →
  (12 ≤ length res)%nat →
  take 6 res = broadcastMAC →
  (writeEth n worder res).2 ≡ₚ (λ kv, Write kv.2 res) <$> map_to_list (writers n) ∧
  (∀ m nw, writers n !! m = Some nw → Write nw res ∈ (writeEth n worder res).2) ∧
  ((writeEth n worder res).1 = false ↔ writers n = ∅).
Proof.
  intros Hperm Hlen Hb. unfold writeEth.
  assert ((length res <? 12)%nat = false) as -> by (apply Nat.ltb_ge; lia).
  rewrite Hb. change (IsBroadcast broadcastMAC) with true. cbn [fst snd].
  split; [by rewrite Hperm|]. split.
  - intros m nw Hm. apply list_elem_of_fmap. exists (m, nw). split; [done|].
    rewrite Hperm. by apply elem_of_map_to_list.
  - rewrite negb_false_iff, Nat.eqb_eq. split.
    + intros Hz. apply length_zero_iff_nil in Hz. subst worder.
      symmetry in Hperm. apply Permutation_nil_r in Hperm.
      by apply map_to_list_empty_iff in Hperm.
    + intros He. rewrite He, map_to_list_empty in Hperm.
      apply Permutation_nil_r in Hperm. by subst.
Qed.

(** X9: registration round trip.  After [registerWriter] with a writer
    function for MAC [m] (not the broadcast address), a frame to [m] from
    another MAC is handed to exactly that writer; after [registerWriter]
    with a nil function the same frame is silently dropped; and neither
    call changes what is registered for any other MAC. *)
Theorem registerWriter_round_trip n worder m raddr ifID res :
  (12 ≤ length res)%nat →
  take 6 res = m →
  take 6 (drop 6 res) ≠ m →
  IsBroadcast m = false →
  writeEth (registerWriter n m raddr ifID true) worder res =
    (true, [Write {| nw_addr := raddr; interfaceID := ifID |} res]) ∧
  writeEth (registerWriter n m raddr ifID false) worder res = (false, []) ∧
  (∀ wf m', m' ≠ m →
     writers (registerWriter n m raddr ifID wf) !! m' = writers n !! m').
Proof.
  intros Hlen Hdst Hsrc Hb.
  assert ((length res <? 12)%nat = false) as Hl by (apply Nat.ltb_ge; lia).
  split; [|split].
  - unfold writeEth. rewrite Hl, Hdst, Hb.
    rewrite bool_decide_eq_false_2 by done.
    simpl. by rewrite lookup_insert_eq.
  - unfold writeEth. rewrite Hl, Hdst, Hb.
    rewrite bool_decide_eq_false_2 by done.
    simpl. by rewrite lookup_delete_eq.
  - intros [] m' Hne; simpl.
    + by rewrite lookup_insert_ne.
    + by rewrite lookup_delete_ne.
Qed.

End WriteEthMore.

Lemma writeEth_only_registered_witness :
  (writeEth Example.net0 (map_to_list (writers Example.net0))
     Example.selfBroadcast).1 = true ↔
  ∃ nw, Write nw Example.selfBroadcast
          ∈ (writeEth Example.net0 (map_to_list (writers Example.net0))
               Example.selfBroadcast).2.
Proof.
  apply (writeEth_only_registered Example.net0
           (map_to_list (writers Example.net0)) Example.selfBroadcast).
  reflexivity.
Defined.

Lemma writeEth_broadcast_all_witness :
  Write Example.writer2 Example.selfBroadcast
    ∈ (writeEth Example.net0 (map_to_list (writers Example.net0))
         Example.selfBroadcast).2.
Proof.
  destruct (writeEth_broadcast_all Example.net0
              (map_to_list (writers Example.net0)) Example.selfBroadcast)
    as (_ & Hall & _).
  - reflexivity.
  - vm_compute. lia.
  - reflexivity.
  - apply (Hall Example.nodeMAC). vm_compute. reflexivity.
Defined.

Lemma registerWriter_round_trip_witness :
  writeEth (registerWriter Example.net0 Example.nodeMAC None 2 false) []
    (Example.nodeMAC ++ Example.routerMAC ++ [8; 0]) = (false, []).
Proof.
  destruct (registerWriter_round_trip Example.net0 [] Example.nodeMAC None 2
              (Example.nodeMAC ++ Example.routerMAC ++ [8; 0]))
    as (_ & Hoff & _).
  - vm_compute. lia.
  - reflexivity.
  - discriminate.
  - reflexivity.
  - exact Hoff.
Defined.

(** * Packets from the WAN side *)

Section Inbound.

Context {T : Type} `{!NATTable T}.

Variable SerializeLayers : list layer → option (list Z).

Implicit Types (n : network T) (worder : list (MAC * networkWriter)).

(** A frame that starts with a destination and a source MAC of six bytes
    each. *)
Lemma frame_prefix (b : list Z) (dstM srcM : MAC) :
  take 12 b = dstM ++ srcM → length dstM = 6%nat → length srcM = 6%nat →
  (12 ≤ length b)%nat ∧ take 6 b = dstM ∧ take 6 (drop 6 b) = srcM.
Proof.
  intros Hp Hd Hs.
  assert (length (take 12 b) = 12%nat) as Hl
    by (rewrite Hp, length_app; lia).
  rewrite length_take in Hl.
  split; [lia|]. split.
  - replace (take 6 b) with (take 6 (take 12 b))
      by (rewrite take_take; f_equal).
    rewrite Hp. by apply take_app_length'.
  - rewrite take_drop_commute. change (6 + 6)%nat with 12%nat.
    rewrite Hp. by apply drop_app_length'.
Qed.

Lemma writeEth_unicast n worder b (m : MAC) nw :
  (12 ≤ length b)%nat → take 6 b = m → take 6 (drop 6 b) ≠ m →
  IsBroadcast m = false → writers n !! m = Some nw →
  writeEth n worder b = (true, [Write nw b]).
Proof.
  intros Hlen Hdst Hsrc Hb Hw. unfold writeEth.
  assert ((length b <? 12)%nat = false) as -> by (apply Nat.ltb_ge; lia).
  rewrite Hdst, Hb. rewrite bool_decide_eq_false_2 by done. by rewrite Hw.
Qed.

Lemma WriteUDPPacketNoNAT_known n worder p nd nw ip b :
  nodesByIP n !! addrOf (Dst p) = Some nd →
  writers n !! node_mac nd = Some nw →
  length (node_mac nd) = 6%nat → length (mac n) = 6%nat →
  node_mac nd ≠ mac n → IsBroadcast (node_mac nd) = false →
  mkIPLayer IPProtocolUDP (addrOf (Src p)) (addrOf (Dst p)) = Some ip →
  SerializeLayers
    [LEthernet {| SrcMAC := mac n; DstMAC := node_mac nd;
                  EthernetType := etherType p |};
     ip; LUDP (portOf (Src p)) (portOf (Dst p)); LPayload (Payload p)] = Some b →
  take 12 b = node_mac nd ++ mac n →
  WriteUDPPacketNoNAT SerializeLayers n worder p = Ret [Write nw b].
Proof.
  intros Hnd Hw Hl1 Hl2 Hne Hb Hip Hser Hpre.
  destruct (frame_prefix b _ _ Hpre Hl1 Hl2) as (Hlen & Hdst & Hsrc).
  unfold WriteUDPPacketNoNAT, nodeForDestIP, serializedUDPPacket.
  rewrite Hnd, Hip, Hser. cbn [app].
  rewrite (writeEth_unicast n worder b (node_mac nd) nw); try done.
  rewrite Hsrc. congruence.
Qed.

(** X10: a UDP packet for the LAN address of a known node is framed from
    the router's MAC to the node's MAC and handed to the writer registered
    for that node, and to no one else, provided the encoder puts the two
    MACs of the Ethernet layer at the head of the frame. *)
Theorem WriteUDPPacketNoNAT_delivers n worder p nd nw ip b :
  nodesByIP n !! addrOf (Dst p) = Some nd →
  writers n !! node_mac nd = Some nw →
  length (node_mac nd) = 6%nat → length (mac n) = 6%nat →
  node_mac nd ≠ mac n → IsBroadcast (node_mac nd) = false →
  mkIPLayer IPProtocolUDP (addrOf (Src p)) (addrOf (Dst p)) = Some ip →
  SerializeLayers
    [LEthernet {| SrcMAC := mac n; DstMAC := node_mac nd;
                  EthernetType := etherType p |};
     ip; LUDP (portOf (Src p)) (portOf (Dst p)); LPayload (Payload p)] = Some b →
  take 12 b = node_mac nd ++ mac n →
  WriteUDPPacketNoNAT SerializeLayers n worder p = Ret [Write nw b].
Proof.
  intros. by eapply WriteUDPPacketNoNAT_known.
Qed.

(** X11: a packet from the WAN side to a port mapping that has expired
    never reaches the LAN: the mapping is deleted, the packet is recorded
    once on the WAN capture interface, the drop is logged, and no frame
    is handed to any writer. *)
Theorem HandleUDPPacket_expired c n now worder p pm ip buf :
  portMap_inv n → Is6 (wanIP4 n) = false →
  portMap n !! Dst p = Some pm → pm_expiry pm ≤ now →
  mkIPLayer IPProtocolUDP (addrOf (Src p)) (addrOf (Dst p)) = Some ip →
  SerializeLayers
    [ip; LUDP (portOf (Src p)) (portOf (Dst p)); LPayload (Payload p)] = Some buf →
  HandleUDPPacket SerializeLayers c n now worder p =
    Ret (set_portMap (delete (Dst p) (portMap n)) n,
         [PcapWrite now (wanInterfaceID c) buf;
          Lan (LogPortMapExpired (Dst p) (pm_dst pm));
          LogNATDropped (Src p) (Dst p)]).
Proof.
  intros Hinv Hw Hm He Hip Hser.
  assert (Is6 (addrOf (Dst p)) = false) as H6.
  { destruct Hinv as [Ha _]. by rewrite (Ha _ _ Hm). }
  assert (Before now (pm_expiry pm) = false) as Hb by (unfold Before; lia).
  unfold HandleUDPPacket, serializedUDPPacket. rewrite Hip, Hser.
  by rewrite (doNATIn_expired n now (Src p) (Dst p) pm H6 Hm Hb).
Qed.

Lemma doPortMap_topology n now order draws src p e sec :
  let n' := (doPortMap n now order draws src p e sec).1.2 in
  mac n' = mac n ∧ nodesByIP n' = nodesByIP n ∧ writers n' = writers n.
Proof.
  destruct (step_topology n (OpPortMap now order draws src p e sec))
    as (H1 & _ & _ & H2 & _ & _ & H3).
  done.
Qed.


End Inbound.

Lemma WriteUDPPacketNoNAT_delivers_witness :
  WriteUDPPacketNoNAT Example2.serializeEth Example.net0 []
    {| Src := Example.peer; Dst := Example.L4; Payload := [1; 2; 3] |}
  = Ret [Write Example.writer2 (Example.nodeMAC ++ Example.routerMAC ++ [8; 0])].
Proof.
  apply (WriteUDPPacketNoNAT_delivers Example2.serializeEth Example.net0 []
           {| Src := Example.peer; Dst := Example.L4; Payload := [1; 2; 3] |}
           Example.node2 Example.writer2
           (LIPv4 IPProtocolUDP (AsSlice Example.peerIP) (AsSlice Example.lan2)));
    try reflexivity.
  discriminate.
Defined.

Lemma HandleUDPPacket_expired_witness :
  HandleUDPPacket Example2.serializeEth Example2.config Example.netOld
    (10 * Second) []
    {| Src := Example.peer; Dst := Example.wanD; Payload := [1; 2; 3] |}
  = Ret (set_portMap (delete Example.wanD (portMap Example.netOld)) Example.netOld,
         [PcapWrite (10 * Second) 2 [];
          Lan (LogPortMapExpired Example.wanD Example.L4);
          LogNATDropped Example.peer Example.wanD]).
Proof.
  apply (HandleUDPPacket_expired Example2.serializeEth Example2.config
           Example.netOld (10 * Second) []
           {| Src := Example.peer; Dst := Example.wanD; Payload := [1; 2; 3] |}
           {| pm_dst := Example.L4; pm_expiry := 5 * Second |}
           (LIPv4 IPProtocolUDP (AsSlice Example.peerIP) (AsSlice Example.wan))).
  - split; unfold Example.netOld; cbn [portMap wanIP4 set_portMap].
    + intros k v [<- _]%lookup_singleton_Some. reflexivity.
    + intros k1 k2 v1 v2 [<- _]%lookup_singleton_Some
        [<- _]%lookup_singleton_Some _. reflexivity.
  - reflexivity.
  - apply lookup_singleton_eq.
  - vm_compute. discriminate.
  - reflexivity.
  - reflexivity.
Defined.


(** * NAT-PMP requests *)

Section NATPMP.

Context {T : Type} `{!NATTable T}.

Variable SerializeLayers : list layer → option (list Z).

Implicit Types (n : network T).

Lemma withEvents_Ret n ev o n' ev' :
  withEvents n ev o = Ret (n', ev') → n' = n.
Proof. destruct o; [done|]. by intros [= <- _]. Qed.

(** X13: whatever the request, [handleNATPMPRequest] changes nothing in
    the network unless port mapping is enabled and the payload is a
    12-byte version-0 map request (opcode 1); and then the new state is
    the one [doPortMap] leaves for the requester's address and the three
    fields of the request. *)
Theorem handleNATPMPRequest_state n now order draws worder req n' ev :
  handleNATPMPRequest SerializeLayers n now order draws worder req = Ret (n', ev) →
  n' = n ∨
  (portmap n = true ∧ length (Payload req) = 12%nat ∧
   Payload req !! 0%nat = Some 0 ∧ Payload req !! 1%nat = Some 1 ∧
   n' = (doPortMap n now order draws (addrOf (Src req))
           (beUint (take 2 (drop 4 (Payload req))))
           (beUint (take 2 (drop 6 (Payload req))))
           (beUint (take 4 (drop 8 (Payload req))))).1.2).
Proof.
  unfold handleNATPMPRequest.
  destruct (portmap n) eqn:Hon; cbn [negb]; [|intros [= <- _]; by left].
  case_bool_decide as Hext.
  { destruct (As4 _); [|done]. intros Hw%withEvents_Ret. by left. }
  destruct (bool_decide (length (Payload req) = 12%nat)) eqn:H12; cbn [andb];
    [|intros [= <- _]; by left].
  destruct (bool_decide (Payload req !! 0%nat = Some 0)) eqn:H0; cbn [andb];
    [|intros [= <- _]; by left].
  destruct (bool_decide (Payload req !! 1%nat = Some 1)) eqn:H1; cbn [andb];
    [|intros [= <- _]; by left].
  apply bool_decide_eq_true in H12, H0, H1.
  destruct (doPortMap _ _ _ _ _ _ _ _) as [[[got ok] n1] ev1] eqn:Hcall.
  intros Hres. right. repeat split; try done. cbn [fst snd].
  destruct ok.
  - by apply withEvents_Ret in Hres.
  - by injection Hres as <- _.
Qed.

Lemma beUint_be16 z : 0 ≤ z < 65536 → beUint (be16 z) = z.
Proof.
  intros Hz. unfold beUint, be16. simpl.
  rewrite (Z.mod_small (z / 256) 256)
    by (split; [apply Z.div_pos; lia|apply Z.div_lt_upper_bound; lia]).
  pose proof (Z.div_mod z 256 ltac:(lia)). lia.
Qed.

Lemma beUint_be32 z : 0 ≤ z < 2 ^ 32 → beUint (be32 z) = z.
Proof.
  intros Hz. unfold beUint, be32. simpl.
  change (2 ^ 32) with 4294967296 in Hz.
  Z.to_euclidean_division_equations. lia.
Qed.


End NATPMP.

Lemma handleNATPMPRequest_state_witness :
  Example.net4 = Example.net0 ∨
  (portmap Example.net0 = true ∧
   length [0; 1; 0; 0; 237; 64; 0; 0; 0; 0; 28; 32] = 12%nat ∧
   [0; 1; 0; 0; 237; 64; 0; 0; 0; 0; 28; 32] !! 0%nat = Some 0 ∧
   [0; 1; 0; 0; 237; 64; 0; 0; 0; 0; 28; 32] !! 1%nat = Some 1 ∧
   Example.net4 =
     (doPortMap Example.net0 0 [] Example.draws0 Example.lan2
        (beUint [237; 64]) (beUint [0; 0]) (beUint [0; 0; 28; 32])).1.2).
Proof.
  apply (handleNATPMPRequest_state Example2.serializeEth Example.net0 0 []
           Example.draws0 []
           {| Src := Example.L4; Dst := AddrPortFrom (Addr4 3232236033) 5351;
              Payload := [0; 1; 0; 0; 237; 64; 0; 0; 0; 0; 28; 32] |}
           Example.net4
           [LogAllocated Example.wanD Example.L4;
            Write Example.writer2
              (Example.nodeMAC ++ Example.routerMAC ++ [8; 0])]).
  vm_compute. reflexivity.
Defined.


(** * ARP *)

Section ARPProofs.

Context {T : Type} `{!NATTable T}.

Variable SerializeARP : ethHeader → ARP → option (list Z).

Implicit Types (n : network T) (c : netConfig).

(** X15: [MACOfIP] resolves exactly the router's LAN address and the LAN
    addresses of the nodes: the router's address gives the router's MAC,
    even if a node is registered under the same address; any other
    registered address gives that node's MAC; everything else is not
    found. *)
Theorem MACOfIP_resolves c n ip :
  ((MACOfIP c n ip).2 = true ↔ ip = (lanIP4 c).1 ∨ is_Some (nodesByIP n !! ip)) ∧
  (ip = (lanIP4 c).1 → MACOfIP c n ip = (mac n, true)) ∧
  (∀ nd, ip ≠ (lanIP4 c).1 → nodesByIP n !! ip = Some nd →
         MACOfIP c n ip = (node_mac nd, true)) ∧
  (ip ≠ (lanIP4 c).1 → nodesByIP n !! ip = None →
   MACOfIP c n ip = (zeroMAC, false)).
Proof.
  unfold MACOfIP. case_bool_decide as Hgw.
  - repeat split; try done; eauto.
  - destruct (nodesByIP n !! ip) as [nd|] eqn:Hnd.
    + repeat split; try done; eauto. by intros nd' _ [= <-].
    + repeat split; try done. intros [?|[? ?]]; done.
Qed.

Lemma MACOfIP_unknown c n ip :
  ip ≠ (lanIP4 c).1 → nodesByIP n !! ip = None →
  MACOfIP c n ip = (zeroMAC, false).
Proof.
  intros Hgw Hnd. unfold MACOfIP.
  rewrite bool_decide_eq_false_2 by done. by rewrite Hnd.
Qed.


End ARPProofs.

Lemma MACOfIP_resolves_witness :
  MACOfIP Example2.config Example.net0 Example.lan2 = (Example.nodeMAC, true).
Proof.
  destruct (MACOfIP_resolves Example2.config Example.net0 Example.lan2)
    as (_ & _ & Hnode & _).
  apply (Hnode Example.node2); [discriminate|reflexivity].
Defined.


(** * The DNS responder: what a reply holds *)

Section DNSAnswers.

Variable SerializeLayers : list layer → option (list Z).
Variable vips : gmap string virtualIP.

(** An answer the responder gives to question [q]. *)
Lemma answerQuestions_spec qs resp resp' :
  answerQuestions vips qs resp = Some resp' →
  Questions resp' = Questions resp ++ qs ∧
  (∀ q, q ∈ qs → HasSuffix (q_Name q) ntpSuffix = false) ∧
  ID resp' = ID resp ∧ QR resp' = QR resp ∧ OpCode resp' = OpCode resp ∧
  AA resp' = AA resp ∧ RD resp' = RD resp ∧ RA resp' = RA resp ∧
  ResponseCode resp' = ResponseCode resp ∧
  ∃ ans, Answers resp' = Answers resp ++ ans ∧
         (length ans ≤ length qs)%nat ∧
         ∀ a, a ∈ ans →
           rr_TTL a = 60 ∧
           ∃ q v, q ∈ qs ∧ rr_Name a = q_Name q ∧ rr_Type a = q_Type q ∧
                  rr_Class a = DNSClassIN ∧
                  vips !! q_Name q = Some v ∧
                  ((q_Type q = DNSTypeA ∧ rr_IP a = AsSlice (v4 v)) ∨
                   (q_Type q = DNSTypeAAAA ∧ rr_IP a = AsSlice (v6 v))).
Proof.
  revert resp. induction qs as [|q qs IH]; intros resp.
  { intros [= <-]. rewrite app_nil_r. split; [done|]. split.
    { by intros q Hq%elem_of_nil. }
    repeat (split; [done|]).
    exists []. rewrite app_nil_r. split; [done|]. split; [done|].
    by intros a Ha%elem_of_nil. }
  simpl. destruct (HasSuffix (q_Name q) ntpSuffix) eqn:Hntp; [done|].
  assert (∀ r, Questions r = Questions resp ++ [q] →
               ID r = ID resp → QR r = QR resp → OpCode r = OpCode resp →
               AA r = AA resp → RD r = RD resp → RA r = RA resp →
               ResponseCode r = ResponseCode resp →
               ∀ new, Answers r = Answers resp ++ new →
               (length new ≤ 1)%nat →
               (∀ a, a ∈ new →
                  rr_TTL a = 60 ∧
                  ∃ v, rr_Name a = q_Name q ∧ rr_Type a = q_Type q ∧
                       rr_Class a = DNSClassIN ∧ vips !! q_Name q = Some v ∧
                       ((q_Type q = DNSTypeA ∧ rr_IP a = AsSlice (v4 v)) ∨
                        (q_Type q = DNSTypeAAAA ∧ rr_IP a = AsSlice (v6 v)))) →
               answerQuestions vips qs r = Some resp' →
               Questions resp' = Questions resp ++ q :: qs ∧
               (∀ q0, q0 ∈ q :: qs → HasSuffix (q_Name q0) ntpSuffix = false) ∧
               ID resp' = ID resp ∧ QR resp' = QR resp ∧ OpCode resp' = OpCode resp ∧
               AA resp' = AA resp ∧ RD resp' = RD resp ∧ RA resp' = RA resp ∧
               ResponseCode resp' = ResponseCode resp ∧
               ∃ ans, Answers resp' = Answers resp ++ ans ∧
                      (length ans ≤ length (q :: qs))%nat ∧
                      ∀ a, a ∈ ans →
                        rr_TTL a = 60 ∧
                        ∃ q0 v, q0 ∈ q :: qs ∧ rr_Name a = q_Name q0 ∧
                                rr_Type a = q_Type q0 ∧ rr_Class a = DNSClassIN ∧
                                vips !! q_Name q0 = Some v ∧
                                ((q_Type q0 = DNSTypeA ∧ rr_IP a = AsSlice (v4 v)) ∨
                                 (q_Type q0 = DNSTypeAAAA ∧ rr_IP a = AsSlice (v6 v))))
    as Hstep.
  { intros r HQ HID HQR HOp HAA HRD HRA HRC new HA Hlen Hnew Hrec.
    apply IH in Hrec
      as (HQ' & Hntp' & -> & -> & -> & -> & -> & -> & -> & ans & HA' & Hlen' & Hans).
    rewrite HQ' , HQ, <- app_assoc. split; [done|].
    split.
    { intros q0 [->|Hq0]%elem_of_cons; [done|by apply Hntp']. }
    repeat (split; [done|]).
    exists (new ++ ans). rewrite HA', HA, <- app_assoc. split; [done|].
    split; [rewrite length_app; simpl; lia|].
    intros a [Ha|Ha]%elem_of_app.
    - destruct (Hnew a Ha) as (Httl & v & H1 & H2 & H3 & H4 & H5).
      split; [done|]. exists q, v. split; [apply list_elem_of_here|done].
    - destruct (Hans a Ha) as (Httl & q0 & v & Hq0 & Hrest).
      split; [done|]. exists q0, v. split; [by apply list_elem_of_further|done]. }
  destruct (negb (q_Class q =? DNSClassIN)) eqn:Hcl.
  { apply Hstep with (new := []); simpl; try done.
    - by rewrite app_nil_r.
    - lia.
    - by intros a Ha%elem_of_nil. }
  apply negb_false_iff, Z.eqb_eq in Hcl.
  destruct ((q_Type q =? DNSTypeA) || (q_Type q =? DNSTypeAAAA)) eqn:Hty.
  - destruct (vips !! q_Name q) as [v|] eqn:Hv.
    + apply Hstep with
        (new := [{| rr_Name := q_Name q; rr_Type := q_Type q; rr_Class := q_Class q;
                    rr_IP := AsSlice (if q_Type q =? DNSTypeAAAA then v6 v else v4 v);
                    rr_TTL := 60 |}]); simpl; try done.
      intros a ->%list_elem_of_singleton. simpl. split; [done|].
      exists v. repeat split; try done.
      destruct (q_Type q =? DNSTypeAAAA) eqn:H6.
      * right. by apply Z.eqb_eq in H6.
      * left. rewrite orb_true_iff in Hty.
        destruct Hty as [Hty|Hty]; [by apply Z.eqb_eq in Hty|congruence].
    + apply Hstep with (new := []); simpl; try done.
      * by rewrite app_nil_r.
      * lia.
      * by intros a Ha%elem_of_nil.
  - apply Hstep with (new := []); simpl; try done.
    + by rewrite app_nil_r.
    + lia.
    + by intros a Ha%elem_of_nil.
Qed.

(** The response the responder starts from. *)
Lemma createDNSResponse_Reply pkt b :
  createDNSResponse SerializeLayers vips pkt = Ret (Reply b) →
  ∃ eth udp dns resp ip2,
    ethLayer pkt = Some eth ∧ udpLayer pkt = Some udp ∧ dnsLayer pkt = Some dns ∧
    (flow pkt).2 = true ∧
    OpCode dns = DNSOpCodeQuery ∧ QR dns = false ∧ Questions dns ≠ [] ∧
    answerQuestions vips (Questions dns)
      {| ID := ID dns; QR := true; OpCode := DNSOpCodeQuery;
         AA := true; TC := false; RD := RD dns; RA := true;
         ResponseCode := DNSResponseCodeNoErr;
         QDCount := 0; ANCount := 0; Questions := []; Answers := [] |} = Some resp ∧
    mkIPLayer IPProtocolUDP (flow_dst (flow pkt).1) (flow_src (flow pkt).1) = Some ip2 ∧
    SerializeLayers
      [LEthernet {| SrcMAC := DstMAC eth; DstMAC := SrcMAC eth;
                    EthernetType := flowEtherType (flow pkt).1 |};
       ip2; LUDP (DstPort udp) (SrcPort udp); LDNS resp] = Some b.
Proof.
  unfold createDNSResponse. destruct (flow pkt) as [f ok].
  destruct ok; cbn [negb]; [|done].
  destruct (ethLayer pkt) as [eth|]; [|done].
  destruct (udpLayer pkt) as [udp|]; [|done].
  destruct (dnsLayer pkt) as [dns|]; [|done].
  destruct (_ || _) eqn:Hchk; [done|].
  apply orb_false_iff in Hchk as [Hchk Hq].
  apply orb_false_iff in Hchk as [Hop Hqr].
  apply negb_false_iff, Z.eqb_eq in Hop.
  destruct (answerQuestions _ _ _) as [resp|] eqn:Ha; [|done].
  destruct (mkIPLayer _ _ _) as [ip2|] eqn:Hip; [|done].
  destruct (SerializeLayers _) as [b'|] eqn:Hs; [|done].
  intros [= <-]. exists eth, udp, dns, resp, ip2.
  repeat split; try done.
  intros Hnil. by rewrite Hnil in Hq.
Qed.

(** X17: what a DNS reply holds.  When [createDNSResponse] produces a
    reply, the request was a query with at least one question and none
    for an NTP pool host; the reply that is encoded goes back to the
    sender (MACs, addresses and ports swapped), echoes the request's ID
    and every question in order, is marked as an authoritative response
    without error, and each of its answers has TTL 60 and answers a
    class-IN A or AAAA question whose name is in the host table, with
    that entry's IPv4 or IPv6 address; there are never more answers than
    questions. *)
Theorem createDNSResponse_reply_content pkt b :
  createDNSResponse SerializeLayers vips pkt = Ret (Reply b) →
  ∃ eth udp dns resp ip2,
    ethLayer pkt = Some eth ∧ udpLayer pkt = Some udp ∧ dnsLayer pkt = Some dns ∧
    SerializeLayers
      [LEthernet {| SrcMAC := DstMAC eth; DstMAC := SrcMAC eth;
                    EthernetType := flowEtherType (flow pkt).1 |};
       ip2; LUDP (DstPort udp) (SrcPort udp); LDNS resp] = Some b ∧
    mkIPLayer IPProtocolUDP (flow_dst (flow pkt).1) (flow_src (flow pkt).1) = Some ip2 ∧
    OpCode dns = DNSOpCodeQuery ∧ QR dns = false ∧
    (∀ q, q ∈ Questions dns → HasSuffix (q_Name q) ".pool.ntp.org" = false) ∧
    ID resp = ID dns ∧ QR resp = true ∧ AA resp = true ∧
    ResponseCode resp = DNSResponseCodeNoErr ∧
    Questions resp = Questions dns ∧ Questions dns ≠ [] ∧
    (length (Answers resp) ≤ length (Questions dns))%nat ∧
    ∀ a, a ∈ Answers resp →
      rr_TTL a = 60 ∧
      ∃ q v, q ∈ Questions dns ∧ rr_Name a = q_Name q ∧ rr_Type a = q_Type q ∧
             rr_Class a = DNSClassIN ∧ vips !! q_Name q = Some v ∧
             ((q_Type q = DNSTypeA ∧ rr_IP a = AsSlice (v4 v)) ∨
              (q_Type q = DNSTypeAAAA ∧ rr_IP a = AsSlice (v6 v))).
Proof.
  intros (eth & udp & dns & resp & ip2 & He & Hu & Hd & _ & Hop & Hqr & Hne
          & Ha & Hip & Hs)%createDNSResponse_Reply.
  apply answerQuestions_spec in Ha
    as (HQ & Hntp & HID & HQR & _ & HAA & _ & _ & HRC & ans & HA & Hlen & Hans).
  simpl in *.
  exists eth, udp, dns, resp, ip2. rewrite HA.
  repeat (split; [done|]). exact Hans.
Qed.

(** X18: a query for names the host table does not know (and not for an
    NTP pool host) is still answered: the reply carries the questions and
    no answer, with response code NoError. *)
Theorem createDNSResponse_unknown_names pkt eth udp dns ip2 :
  ethLayer pkt = Some eth → udpLayer pkt = Some udp → dnsLayer pkt = Some dns →
  (flow pkt).2 = true →
  mkIPLayer IPProtocolUDP (flow_dst (flow pkt).1) (flow_src (flow pkt).1) = Some ip2 →
  OpCode dns = DNSOpCodeQuery → QR dns = false → Questions dns ≠ [] →
  (∀ q, q ∈ Questions dns →
        HasSuffix (q_Name q) ".pool.ntp.org" = false ∧ vips !! q_Name q = None) →
  ∃ resp,
    Questions resp = Questions dns ∧ Answers resp = [] ∧ ANCount resp = 0 ∧
    ResponseCode resp = DNSResponseCodeNoErr ∧ ID resp = ID dns ∧
    createDNSResponse SerializeLayers vips pkt =
      Ret match SerializeLayers
                  [LEthernet {| SrcMAC := DstMAC eth; DstMAC := SrcMAC eth;
                                EthernetType := flowEtherType (flow pkt).1 |};
                   ip2; LUDP (DstPort udp) (SrcPort udp); LDNS resp] with
          | Some b => Reply b
          | None => Failed
          end.
Proof.
  intros He Hu Hd Hflow Hip Hop Hqr Hne Hunknown.
  assert (∀ qs resp0,
            (∀ q, q ∈ qs → HasSuffix (q_Name q) ntpSuffix = false ∧
                           vips !! q_Name q = None) →
            ∃ resp, answerQuestions vips qs resp0 = Some resp ∧
                    Questions resp = Questions resp0 ++ qs ∧
                    Answers resp = Answers resp0 ∧ ANCount resp = ANCount resp0 ∧
                    ResponseCode resp = ResponseCode resp0 ∧ ID resp = ID resp0)
    as Hloop.
  { induction qs as [|q qs IH]; intros resp0 Hqs.
    - exists resp0. by rewrite app_nil_r.
    - destruct (Hqs q) as [Hntp Hv]; [apply list_elem_of_here|].
      destruct (IH {| ID := ID resp0; QR := QR resp0; OpCode := OpCode resp0;
                      AA := AA resp0; TC := TC resp0; RD := RD resp0;
                      RA := RA resp0; ResponseCode := ResponseCode resp0;
                      QDCount := wrap16 (QDCount resp0 + 1);
                      ANCount := ANCount resp0;
                      Questions := Questions resp0 ++ [q];
                      Answers := Answers resp0 |}
                   (λ q0 Hq0, Hqs q0 (list_elem_of_further _ _ _ Hq0)))
        as (resp & Hr & HQ & HA & HAN & HRC & HID).
      exists resp. split.
      + simpl. rewrite Hntp, Hv. repeat case_match; exact Hr.
      + simpl in *. rewrite HQ, <- app_assoc. done. }
  destruct (Hloop (Questions dns)
              {| ID := ID dns; QR := true; OpCode := DNSOpCodeQuery;
                 AA := true; TC := false; RD := RD dns; RA := true;
                 ResponseCode := DNSResponseCodeNoErr;
                 QDCount := 0; ANCount := 0; Questions := []; Answers := [] |}
              Hunknown)
    as (resp & Hr & HQ & HA & HAN & HRC & HID).
  exists resp. simpl in *. repeat split; try done.
  unfold createDNSResponse.
  destruct (flow pkt) as [f ok]. simpl in Hflow, Hip. subst ok. cbn [negb].
  rewrite He, Hu, Hd, Hop, Hqr. change (negb (DNSOpCodeQuery =? DNSOpCodeQuery)) with false.
  cbn [orb].
  destruct (Questions dns) as [|q0 qs0] eqn:HQs; [done|]. cbn [length Nat.eqb].
  rewrite Hr, Hip. simpl. by destruct (SerializeLayers _).
Qed.

End DNSAnswers.

Lemma createDNSResponse_reply_content_witness :
  ∃ resp : DNS,
    ID resp = 7 ∧ QR resp = true ∧ (length (Answers resp) ≤ 2)%nat ∧
    ∀ a, a ∈ Answers resp → rr_TTL a = 60.
Proof.
  destruct (createDNSResponse_reply_content Example.serializeOK Example.vips
              (Example2.dnsPacketOf ["controlplane.tailscale.com"; "example.com"])
              (Example.nodeMAC ++ Example.routerMAC ++ [8; 0]))
    as (eth & udp & dns & resp & ip2 & He & Hu & Hd & _ & _ & _ & _ & _
        & HID & HQR & _ & _ & HQ & _ & Hlen & Hans).
  - vm_compute. reflexivity.
  - injection Hd as <-. exists resp.
    split; [exact HID|]. split; [exact HQR|]. split; [exact Hlen|].
    intros a Ha. by destruct (Hans a Ha).
Defined.

Lemma createDNSResponse_unknown_names_witness :
  ∃ resp,
    Questions resp = Questions (Example2.dnsQueryOf ["example.com"]) ∧
    Answers resp = [] ∧
    createDNSResponse Example.serializeOK Example.vips
      (Example2.dnsPacketOf ["example.com"])
    = Ret (Reply (Example.nodeMAC ++ Example.routerMAC ++ [8; 0])).
Proof.
  destruct (createDNSResponse_unknown_names Example.serializeOK Example.vips
              (Example2.dnsPacketOf ["example.com"])
              {| SrcMAC := Example.nodeMAC; DstMAC := Example.routerMAC;
                 EthernetType := EthernetTypeIPv4 |}
              {| SrcPort := 40000; DstPort := 53; udp_Payload := [] |}
              (Example2.dnsQueryOf ["example.com"])
              (LIPv4 IPProtocolUDP [4; 11; 4; 11] [192; 168; 2; 2]))
    as (resp & HQ & HA & _ & _ & _ & Hcall); try reflexivity.
  - discriminate.
  - intros q ->%list_elem_of_singleton. split; reflexivity.
  - exists resp. split; [exact HQ|]. split; [exact HA|]. exact Hcall.
Defined.

(** * Checksum validation: IPv6 extension headers, and the GRO queue *)

Section RXMore.

Import gro.

Variable Checksum : list Z → Z → Z.
Variable PseudoHeaderChecksum : Z → list Z → list Z → Z → outcome Z.
Variable parseIPv6 : list Z → Z * nat.

Lemma networkHeader_packet p pn cs p' :
  networkHeader Checksum parseIPv6 p = Ret (Some (pn, cs, p')) →
  p' = p ∨
  (IPVersion p = 6 ∧ IPProto p ≠ ICMPv6 ∧ isTransport (IPProto p) = false ∧
   isTransport (parseIPv6 (Buffer p)).1 = true ∧
   p' = set_IPProto (parseIPv6 (Buffer p)).1 p).
Proof.
  unfold networkHeader.
  destruct (IPVersion p =? 4) eqn:H4.
  { destruct (len (Buffer p) <? IPv4MinimumSize); [done|].
    destruct (index (Buffer p) 0) as [|b0]; [done|]. cbn [mbind outcome_bind].
    destruct (_ || _); [done|].
    destruct (sliceTo _ _) as [|hdr]; [done|]. cbn [mbind outcome_bind].
    destruct (complementNonZero _); [done|]. intros [= _ _ <-]. by left. }
  destruct (IPVersion p =? 6) eqn:H6; [|intros [= _ _ <-]; by left].
  apply Z.eqb_eq in H6.
  destruct (len (Buffer p) <? IPv6FixedHeaderSize); [done|].
  destruct (negb (IPProto p =? ICMPv6) && negb (IPProto p =? TCP)
            && negb (IPProto p =? UDP)) eqn:Hext;
    [|intros [= _ _ <-]; by left].
  apply andb_true_iff in Hext as [Hext Hudp].
  apply andb_true_iff in Hext as [Hicmp Htcp].
  apply negb_true_iff in Hicmp, Htcp, Hudp.
  destruct (parseIPv6 (Buffer p)) as [tp csumLen].
  destruct ((tp =? TCP) || (tp =? UDP)) eqn:Htp; [|intros [= _ _ <-]; by left].
  destruct (len (Buffer p) <? Z.of_nat csumLen); [done|].
  intros [= _ _ <-]. right. cbn [fst].
  rewrite (isTransport_wrap8 tp Htp).
  repeat split; try done.
  - by apply Z.eqb_neq.
  - unfold isTransport. by rewrite Htcp, Hudp.
Qed.

(** X19: [RXChecksumOffload] leaves the packet it is given as it was,
    buffer, version and addresses, with one exception: for an IPv6 packet
    whose protocol field names an extension header (neither ICMPv6, TCP
    nor UDP) and behind whose headers [parse.IPv6] finds TCP or UDP, the
    protocol is set to that transport protocol. *)
Theorem RXChecksumOffload_packet p r p' :
  RXChecksumOffload Checksum PseudoHeaderChecksum parseIPv6 p = Ret (r, p') →
  p' = p ∨
  (IPVersion p = 6 ∧ IPProto p ≠ ICMPv6 ∧ isTransport (IPProto p) = false ∧
   isTransport (parseIPv6 (Buffer p)).1 = true ∧
   p' = set_IPProto (parseIPv6 (Buffer p)).1 p).
Proof.
  unfold RXChecksumOffload.
  destruct (networkHeader Checksum parseIPv6 p) as [|h] eqn:Hh; [done|].
  cbn [mbind outcome_bind].
  destruct h as [[[pn cs] p'']|]; [|intros [= _ <-]; by left].
  apply networkHeader_packet in Hh.
  destruct (_ || _).
  - destruct (PseudoHeaderChecksum _ _ _ _); [done|]. cbn [mbind outcome_bind].
    destruct (sliceFrom _ _); [done|]. cbn [mbind outcome_bind].
    destruct (complementNonZero _); by intros [= _ <-].
  - by intros [= _ <-].
Qed.

(** X20: IPv6 packets with extension headers.  For an IPv6 packet of at
    least 40 bytes whose protocol field is neither ICMPv6, TCP nor UDP:
    if [parse.IPv6] finds no TCP or UDP behind the headers the packet is
    accepted without a transport check; if it finds one but reports more
    transport data than the buffer holds, the packet is rejected; and
    otherwise [tun.PseudoHeaderChecksum] is called for the transport
    protocol found, the packet's addresses and [csumLen]: where it panics
    the call panics, and where it returns the checksum is verified over
    the last [csumLen] bytes of the buffer and the packet is accepted,
    with its protocol set to the one found, exactly when it verifies. *)
Theorem RXChecksumOffload_v6_extension p tp csumLen :
  IPVersion p = 6 → 40 ≤ len (Buffer p) →
  IPProto p ≠ ICMPv6 → isTransport (IPProto p) = false →
  parseIPv6 (Buffer p) = (tp, csumLen) →
  let accepted :=
    Some {| pb_Payload := Buffer p; NetworkProtocolNumber := IPv6ProtocolNumber;
            RXChecksumValidated := true |} in
  (isTransport tp = false →
     RXChecksumOffload Checksum PseudoHeaderChecksum parseIPv6 p
       = Ret (accepted, p)) ∧
  (isTransport tp = true → len (Buffer p) < Z.of_nat csumLen →
     RXChecksumOffload Checksum PseudoHeaderChecksum parseIPv6 p
       = Ret (None, p)) ∧
  (isTransport tp = true → Z.of_nat csumLen ≤ len (Buffer p) →
     RXChecksumOffload Checksum PseudoHeaderChecksum parseIPv6 p =
       match PseudoHeaderChecksum tp (AsSlice (addrOf (p_Src p)))
               (AsSlice (addrOf (p_Dst p))) (wrap16 (Z.of_nat csumLen)) with
       | Panic => Panic
       | Ret c =>
           Ret (if complementNonZero
                     (Checksum (drop (length (Buffer p) - csumLen) (Buffer p)) c)
                then None else accepted,
                set_IPProto tp p)
       end).
Proof.
  intros Hv Hlen Hicmp Htr Hparse accepted.
  rewrite (RXChecksumOffload_extension Checksum PseudoHeaderChecksum parseIPv6
             p tp csumLen) by done.
  cbv zeta. split; [|split].
  - by intros ->.
  - intros -> Hbig. by apply Z.ltb_lt in Hbig as ->.
  - intros -> Hfit. apply Z.ltb_ge in Hfit as ->.
    by destruct (PseudoHeaderChecksum _ _ _ _).
Qed.

End RXMore.

Lemma RXChecksumOffload_packet_witness :
  gro.udp4bad = gro.udp4bad ∨
  (gro.IPVersion gro.udp4bad = 6 ∧ gro.IPProto gro.udp4bad ≠ gro.ICMPv6 ∧
   gro.isTransport (gro.IPProto gro.udp4bad) = false ∧
   gro.isTransport (gro.refParseIPv6 (gro.Buffer gro.udp4bad)).1 = true ∧
   gro.udp4bad =
     gro.set_IPProto (gro.refParseIPv6 (gro.Buffer gro.udp4bad)).1 gro.udp4bad).
Proof.
  apply (RXChecksumOffload_packet gro.refChecksum gro.refPseudoHeaderChecksum
           gro.refParseIPv6 gro.udp4bad None gro.udp4bad).
  vm_compute. reflexivity.
Defined.

Lemma RXChecksumOffload_v6_extension_witness :
  gro.refParseIPv6 (gro.Buffer gro.udp6ext) = (gro.UDP, 8%nat) ∧
  gro.RXChecksumOffload gro.refChecksum gro.refPseudoHeaderChecksum
    gro.refParseIPv6 gro.udp6ext
  = Ret (Some {| gro.pb_Payload := gro.Buffer gro.udp6ext;
                 gro.NetworkProtocolNumber := gro.IPv6ProtocolNumber;
                 gro.RXChecksumValidated := true |},
         gro.set_IPProto gro.UDP gro.udp6ext).
Proof.
  split; [vm_compute; reflexivity|].
  destruct (RXChecksumOffload_v6_extension gro.refChecksum
              gro.refPseudoHeaderChecksum gro.refParseIPv6 gro.udp6ext
              gro.UDP 8%nat) as (_ & _ & Hcheck).
  - reflexivity.
  - vm_compute. discriminate.
  - discriminate.
  - reflexivity.
  - vm_compute. reflexivity.
  - rewrite Hcheck; [vm_compute; reflexivity|reflexivity|vm_compute; discriminate].
Defined.

(** * The GRO queue *)

Section GROQueue.

Import gro groqueue.

Variable Checksum : list Z → Z → Z.
Variable PseudoHeaderChecksum : Z → list Z → list Z → Z → outcome Z.
Variable parseIPv6 : list Z → Z * nat.

Lemma AsSlice_addrLength a : IsValid a = true → addrLength (AsSlice a) = true.
Proof.
  destruct a as [|ip|ip z]; [done|done|].
  intros _. unfold addrLength, AsSlice.
  assert (∀ n v, length (beBytes n v) = n) as Hlen.
  { induction n as [|n IH]; intros v; [done|].
    simpl. rewrite length_app, IH. simpl. lia. }
  by rewrite Hlen.
Qed.

(** [Enqueue] panics only where [tun.PseudoHeaderChecksum] does. *)
Lemma Enqueue_spec g p :
  (∀ proto l,
     PseudoHeaderChecksum proto (AsSlice (addrOf (p_Src p)))
       (AsSlice (addrOf (p_Dst p))) l ≠ Panic) →
  ∃ g' p' ev,
    Enqueue Checksum PseudoHeaderChecksum parseIPv6 g p = Ret (g', p', ev) ∧
    Dispatcher g' = Dispatcher g ∧
    ((ev = [] ∧ g' = g) ∨
     (∃ pkt d, ev = [StackEnqueue pkt; DecRef pkt] ∧ Dispatcher g = Some d ∧
               maybeEnqueued g' = true ∧
               RXChecksumValidated pkt = true ∧ pb_Payload pkt = Buffer p)).
Proof.
  intros Hok. unfold Enqueue. destruct (Dispatcher g) as [d|] eqn:Hd.
  - destruct (RXChecksumOffload Checksum PseudoHeaderChecksum parseIPv6 p)
      as [|[r p']] eqn:Hr.
    { apply RXChecksumOffload_panic in Hr as (proto & l & Hp).
      by destruct (Hok proto l). }
    cbn [mbind outcome_bind].
    destruct r as [pkt|].
    + apply RXChecksumOffload_validated in Hr as [Hv Hp].
      eexists _, _, _. split; [done|]. split; [done|].
      right. exists pkt, d. by repeat split.
    + eexists _, _, _. split; [done|]. split; [done|]. by left.
  - eexists _, _, _. split; [done|]. split; [done|]. by left.
Qed.

Lemma Enqueue_no_dispatcher g p :
  Dispatcher g = None →
  Enqueue Checksum PseudoHeaderChecksum parseIPv6 g p = Ret (g, p, []).
Proof. intros Hd. unfold Enqueue. by rewrite Hd. Qed.

Lemma EnqueueAll_no_dispatcher g ps :
  Dispatcher g = None →
  EnqueueAll Checksum PseudoHeaderChecksum parseIPv6 g ps = Ret (g, []).
Proof.
  intros Hd. induction ps as [|p ps IH]; [done|].
  simpl. rewrite Enqueue_no_dispatcher by done. cbn [mbind outcome_bind fst snd].
  rewrite IH. done.
Qed.

Lemma EnqueueAll_spec g ps :
  (∀ p proto l, p ∈ ps →
     PseudoHeaderChecksum proto (AsSlice (addrOf (p_Src p)))
       (AsSlice (addrOf (p_Dst p))) l ≠ Panic) →
  ∃ g' ev,
    EnqueueAll Checksum PseudoHeaderChecksum parseIPv6 g ps = Ret (g', ev) ∧
    Dispatcher g' = Dispatcher g ∧
    (maybeEnqueued g' = true ↔
     maybeEnqueued g = true ∨ ∃ pkt, StackEnqueue pkt ∈ ev) ∧
    (∀ pkt, StackEnqueue pkt ∈ ev →
       RXChecksumValidated pkt = true ∧
       ∃ p, p ∈ ps ∧ pb_Payload pkt = Buffer p).
Proof.
  revert g. induction ps as [|p ps IH]; intros g Hok.
  { exists g, []. simpl. split; [done|]. split; [done|]. split.
    - split; [by left|]. intros [?|[pkt Hin%elem_of_nil]]; done.
    - by intros pkt Hin%elem_of_nil. }
  destruct (Enqueue_spec g p) as (g1 & p1 & ev1 & He & Hd1 & Hcase).
  { intros proto l. apply Hok. apply list_elem_of_here. }
  destruct (IH g1) as (g2 & ev2 & Hall & Hd2 & Hme & Hpk).
  { intros p0 proto l Hin. apply Hok. by apply list_elem_of_further. }
  exists g2, (ev1 ++ ev2). simpl. rewrite He. cbn [mbind outcome_bind fst snd].
  rewrite Hall. cbn [mbind outcome_bind fst snd].
  split; [done|]. split; [congruence|]. split.
  - rewrite Hme. destruct Hcase as [[-> ->]|(pkt & d & -> & _ & Hm1 & _)].
    + simpl. done.
    + split.
      * intros _. right. exists pkt. apply list_elem_of_here.
      * intros _. by left.
  - intros pkt [Hin|Hin]%elem_of_app.
    + destruct Hcase as [[-> _]|(pkt' & d & -> & _ & _ & Hv & Hp)];
        [by apply elem_of_nil in Hin|].
      apply elem_of_cons in Hin as [[= ->]|Hin].
      * split; [done|]. exists p. split; [apply list_elem_of_here|done].
      * by apply list_elem_of_singleton in Hin.
    + destruct (Hpk pkt Hin) as (Hv & p0 & Hp0 & Hb).
      split; [done|]. exists p0. split; [by apply list_elem_of_further|done].
Qed.

(** X21: the life of a GRO.  Take a [tun.PseudoHeaderChecksum] that
    returns on addresses of 4 and of 16 bytes, and packets whose source
    and destination are valid addresses.  From a GRO that has a
    dispatcher and nothing enqueued, enqueueing the packets returns, and
    hands to the stack only packet buffers that passed validation, each
    holding the bytes of one of the packets; the following [Flush] flushes
    the stack exactly when at least one packet was handed over, returns
    the GRO to the pool without dispatcher, and every [Enqueue] after
    that, of any packet, does nothing. *)
Theorem GRO_lifecycle g ps d :
  (∀ proto src dst l,
     addrLength src = true → addrLength dst = true →
     PseudoHeaderChecksum proto src dst l ≠ Panic) →
  (∀ p, p ∈ ps →
     IsValid (addrOf (p_Src p)) = true ∧ IsValid (addrOf (p_Dst p)) = true) →
  Dispatcher g = Some d → maybeEnqueued g = false →
  ∃ g' ev,
    EnqueueAll Checksum PseudoHeaderChecksum parseIPv6 g ps = Ret (g', ev) ∧
    (∀ pkt, StackEnqueue pkt ∈ ev →
       RXChecksumValidated pkt = true ∧
       ∃ p, p ∈ ps ∧ pb_Payload pkt = Buffer p) ∧
    (StackFlush ∈ (Flush g').2 ↔ ∃ pkt, StackEnqueue pkt ∈ ev) ∧
    PoolPut ∈ (Flush g').2 ∧
    Dispatcher (Flush g').1 = None ∧
    ∀ ps', EnqueueAll Checksum PseudoHeaderChecksum parseIPv6 (Flush g').1 ps'
             = Ret ((Flush g').1, []).
Proof.
  intros Hphc Hvalid Hd Hm.
  destruct (EnqueueAll_spec g ps) as (g' & ev & Hall & Hd' & Hme & Hpk).
  { intros p proto l Hin. destruct (Hvalid p Hin) as [Hs Hdst].
    apply Hphc; by apply AsSlice_addrLength. }
  exists g', ev. split; [done|]. split; [done|].
  split; [|split; [|split; [done|]]].
  - unfold Flush. cbn [snd]. rewrite Hd', Hd.
    rewrite bool_decide_eq_true_2 by eauto. cbn [andb].
    destruct (maybeEnqueued g') eqn:Hm'.
    + split; [|intros _; apply list_elem_of_here].
      intros _. destruct Hme as [Hme _].
      destruct (Hme eq_refl) as [?|?]; [congruence|done].
    + split.
      * intros Hin. simpl in Hin. by apply list_elem_of_singleton in Hin.
      * intros Hex. destruct Hme as [_ Hme].
        assert (false = true) as Ht by (apply Hme; right; exact Hex).
        discriminate.
  - unfold Flush. cbn [snd]. apply elem_of_app. right. apply list_elem_of_here.
  - intros ps'. by apply EnqueueAll_no_dispatcher.
Qed.

End GROQueue.

Lemma GRO_lifecycle_witness :
  ∃ g' ev,
    groqueue.EnqueueAll gro.refChecksum gro.refPseudoHeaderChecksum
      gro.refParseIPv6 Example2.gro1 [gro.udp4bad; gro.udp4; gro.udp6ext]
    = Ret (g', ev) ∧
    (groqueue.StackFlush ∈ (groqueue.Flush g').2 ↔
     ∃ pkt, groqueue.StackEnqueue pkt ∈ ev).
Proof.
  destruct (GRO_lifecycle gro.refChecksum gro.refPseudoHeaderChecksum
              gro.refParseIPv6 Example2.gro1
              [gro.udp4bad; gro.udp4; gro.udp6ext] 1)
    as (g' & ev & Hall & _ & Hflush & _).
  - intros proto src dst l Hs Hd. unfold gro.refPseudoHeaderChecksum.
    by rewrite Hs, Hd.
  - intros p Hin.
    repeat (apply elem_of_cons in Hin as [->|Hin]; [by split|]).
    by apply elem_of_nil in Hin.
  - reflexivity.
  - reflexivity.
  - exists g', ev. split; [exact Hall|exact Hflush].
Defined.

(** * Panics and edge cases *)

Section Safety.

Context {T : Type} `{!NATTable T}.

Variable SerializeLayers : list layer → option (list Z).
Variable vips : gmap string virtualIP.

Implicit Types (n : network T).

Lemma mkIPLayer_valid proto src dst :
  IsValid src = true → ∃ l, mkIPLayer proto src dst = Some l.
Proof. destruct src; [done|..]; intros _; by eexists. Qed.

Lemma WriteUDPPacketNoNAT_no_panic n worder p :
  IsValid (addrOf (Src p)) = true →
  ∃ ev, WriteUDPPacketNoNAT SerializeLayers n worder p = Ret ev.
Proof.
  intros Hv. unfold WriteUDPPacketNoNAT, serializedUDPPacket.
  destruct (nodeForDestIP n _) as [[nd|] ev]; [|by eexists].
  destruct (mkIPLayer_valid IPProtocolUDP _ (addrOf (Dst p)) Hv) as [l ->].
  destruct (SerializeLayers _); by eexists.
Qed.

(** X22: [handleNATPMPRequest] does not panic on a request whose
    destination address is valid, as it is for every packet the router
    decodes, when the router's WAN address is an IPv4 address. *)
Theorem handleNATPMPRequest_no_panic n now order draws worder req :
  Is4 (wanIP4 n) = true →
  IsValid (addrOf (Dst req)) = true →
  ∃ r, handleNATPMPRequest SerializeLayers n now order draws worder req = Ret r.
Proof.
  intros H4 Hv. unfold handleNATPMPRequest.
  destruct (negb (portmap n)); [by eexists|].
  case_bool_decide.
  { destruct (wanIP4 n) eqn:Hw; try done. simpl.
    edestruct (WriteUDPPacketNoNAT_no_panic n worder) as [ev ->];
      [|by eexists]. done. }
  destruct (_ && _); [|by eexists].
  destruct (doPortMap _ _ _ _ _ _ _ _) as [[[got ok] n1] ev1].
  destruct ok; [|by eexists].
  edestruct (WriteUDPPacketNoNAT_no_panic n1 worder) as [ev ->];
    [|by eexists]. done.
Qed.

(** X23: [createDNSResponse] panics only on a missing layer: for a packet
    that carries an Ethernet, a UDP and a DNS layer it always returns,
    whatever the addresses and the questions. *)
Theorem createDNSResponse_no_panic pkt eth udp dns :
  ethLayer pkt = Some eth → udpLayer pkt = Some udp → dnsLayer pkt = Some dns →
  ∃ r, createDNSResponse SerializeLayers vips pkt = Ret r.
Proof.
  intros He Hu Hd. unfold createDNSResponse, flow.
  destruct (networkFlow pkt) as [[sb db]|]; cbn [negb]; [|by eexists].
  destruct (IsValid (AddrFromSlice sb) && IsValid (AddrFromSlice db)) eqn:Hok;
    cbn [negb]; [|by eexists].
  apply andb_true_iff in Hok as [Hs Hdv].
  rewrite He, Hu, Hd. destruct (_ || _); [by eexists|].
  destruct (answerQuestions _ _ _); [|by eexists].
  cbn [flow_dst flow_src].
  destruct (mkIPLayer_valid IPProtocolUDP _ (AddrFromSlice sb) Hdv) as [l ->].
  destruct (SerializeLayers _); by eexists.
Qed.

(** X24: [SoleLANIP] finds an address exactly when the network has one
    node, and then it is that node's address; with no node or with
    several it reports nothing. *)
Theorem SoleLANIP_single n ip :
  net_SoleLANIP n = (ip, true) ↔ ∃ nd, nodesByIP n = {[ ip := nd ]}.
Proof.
  unfold net_SoleLANIP. split.
  - destruct (map_to_list (nodesByIP n)) as [|[ip' nd] [|? ?]] eqn:Hl; try done.
    intros [= ->]. exists nd.
    rewrite <- (list_to_map_to_list (nodesByIP n)), Hl. simpl.
    by rewrite insert_empty.
  - intros [nd ->]. by rewrite map_to_list_singleton.
Qed.

End Safety.

Lemma handleNATPMPRequest_no_panic_witness :
  ∃ r, handleNATPMPRequest Example2.serializeEth Example.net0 0 []
         Example.draws0 []
         {| Src := Example.L4; Dst := AddrPortFrom (Addr4 3232236033) 5351;
            Payload := [0; 0] |} = Ret r.
Proof.
  apply handleNATPMPRequest_no_panic; reflexivity.
Defined.

Lemma createDNSResponse_no_panic_witness :
  ∃ r, createDNSResponse Example.serializeOK Example.vips Example.dnsPacket = Ret r.
Proof.
  eapply createDNSResponse_no_panic; reflexivity.
Defined.

(** * DHCP *)

Section DHCPProofs.

Variable nodeByMAC : gmap MAC nodeNet.
Variable fakeDNS : virtualIP.
Variable SerializeDHCP : ethHeader → IPv4 → UDP → DHCPv4 → option (list Z).

(** X25: the message type of a DHCP request is the first data byte of its
    last message-type option with a positive length, and 0 (no type) when
    it has none. *)
Theorem messageType_last opts mt :
  messageType opts 0 = Ret mt →
  (mt = 0 ∧ ∀ opt, opt ∈ opts → decides opt = false) ∨
  ∃ pre opt post,
    opts = pre ++ opt :: post ∧ decides opt = true ∧
    head (opt_Data opt) = Some mt ∧
    ∀ o, o ∈ post → decides o = false.
Proof.
  assert (∀ opts m0 mt,
            messageType opts m0 = Ret mt →
            (mt = m0 ∧ ∀ opt, opt ∈ opts → decides opt = false) ∨
            ∃ pre opt post,
              opts = pre ++ opt :: post ∧ decides opt = true ∧
              head (opt_Data opt) = Some mt ∧
              ∀ o, o ∈ post → decides o = false) as Hgen.
  { clear opts mt. induction opts as [|o opts IH]; intros m0 mt.
    - intros [= <-]. left. split; [done|]. by intros opt Hin%elem_of_nil.
    - simpl. fold (decides o). destruct (decides o) eqn:Hdec.
      + destruct (opt_Data o) as [|d0 ds] eqn:Hdata; [done|].
        intros [[-> Hnone]|(pre & opt & post & -> & Hd & Hh & Hpost)]%IH.
        * right. exists [], o, opts. rewrite Hdata. by repeat split.
        * right. exists (o :: pre), opt, post. by repeat split.
      + intros [[-> Hnone]|(pre & opt & post & -> & Hd & Hh & Hpost)]%IH.
        * left. split; [done|].
          intros opt [->|Hin]%elem_of_cons; [done|by apply Hnone].
        * right. exists (o :: pre), opt, post. by repeat split. }
  apply Hgen.
Qed.

(** X26: DHCP replies.  A request from a MAC that is not six bytes long
    or that the server does not know gets no reply, whatever else the
    packet holds.  A request that gets a reply comes from a known node;
    the reply goes from the router's MAC to the client's, with addresses
    and ports swapped, echoes the transaction id, offers the node's one
    configured LAN address, and names the router as server; for a
    discover it is an offer with nothing more, for a request an ack with
    lease 3600 s, the router, the virtual DNS address and the subnet mask
    of the LAN prefix, and for any other message type it carries the
    server id alone. *)
Theorem createDHCPResponse_reply request :
  (∀ eth, dh_eth request = Some eth →
     length (SrcMAC eth) ≠ 6%nat ∨ nodeByMAC !! SrcMAC eth = None →
     ∃ ev, createDHCPResponse nodeByMAC fakeDNS SerializeDHCP request
             = Ret (NoReply, ev)) ∧
  (∀ b ev,
     createDHCPResponse nodeByMAC fakeDNS SerializeDHCP request = Ret (Reply b, ev) →
     ∃ eth ip udp dhcp nd mt resp,
       dh_eth request = Some eth ∧ dh_ip4 request = Some ip ∧
       dh_udp request = Some udp ∧ dh_dhcp request = Some dhcp ∧
       nodeByMAC !! SrcMAC eth = Some nd ∧
       messageType (Options dhcp) 0 = Ret mt ∧
       SerializeDHCP
         {| SrcMAC := nn_routerMAC nd; DstMAC := SrcMAC eth;
            EthernetType := EthernetTypeIPv4 |}
         {| ip_Version := 4; ip_TTL := 64; ip_Protocol := IPProtocolUDP;
            SrcIP := DstIP ip; DstIP := SrcIP ip |}
         {| SrcPort := DstPort udp; DstPort := SrcPort udp; udp_Payload := [] |}
         resp = Some b ∧
       dhcp_Operation resp = DHCPOpReply ∧ Xid resp = Xid dhcp ∧
       ClientHWAddr resp = ClientHWAddr dhcp ∧
       YourClientIP resp = AsSlice (lanIP (nn_node nd)) ∧
       let serverID :=
         {| opt_Type := DHCPOptServerID; opt_Length := 4;
            opt_Data := AsSlice (nn_lanIP4 nd).1 |} in
       (mt = DHCPMsgTypeDiscover →
        Options resp =
          [serverID;
           {| opt_Type := DHCPOptMessageType; opt_Length := 1;
              opt_Data := [DHCPMsgTypeOffer] |}]) ∧
       (mt = DHCPMsgTypeRequest →
        Options resp =
          [serverID;
           {| opt_Type := DHCPOptMessageType; opt_Length := 1;
              opt_Data := [DHCPMsgTypeAck] |};
           {| opt_Type := DHCPOptLeaseTime; opt_Length := 4;
              opt_Data := [0; 0; 14; 16] |};
           {| opt_Type := DHCPOptRouter; opt_Length := 4;
              opt_Data := AsSlice (nn_lanIP4 nd).1 |};
           {| opt_Type := DHCPOptDNS; opt_Length := 4;
              opt_Data := AsSlice (v4 fakeDNS) |};
           {| opt_Type := DHCPOptSubnetMask; opt_Length := 4;
              opt_Data := CIDRMask (nn_lanIP4 nd).2 32 |}]) ∧
       (mt ≠ DHCPMsgTypeDiscover → mt ≠ DHCPMsgTypeRequest →
        Options resp = [serverID])).
Proof.
  split.
  - intros eth He Hbad. unfold createDHCPResponse, macOf. rewrite He.
    destruct (length (SrcMAC eth) =? 6)%nat eqn:Hlen; [|by eexists].
    apply Nat.eqb_eq in Hlen. destruct Hbad as [?|Hnone]; [done|].
    rewrite Hnone. by eexists.
  - intros b ev. unfold createDHCPResponse, macOf.
    destruct (dh_eth request) as [eth|]; [|done].
    destruct (length (SrcMAC eth) =? 6)%nat; [|done].
    destruct (nodeByMAC !! SrcMAC eth) as [nd|] eqn:Hnd; [|done].
    destruct (dh_ip4 request) as [ip|]; [|done].
    destruct (dh_udp request) as [udp|]; [|done].
    destruct (dh_dhcp request) as [dhcp|]; [|done].
    destruct (messageType (Options dhcp) 0) as [|mt] eqn:Hmt; [done|].
    cbn [mbind outcome_bind].
    destruct (SerializeDHCP _ _ _ _) as [b'|] eqn:Hs; [|done].
    intros [= <- <-].
    eexists eth, ip, udp, dhcp, nd, mt, _.
    repeat (split; [done|]). cbn [Options]. unfold responseOptions.
    split; [by intros ->|]. split; [by intros ->|].
    intros H1 H2. by apply Z.eqb_neq in H1 as ->; apply Z.eqb_neq in H2 as ->.
Qed.

End DHCPProofs.

Lemma messageType_last_witness :
  ∃ pre opt post,
    [Example2.msgTypeOption 1; Example2.msgTypeOption 3]
      = pre ++ opt :: post ∧
    decides opt = true ∧ head (opt_Data opt) = Some 3 ∧
    ∀ o, o ∈ post → decides o = false.
Proof.
  destruct (messageType_last
              [Example2.msgTypeOption 1; Example2.msgTypeOption 3] 3 eq_refl)
    as [[Hmt _]|Hlast]; [discriminate Hmt|exact Hlast].
Defined.

Lemma createDHCPResponse_reply_witness :
  ∃ resp : DHCPv4,
    YourClientIP resp = [192; 168; 2; 2] ∧
    nth_error (Options resp) 2 =
      Some {| opt_Type := DHCPOptLeaseTime; opt_Length := 4;
              opt_Data := [0; 0; 14; 16] |} ∧
    nth_error (Options resp) 5 =
      Some {| opt_Type := DHCPOptSubnetMask; opt_Length := 4;
              opt_Data := [255; 255; 255; 0] |}.
Proof.
  destruct (createDHCPResponse_reply Example2.nodes Example2.dns4
              Example2.serializeDHCP
              (Example2.dhcpRequest Example.nodeMAC [Example2.msgTypeOption 3]))
    as [_ Hreply].
  destruct (Hreply (Example.nodeMAC ++ Example.routerMAC ++ [8; 0; 192; 168; 2; 2]) []
              ltac:(vm_compute; reflexivity))
    as (eth & ip & udp & dhcp & nd & mt & resp & He & _ & _ & Hd & Hnd & Hmt
        & _ & _ & _ & _ & Hip & _ & Hack & _).
  injection He as <-. injection Hd as <-.
  assert (nd = {| nn_node := Example.node2; nn_routerMAC := Example.routerMAC;
                  nn_lanIP4 := (Addr4 3232236033, 24) |}) as ->.
  { vm_compute in Hnd. by injection Hnd as <-. }
  injection Hmt as <-. exists resp.
  split; [exact Hip|]. rewrite (Hack eq_refl). split; reflexivity.
Defined.
